(** * docker-heatmap: synchronisation, event store and aggregation

    A shallow embedding of the Go backend of docker-heatmap
    ([backend/internal/services/docker_service.go], the handlers in
    [backend/internal/handlers/docker.go] and [.../heatmap.go], the
    scheduled jobs of [backend/internal/worker/sync.go], and the
    single-file copy of the service that is carried in
    [handlers/heatmap.go]) and of the grid of its front end
    ([frontend/components/shared/heatmap-grid.tsx]), together with the
    properties of the specification that are stated about it.

    Conventions of the embedding:
    - a Go [int] is a [Z] kept in the 64-bit two's-complement range by
      [wrap64];
    - a Go [float64] is an IEEE-754 binary64 value, [spec_float] with
      precision 53 and exponent bound 1024, computed with the operations
      of [SpecFloat];
    - a [time.Time] in UTC is its Unix time in seconds; a parsed upstream
      timestamp also carries the offset of its own zone;
    - the database is a record of tables; each table is the list of its
      rows in primary-key order;
    - the registry (HTTP), the credential vault and the clock are inputs;
      a call that reads the clock more than once is given the sequence of
      its readings;
    - a call returns or panics; a panic of the runtime is an outcome of
      its own, not an error value. *)

From Stdlib Require Import ZArith Lia Bool QArith Lqa Sorted.
From Stdlib Require Import SpecFloat.
From Equations Require Import Equations.
From stdpp Require Import gmap strings list fin_maps.

Open Scope Z_scope.

(** ** Go machine integers *)

Module GoInt.

Definition minInt : Z := - 2 ^ 63.
Definition maxInt : Z := 2 ^ 63 - 1.

(** Two's-complement wrap-around of 64-bit signed arithmetic. *)
Definition wrap64 (z : Z) : Z := (z + 2 ^ 63) mod 2 ^ 64 - 2 ^ 63.

Definition add (a b : Z) : Z := wrap64 (a + b).
Definition incr (a : Z) : Z := add a 1.

Definition inRange (z : Z) : Prop := minInt <= z <= maxInt.

End GoInt.

(** ** Go float64 *)

Module Float64.

Definition prec : Z := 53.
Definition emax : Z := 1024.

Definition float64 : Type := spec_float.

(** The conversion [float64(n)] of an integer: round to nearest even. *)
Definition of_int (n : Z) : float64 := binary_normalize prec emax n 0 false.

(** The literal [m * 2^e]. *)
Definition of_dyadic (m e : Z) : float64 := binary_normalize prec emax m e false.

Definition div (x y : float64) : float64 := SFdiv prec emax x y.

(** [gt x y] is Go's [x > y]; it is false when either side is NaN. *)
Definition gt (x y : float64) : bool := SFltb y x.

Definition zero : float64 := S754_zero false.
Definition c0_25 : float64 := of_dyadic 1 (-2).
Definition c0_5 : float64 := of_dyadic 1 (-1).
Definition c0_75 : float64 := of_dyadic 3 (-2).

End Float64.

(** ** Time *)

Module Time.

Definition secondsPerDay : Z := 86400.

(** Number of the UTC calendar day that contains the instant [t]. *)
Definition dayOf (t : Z) : Z := t / secondsPerDay.

(** The instant at which day [d] starts: [time.Date(y, m, d, 0,0,0,0, time.UTC)]. *)
Definition midnightUTC (d : Z) : Z := d * secondsPerDay.

(** [time.Date(t.Year(), t.Month(), t.Day(), 0,0,0,0, time.UTC)] for [t] in UTC. *)
Definition truncateToDay (t : Z) : Z := midnightUTC (dayOf t).

(** [t.AddDate(0, 0, n)] for [t] in UTC. *)
Definition AddDays (t n : Z) : Z := t + n * secondsPerDay.

(** A timestamp as returned by [time.Parse]: the instant and the offset
    (seconds east of UTC) of the zone written in the text. *)
Record Parsed : Type := { instant : Z; zoneOffset : Z }.

(** Day number of the [Year(), Month(), Day()] of a parsed timestamp,
    read in its own zone. *)
Definition civilDayOf (t : Parsed) : Z := (instant t + zoneOffset t) / secondsPerDay.

(** Proleptic Gregorian calendar: (year, month, day) of a day number. *)
Definition civilFromDays (n : Z) : Z * Z * Z :=
  let z := n + 719468 in
  let era := z / 146097 in
  let doe := z mod 146097 in
  let yoe := (doe - doe / 1460 + doe / 36524 - doe / 146096) / 365 in
  let doy := doe - (365 * yoe + yoe / 4 - yoe / 100) in
  let mp := (5 * doy + 2) / 153 in
  let d := doy - (153 * mp + 2) / 5 + 1 in
  let m := if mp <? 10 then mp + 3 else mp - 9 in
  let y := yoe + era * 400 in
  (if m <=? 2 then y + 1 else y, m, d).

(** Day number of (year, month, day); days past the end of the month
    run over into the next one, as [time.Date] normalises them. *)
Definition daysFromCivil (y m d : Z) : Z :=
  let y' := if m <=? 2 then y - 1 else y in
  let era := y' / 400 in
  let yoe := y' mod 400 in
  let mp := if 2 <? m then m - 3 else m + 9 in
  let doy := (153 * mp + 2) / 5 + d - 1 in
  let doe := yoe * 365 + yoe / 4 - yoe / 100 + doy in
  era * 146097 + doe - 719468.

(** [t.AddDate(n, 0, 0)] for [t] in UTC. *)
Definition AddYears (t n : Z) : Z :=
  let '(y, m, d) := civilFromDays (dayOf t) in
  midnightUTC (daysFromCivil (y + n) m d) + t mod secondsPerDay.

Definition digit (n : Z) : Ascii.ascii :=
  Ascii.ascii_of_nat (48 + Z.to_nat (n mod 10)).

Definition pad2 (n : Z) : string :=
  String (digit (n / 10)) (String (digit n) EmptyString).

Definition pad4 (n : Z) : string :=
  String (digit (n / 1000)) (String (digit (n / 100)) (pad2 n)).

(** [time.Format] with layout "2006-01-02" of day [n], for the years
    0000 to 9999. *)
Definition formatDay (n : Z) : string :=
  let '(y, m, d) := civilFromDays n in
  pad4 y +:+ "-" +:+ pad2 m +:+ "-" +:+ pad2 d.

(** [t.Format("2006-01-02")] for [t] in UTC. *)
Definition Format (t : Z) : string := formatDay (dayOf t).

(** The loop [for d := start; !d.After(end); d = d.AddDate(0, 0, 1)]
    that appends [body d] to a slice at every pass; [d.After(end)] is
    [end < d]. *)
Equations? forEachDay {A : Type} (body : Z -> A) (endDate d : Z) : list A
    by wf (Z.to_nat (endDate - d + 1)) lt :=
  forEachDay body endDate d with Z_lt_dec endDate d := {
    | left _ => [];
    | right _ => body d :: forEachDay body endDate (AddDays d 1) }.
Proof. unfold AddDays, secondsPerDay. lia. Qed.

End Time.

(** ** The clock *)

(** The readings of [time.Now()] that one call makes, in the order in
    which it makes them: those of [reads] first, and [rest] at every
    reading after them. *)
Module Clock.

Record t : Type := { reads : list Z; rest : Z }.

(** [time.Now()]: the reading, and the clock for the readings that follow. *)
Definition Now (c : t) : Z * t :=
  match reads c with
  | [] => (rest c, c)
  | now :: later => (now, {| reads := later; rest := rest c |})
  end.

(** A clock that reads [now] every time. *)
Definition fixed (now : Z) : t := {| reads := []; rest := now |}.

(** The readings that can follow the first one. *)
Definition later (c : t) : list Z := reads (Now c).2 ++ [rest c].

(** The loop [for d := start; !d.After(time.Now().UTC()); d = d.AddDate(0, 0, 1)]
    that appends [body d] to a slice at every pass.  Every test reads the
    clock; once the readings of [reads] are used up the clock stands at
    [rest], where the loop is the one of [Time.forEachDay]. *)
Fixpoint forEachDayOf {A : Type} (body : Z -> A) (reads : list Z) (rest : Z) (d : Z)
    : list A :=
  match reads with
  | [] => Time.forEachDay body rest d
  | now :: later =>
      if Z_lt_dec now d then []
      else body d :: forEachDayOf body later rest (Time.AddDays d 1)
  end.

Definition forEachDay {A : Type} (body : Z -> A) (c : t) (d : Z) : list A :=
  forEachDayOf body (reads c) (rest c) d.

End Clock.

(** ** The runtime *)

Module Runtime.

(** The largest allocation of the runtime on a 64-bit platform. *)
Definition maxAlloc : Z := 2 ^ 48.

(** Whether [make([]T, 0, cap)] returns, for elements of [size] bytes:
    the runtime panics unless [0 <= cap] and [size * cap <= maxAlloc].
    The allocation itself is taken to succeed. *)
Definition makeslice (size cap : Z) : bool :=
  (0 <=? cap) && (size * cap <=? maxAlloc).

(** The text of the panic of [make]. *)
Definition capOutOfRange : string := "runtime error: makeslice: cap out of range".

(** Modelled from the spec: a [models.ActivitySummary] is a string and
    five integers, 16 + 5 * 8 bytes. *)
Definition sizeofActivitySummary : Z := 56.

End Runtime.

(** ** Results of fallible calls *)

(** A Go [(value, error)] pair: [Err msg] stands for a non-nil error whose
    [Error()] text is [msg]. *)
Inductive result (A : Type) : Type :=
  | Ok (a : A)
  | Err (msg : string).
Arguments Ok {A} a.
Arguments Err {A} msg.

(** A call returns, or it panics with a run-time error of text [msg]. *)
Inductive outcome (A : Type) : Type :=
  | Returns (a : A)
  | Panics (msg : string).
Arguments Returns {A} a.
Arguments Panics {A} msg.

(** ** Models *)

(** Modelled from the spec: the [models] package is not among the sources;
    the event kinds are "push | pull | build" of the data model. *)
Inductive EventType : Type := EventTypePush | EventTypePull | EventTypeBuild.

#[global] Instance EventType_eq_dec : EqDecision EventType.
Proof. solve_decision. Defined.

(** Modelled from the spec: [models.DockerAccount], with the fields that
    the services and handlers read and write. *)
Module DockerAccount.
Record t : Type := {
  ID : Z;
  UserID : Z;
  DockerUsername : string;
  EncryptedToken : string;
  TokenIV : string;
  IsActive : bool;
  AutoRefresh : bool;
  SyncInProgress : bool;
  LastSyncAt : option Z;
  LastSyncError : string
}.

Definition setSyncInProgress (b : bool) (a : t) : t :=
  {| ID := ID a; UserID := UserID a; DockerUsername := DockerUsername a;
     EncryptedToken := EncryptedToken a; TokenIV := TokenIV a;
     IsActive := IsActive a; AutoRefresh := AutoRefresh a;
     SyncInProgress := b;
     LastSyncAt := LastSyncAt a; LastSyncError := LastSyncError a |}.

Definition setLastSyncAt (ts : option Z) (a : t) : t :=
  {| ID := ID a; UserID := UserID a; DockerUsername := DockerUsername a;
     EncryptedToken := EncryptedToken a; TokenIV := TokenIV a;
     IsActive := IsActive a; AutoRefresh := AutoRefresh a;
     SyncInProgress := SyncInProgress a;
     LastSyncAt := ts; LastSyncError := LastSyncError a |}.

Definition setLastSyncError (msg : string) (a : t) : t :=
  {| ID := ID a; UserID := UserID a; DockerUsername := DockerUsername a;
     EncryptedToken := EncryptedToken a; TokenIV := TokenIV a;
     IsActive := IsActive a; AutoRefresh := AutoRefresh a;
     SyncInProgress := SyncInProgress a;
     LastSyncAt := LastSyncAt a; LastSyncError := msg |}.
End DockerAccount.

(** Modelled from the spec: [models.ActivityEvent], with the fields that
    [createActivity] writes. *)
Module ActivityEvent.
Record t : Type := {
  DockerAccountID : Z;
  Kind : EventType;        (* the field [EventType] *)
  EventDate : Z;
  Repository : string;
  Tag : string;
  Count : Z
}.

Definition setCount (n : Z) (e : t) : t :=
  {| DockerAccountID := DockerAccountID e; Kind := Kind e; EventDate := EventDate e;
     Repository := Repository e; Tag := Tag e; Count := n |}.
End ActivityEvent.

(** Modelled from the spec: [models.ActivitySummary], the per-day element
    of the activity series "{date, total_count, pushes, pulls, builds, level}". *)
Module ActivitySummary.
Record t : Type := {
  Date : string;
  TotalCount : Z;
  Pushes : Z;
  Pulls : Z;
  Builds : Z;
  Level : Z
}.

(** [models.ActivitySummary{Date: dateStr}]. *)
Definition new (dateStr : string) : t :=
  {| Date := dateStr; TotalCount := 0; Pushes := 0; Pulls := 0; Builds := 0; Level := 0 |}.

Definition setTotalCount (n : Z) (s : t) : t :=
  {| Date := Date s; TotalCount := n; Pushes := Pushes s; Pulls := Pulls s;
     Builds := Builds s; Level := Level s |}.

Definition setPushes (n : Z) (s : t) : t :=
  {| Date := Date s; TotalCount := TotalCount s; Pushes := n; Pulls := Pulls s;
     Builds := Builds s; Level := Level s |}.

Definition setPulls (n : Z) (s : t) : t :=
  {| Date := Date s; TotalCount := TotalCount s; Pushes := Pushes s; Pulls := n;
     Builds := Builds s; Level := Level s |}.

Definition setBuilds (n : Z) (s : t) : t :=
  {| Date := Date s; TotalCount := TotalCount s; Pushes := Pushes s; Pulls := Pulls s;
     Builds := n; Level := Level s |}.

Definition setLevel (n : Z) (s : t) : t :=
  {| Date := Date s; TotalCount := TotalCount s; Pushes := Pushes s; Pulls := Pulls s;
     Builds := Builds s; Level := n |}.
End ActivitySummary.

(** [DockerHubRepository] and [DockerHubTag] of the registry client; only
    the fields used by the synchronisation are kept. *)
Module DockerHubRepository.
Record t : Type := { Name : string; LastUpdated : string }.
End DockerHubRepository.

Module DockerHubTag.
Record t : Type := { Name : string; TagLastPushed : string }.
End DockerHubTag.

(** ** The database *)

Module Store.

(** The two tables, rows in primary-key order, and the sequence that
    numbers new accounts. *)
Record DB : Type := {
  accounts : list DockerAccount.t;
  events : list ActivityEvent.t;
  accountSeq : Z
}.

Definition empty : DB := {| accounts := []; events := []; accountSeq := 1 |}.

Definition setAccounts (l : list DockerAccount.t) (db : DB) : DB :=
  {| accounts := l; events := events db; accountSeq := accountSeq db |}.

Definition setEvents (l : list ActivityEvent.t) (db : DB) : DB :=
  {| accounts := accounts db; events := l; accountSeq := accountSeq db |}.

(** [DB.Where(cond).First(&row)]: the first row, in primary-key order,
    that satisfies the condition, with its position. *)
Definition first {A : Type} (cond : A -> bool) (rows : list A) : option (nat * A) :=
  list_find (fun row => cond row = true) rows.

(** [DB.First(&account, accountID)]. *)
Definition firstAccountByID (db : DB) (accountID : Z) : option DockerAccount.t :=
  snd <$> first (fun a => bool_decide (DockerAccount.ID a = accountID)) (accounts db).

(** [DB.Save(&account)]: every column of the row with the primary key
    of [account] is overwritten; a row that is gone is inserted again. *)
Definition saveAccount (account : DockerAccount.t) (db : DB) : DB :=
  match first (fun a => bool_decide (DockerAccount.ID a = DockerAccount.ID account))
              (accounts db) with
  | Some (i, _) => setAccounts (<[i := account]> (accounts db)) db
  | None => setAccounts (accounts db ++ [account]) db
  end.

(** [DB.Where(cond).Delete(&models.ActivityEvent{})]. *)
Definition deleteEvents (cond : ActivityEvent.t -> bool) (db : DB) : DB :=
  setEvents (List.filter (fun e => negb (cond e)) (events db)) db.

(** [DB.Where(cond).Delete(&models.DockerAccount{})]. *)
Definition deleteAccounts (cond : DockerAccount.t -> bool) (db : DB) : DB :=
  setAccounts (List.filter (fun a => negb (cond a)) (accounts db)) db.

End Store.

(** ** The outside world *)

(** What one run observes of the registry, of the credential vault
    ([utils.Encrypt], [utils.Decrypt]) and of [time.Parse]. *)
Record World : Type := {
  utilsEncrypt : string -> result (string * string);
  utilsDecrypt : string -> string -> result string;
  (** outcome of [POST /users/login] with a non-empty token *)
  hubLogin : string -> string -> result string;
  (** outcome of [GET /users/<name>] *)
  hubUser : string -> result unit;
  (** outcome of [GET /repositories/<name>] with the given bearer token *)
  hubRepositories : string -> string -> result (list DockerHubRepository.t);
  (** outcome of [GET /repositories/<name>/<repo>/tags] *)
  hubTags : string -> string -> string -> result (list DockerHubTag.t);
  (** first of the four layouts that [time.Parse] accepts, if any *)
  timeParse : string -> option Time.Parsed
}.


(** ** The service of [services/docker_service.go] *)

Module Service.

Definition ErrDockerAccountNotFound : string := "docker account not found".

(** *** Intensity level *)

Definition calculateLevel (count maxCount : Z) : Z :=
  if (count =? 0) || (maxCount =? 0) then 0
  else
    let ratio := Float64.div (Float64.of_int count) (Float64.of_int maxCount) in
    if Float64.gt ratio Float64.c0_75 then 4
    else if Float64.gt ratio Float64.c0_5 then 3
    else if Float64.gt ratio Float64.c0_25 then 2
    else 1.

(** *** Event store *)

(** The condition of the lookup in [createActivity]:
    [docker_account_id = ? AND event_date = ? AND repository = ? AND tag = ?]. *)
Definition sameObservation (accountID normalizedDate : Z) (repo tag : string)
    (e : ActivityEvent.t) : bool :=
  bool_decide (ActivityEvent.DockerAccountID e = accountID)
  && bool_decide (ActivityEvent.EventDate e = normalizedDate)
  && bool_decide (ActivityEvent.Repository e = repo)
  && bool_decide (ActivityEvent.Tag e = tag).

(** [createActivity]: the new database and whether a row was created. *)
Definition createActivity (db : Store.DB) (account : DockerAccount.t)
    (eventType : EventType) (eventDate : Time.Parsed) (repo tag : string)
    : Store.DB * bool :=
  let normalizedDate := Time.midnightUTC (Time.civilDayOf eventDate) in
  match Store.first (sameObservation (DockerAccount.ID account) normalizedDate repo tag)
                    (Store.events db) with
  | Some (i, existing) =>
      let existing := ActivityEvent.setCount (GoInt.incr (ActivityEvent.Count existing))
                                             existing in
      (Store.setEvents (<[i := existing]> (Store.events db)) db, false)
  | None =>
      let event :=
        {| ActivityEvent.DockerAccountID := DockerAccount.ID account;
           ActivityEvent.Kind := eventType;
           ActivityEvent.EventDate := normalizedDate;
           ActivityEvent.Repository := repo;
           ActivityEvent.Tag := tag;
           ActivityEvent.Count := 1 |} in
      (Store.setEvents (Store.events db ++ [event]) db, true)
  end.

(** *** Accounts *)

Definition GetDockerAccount (db : Store.DB) (userID : Z) : result DockerAccount.t :=
  match Store.first (fun a => bool_decide (DockerAccount.UserID a = userID))
                    (Store.accounts db) with
  | Some (_, account) => Ok account
  | None => Err ErrDockerAccountNotFound
  end.

Definition GetDockerAccountByUsername (db : Store.DB) (dockerUsername : string)
    : result DockerAccount.t :=
  match Store.first (fun a => bool_decide (DockerAccount.DockerUsername a = dockerUsername))
                    (Store.accounts db) with
  | Some (_, account) => Ok account
  | None => Err ErrDockerAccountNotFound
  end.

Definition DisconnectAccount (db : Store.DB) (userID accountID : Z) : Store.DB * result unit :=
  let db := Store.deleteEvents
              (fun e => bool_decide (ActivityEvent.DockerAccountID e = accountID)) db in
  let hit := fun a => bool_decide (DockerAccount.ID a = accountID)
                      && bool_decide (DockerAccount.UserID a = userID) in
  let rowsAffected := length (List.filter hit (Store.accounts db)) in
  let db := Store.deleteAccounts hit db in
  if Nat.eqb rowsAffected 0 then (db, Err ErrDockerAccountNotFound) else (db, Ok tt).

(** *** Synchronisation *)

Section WithWorld.

Variable w : World.

(** [login] of the registry client: an empty token is refused before any
    request is made. *)
Definition login (username pat : string) : result string :=
  if bool_decide (pat = "") then Err "PAT is required for login"
  else hubLogin w username pat.

Definition validateUsername (username : string) : result unit := hubUser w username.

Definition FetchRepositories (username token : string)
    : result (list DockerHubRepository.t) :=
  hubRepositories w username token.

Definition FetchTags (username repoName token : string) : result (list DockerHubTag.t) :=
  hubTags w username repoName token.

Definition parseDockerHubTime (dateStr : string) : result Time.Parsed :=
  match timeParse w dateStr with
  | Some t => Ok t
  | None => Err ("unable to parse date: " +:+ dateStr)
  end.

(** One pass of the loop over the tags of a repository.  The state is the
    database and the counter [eventsCreated]. *)
Definition syncTag (account : DockerAccount.t) (repoName : string)
    (st : Store.DB * Z) (tag : DockerHubTag.t) : Store.DB * Z :=
  if bool_decide (DockerHubTag.TagLastPushed tag = "") then st
  else
    match parseDockerHubTime (DockerHubTag.TagLastPushed tag) with
    | Ok t =>
        let '(db, created) :=
          createActivity (fst st) account EventTypePush t repoName (DockerHubTag.Name tag) in
        (db, if created then GoInt.incr (snd st) else snd st)
    | Err _ => st
    end.

(** One pass of the loop over the repositories. *)
Definition syncRepo (account : DockerAccount.t) (token : string)
    (st : Store.DB * Z) (repo : DockerHubRepository.t) : Store.DB * Z :=
  let st :=
    if bool_decide (DockerHubRepository.LastUpdated repo = "") then st
    else
      match parseDockerHubTime (DockerHubRepository.LastUpdated repo) with
      | Ok t =>
          let '(db, created) :=
            createActivity (fst st) account EventTypePush t
                           (DockerHubRepository.Name repo) "" in
          (db, if created then GoInt.incr (snd st) else snd st)
      | Err _ => st
      end in
  (* tags, _ := s.FetchTags(...): a failed fetch leaves no tags to visit *)
  let tags :=
    match FetchTags (DockerAccount.DockerUsername account)
                    (DockerHubRepository.Name repo) token with
    | Ok tags => tags
    | Err _ => []
    end in
  fold_left (syncTag account (DockerHubRepository.Name repo)) tags st.

(** The body of [SyncActivity] between the first [Save] and the deferred
    function: the database, the local [account] and the returned error. *)
Definition syncBody (db : Store.DB) (account : DockerAccount.t)
    : Store.DB * DockerAccount.t * result unit :=
  match utilsDecrypt w (DockerAccount.EncryptedToken account)
                       (DockerAccount.TokenIV account) with
  | Err e => (db, account, Err e)
  | Ok pat =>
      match login (DockerAccount.DockerUsername account) pat with
      | Err e =>
          (db, DockerAccount.setLastSyncError "Authentication failed" account, Err e)
      | Ok token =>
          match FetchRepositories (DockerAccount.DockerUsername account) token with
          | Err e =>
              (db, DockerAccount.setLastSyncError "Failed to fetch repositories" account,
               Err e)
          | Ok repos =>
              let '(db, _) := fold_left (syncRepo account token) repos (db, 0) in
              (db, DockerAccount.setLastSyncError "" account, Ok tt)
          end
      end
  end.

(** The deferred function of [SyncActivity]; [now] is the clock when it runs. *)
Definition syncDeferred (now : Z) (db : Store.DB) (account : DockerAccount.t) : Store.DB :=
  let account := DockerAccount.setSyncInProgress false account in
  let account := DockerAccount.setLastSyncAt (Some now) account in
  Store.saveAccount account db.

(** The start of [SyncActivity]: load the account, set the flag, save. *)
Definition syncBegin (db : Store.DB) (accountID : Z)
    : result (Store.DB * DockerAccount.t) :=
  match Store.firstAccountByID db accountID with
  | None => Err "record not found"
  | Some account =>
      let account := DockerAccount.setSyncInProgress true account in
      Ok (Store.saveAccount account db, account)
  end.

Definition SyncActivity (now : Z) (db : Store.DB) (accountID : Z)
    : Store.DB * result unit :=
  match syncBegin db accountID with
  | Err e => (db, Err e)
  | Ok (db, account) =>
      let '(db, account, err) := syncBody db account in
      (syncDeferred now db account, err)
  end.

(** [ConnectAccount]: the transaction commits only when its function
    returns no error.  On success the first synchronisation of the
    returned account is started in the background. *)
Definition ConnectAccount (db : Store.DB) (userID : Z) (dockerUsername accessToken : string)
    : Store.DB * result DockerAccount.t :=
  let conflict (a : DockerAccount.t) :=
    bool_decide (DockerAccount.DockerUsername a = dockerUsername)
    && negb (bool_decide (DockerAccount.UserID a = userID)) in
  match Store.first conflict (Store.accounts db) with
  | Some _ => (db, Err "this Docker username is connected to another account")
  | None =>
      let stale (a : DockerAccount.t) :=
        bool_decide (DockerAccount.UserID a = userID)
        || bool_decide (DockerAccount.DockerUsername a = dockerUsername) in
      let accountIDs := DockerAccount.ID <$> List.filter stale (Store.accounts db) in
      let tx :=
        if Nat.ltb 0 (length accountIDs) then
          Store.deleteAccounts
            (fun a => bool_decide (DockerAccount.ID a ∈ accountIDs))
            (Store.deleteEvents
               (fun e => bool_decide (ActivityEvent.DockerAccountID e ∈ accountIDs)) db)
        else db in
      match validateUsername dockerUsername with
      | Err e => (db, Err e)
      | Ok _ =>
          match login dockerUsername accessToken with
          | Err e => (db, Err ("invalid access token: " +:+ e))
          | Ok _ =>
              match utilsEncrypt w accessToken with
              | Err e => (db, Err e)
              | Ok (encryptedToken, iv) =>
                  let account :=
                    {| DockerAccount.ID := Store.accountSeq tx;
                       DockerAccount.UserID := userID;
                       DockerAccount.DockerUsername := dockerUsername;
                       DockerAccount.EncryptedToken := encryptedToken;
                       DockerAccount.TokenIV := iv;
                       DockerAccount.IsActive := true;
                       DockerAccount.AutoRefresh := true;
                       DockerAccount.SyncInProgress := false;
                       DockerAccount.LastSyncAt := None;
                       DockerAccount.LastSyncError := "" |} in
                  ({| Store.accounts := Store.accounts tx ++ [account];
                      Store.events := Store.events tx;
                      Store.accountSeq := Store.accountSeq tx + 1 |},
                   Ok account)
              end
          end
      end
  end.

End WithWorld.

(** *** Aggregation *)

(** The body of the loop over the queried events: the map from date
    strings to summaries and the running maximum. *)
Definition aggregate (st : gmap string ActivitySummary.t * Z) (event : ActivityEvent.t)
    : gmap string ActivitySummary.t * Z :=
  let '(dateMap, maxCount) := st in
  let dateStr := Time.Format (ActivityEvent.EventDate event) in
  let dateMap :=
    match dateMap !! dateStr with
    | Some _ => dateMap
    | None => <[dateStr := ActivitySummary.new dateStr]> dateMap
    end in
  let dateMap :=
    alter (fun s => ActivitySummary.setTotalCount
                      (GoInt.add (ActivitySummary.TotalCount s) (ActivityEvent.Count event)) s)
          dateStr dateMap in
  let total := default 0 (ActivitySummary.TotalCount <$> dateMap !! dateStr) in
  (dateMap, if maxCount <? total then total else maxCount).

(** The summary appended for the day that starts at [d]. *)
Definition summaryFor (dateMap : gmap string ActivitySummary.t) (maxCount d : Z)
    : ActivitySummary.t :=
  let dateStr := Time.Format d in
  let summary := ActivitySummary.new dateStr in
  match dateMap !! dateStr with
  | Some s =>
      ActivitySummary.setLevel
        (calculateLevel (ActivitySummary.TotalCount s) maxCount)
        (ActivitySummary.setTotalCount (ActivitySummary.TotalCount s) summary)
  | None => summary
  end.

(** The first day of the window: [days] days before today, at midnight. *)
Definition startOfWindow (now days : Z) : Z :=
  Time.truncateToDay (Time.AddDays now (- days)).

(** The rows returned by the query of [GetActivitySummary]. *)
Definition queryEvents (db : Store.DB) (accountID startDate : Z) : list ActivityEvent.t :=
  List.filter (fun e => bool_decide (ActivityEvent.DockerAccountID e = accountID)
                        && (startDate <=? ActivityEvent.EventDate e))
              (Store.events db).

(** [GetActivitySummary]: the clock is read for [startDate] and again at
    every test of the loop over the days; [make] panics on a capacity
    [days+1] that is out of range. *)
Definition GetActivitySummary (db : Store.DB) (clock : Clock.t) (dockerUsername : string)
    (days : Z) : outcome (result (list ActivitySummary.t)) :=
  match GetDockerAccountByUsername db dockerUsername with
  | Err e => Returns (Err e)
  | Ok account =>
      let '(now, clock) := Clock.Now clock in
      let startDate := startOfWindow now days in
      let events := queryEvents db (DockerAccount.ID account) startDate in
      let '(dateMap, maxCount) := fold_left aggregate events (∅, 0) in
      if Runtime.makeslice Runtime.sizeofActivitySummary (GoInt.add days 1) then
        Returns (Ok (Clock.forEachDay (summaryFor dateMap maxCount) clock startDate))
      else Panics Runtime.capOutOfRange
  end.

End Service.

(** ** The service copy carried in [handlers/heatmap.go] *)

Module ServiceH.

(** *** Intensity level *)

Definition calculateLevel (count maxCount : Z) : Z :=
  if (count =? 0) || (maxCount =? 0) then 0
  else
    let ratio := Float64.div (Float64.of_int count) (Float64.of_int maxCount) in
    if Float64.gt ratio Float64.c0_75 then 4
    else if Float64.gt ratio Float64.c0_5 then 3
    else if Float64.gt ratio Float64.c0_25 then 2
    else if Float64.gt ratio Float64.zero then 1
    else 0.

(** *** Event store *)

(** [createActivity] has the same lookup, increment and insertion as in
    [docker_service.go]. *)
Definition createActivity := Service.createActivity.

Definition GetDockerAccountByUsername := Service.GetDockerAccountByUsername.

(** *** Synchronisation *)

Section WithWorld.

Variable w : World.

Definition FetchRepositories (username token : string)
    : result (list DockerHubRepository.t) :=
  hubRepositories w username token.

Definition FetchTags (username repoName token : string) : result (list DockerHubTag.t) :=
  hubTags w username repoName token.

Definition parseDockerTime (dateStr : string) : result Time.Parsed :=
  match timeParse w dateStr with
  | Some t => Ok t
  | None => Err ("unable to parse date: " +:+ dateStr)
  end.

Definition syncTag (account : DockerAccount.t) (repoName : string)
    (st : Store.DB * Z) (tag : DockerHubTag.t) : Store.DB * Z :=
  if bool_decide (DockerHubTag.TagLastPushed tag = "") then st
  else
    match parseDockerTime (DockerHubTag.TagLastPushed tag) with
    | Err _ => st
    | Ok parsedTime =>
        let '(db, created) :=
          createActivity (fst st) account EventTypePush parsedTime repoName
                         (DockerHubTag.Name tag) in
        (db, if created then GoInt.incr (snd st) else snd st)
    end.

Definition syncRepo (account : DockerAccount.t) (token : string)
    (st : Store.DB * Z) (repo : DockerHubRepository.t) : Store.DB * Z :=
  let st :=
    if bool_decide (DockerHubRepository.LastUpdated repo = "") then st
    else
      match parseDockerTime (DockerHubRepository.LastUpdated repo) with
      | Err _ => st
      | Ok parsedTime =>
          let '(db, created) :=
            createActivity (fst st) account EventTypePush parsedTime
                           (DockerHubRepository.Name repo) "" in
          (db, if created then GoInt.incr (snd st) else snd st)
      end in
  match FetchTags (DockerAccount.DockerUsername account)
                  (DockerHubRepository.Name repo) token with
  | Err _ => st                                  (* log and continue *)
  | Ok tags => fold_left (syncTag account (DockerHubRepository.Name repo)) tags st
  end.

Definition syncBody (db : Store.DB) (account : DockerAccount.t)
    : Store.DB * DockerAccount.t * result unit :=
  let token :=
    match utilsDecrypt w (DockerAccount.EncryptedToken account)
                         (DockerAccount.TokenIV account) with
    | Ok token => token
    | Err _ => ""               (* Continue anyway, maybe public access works *)
    end in
  match FetchRepositories (DockerAccount.DockerUsername account) token with
  | Err e => (db, DockerAccount.setLastSyncError e account, Err e)
  | Ok repos =>
      if Nat.eqb (length repos) 0 then
        (db, DockerAccount.setLastSyncError "" account, Ok tt)
      else
        let '(db, _) := fold_left (syncRepo account token) repos (db, 0) in
        (db, DockerAccount.setLastSyncError "" account, Ok tt)
  end.

Definition syncDeferred (now : Z) (db : Store.DB) (account : DockerAccount.t) : Store.DB :=
  let account := DockerAccount.setSyncInProgress false account in
  let account := DockerAccount.setLastSyncAt (Some now) account in
  Store.saveAccount account db.

Definition syncBegin (db : Store.DB) (accountID : Z)
    : result (Store.DB * DockerAccount.t) :=
  match Store.firstAccountByID db accountID with
  | None => Err ("account not found: " +:+ "record not found")
  | Some account =>
      let account := DockerAccount.setSyncInProgress true account in
      Ok (Store.saveAccount account db, account)
  end.

Definition SyncActivity (now : Z) (db : Store.DB) (accountID : Z)
    : Store.DB * result unit :=
  match syncBegin db accountID with
  | Err e => (db, Err e)
  | Ok (db, account) =>
      let '(db, account, err) := syncBody db account in
      (syncDeferred now db account, err)
  end.

End WithWorld.

(** *** Aggregation *)

(** The body of the loop that aggregates the queried events by date. *)
Definition aggregate (dateMap : gmap string ActivitySummary.t) (event : ActivityEvent.t)
    : gmap string ActivitySummary.t :=
  let dateStr := Time.Format (ActivityEvent.EventDate event) in
  let dateMap :=
    match dateMap !! dateStr with
    | Some _ => dateMap
    | None => <[dateStr := ActivitySummary.new dateStr]> dateMap
    end in
  alter (fun summary =>
           let summary :=
             ActivitySummary.setTotalCount
               (GoInt.add (ActivitySummary.TotalCount summary) (ActivityEvent.Count event))
               summary in
           match ActivityEvent.Kind event with
           | EventTypePush =>
               ActivitySummary.setPushes
                 (GoInt.add (ActivitySummary.Pushes summary) (ActivityEvent.Count event))
                 summary
           | EventTypePull =>
               ActivitySummary.setPulls
                 (GoInt.add (ActivitySummary.Pulls summary) (ActivityEvent.Count event))
                 summary
           | EventTypeBuild =>
               ActivitySummary.setBuilds
                 (GoInt.add (ActivitySummary.Builds summary) (ActivityEvent.Count event))
                 summary
           end)
        dateStr dateMap.

(** [maxCount]: the largest total among the entries of the map. *)
Definition maxOf (dateMap : gmap string ActivitySummary.t) : Z :=
  map_fold (fun _ s maxCount =>
              if maxCount <? ActivitySummary.TotalCount s
              then ActivitySummary.TotalCount s else maxCount)
           0 dateMap.

Definition summaryFor (dateMap : gmap string ActivitySummary.t) (maxCount d : Z)
    : ActivitySummary.t :=
  let dateStr := Time.Format d in
  match dateMap !! dateStr with
  | Some summary =>
      ActivitySummary.setLevel
        (calculateLevel (ActivitySummary.TotalCount summary) maxCount) summary
  | None => ActivitySummary.setLevel 0 (ActivitySummary.new dateStr)
  end.

Definition startOfWindow (now days : Z) : Z :=
  Time.truncateToDay (Time.AddDays now (- days)).

Definition queryEvents (db : Store.DB) (accountID startDate endDate : Z)
    : list ActivityEvent.t :=
  List.filter (fun e => bool_decide (ActivityEvent.DockerAccountID e = accountID)
                        && (startDate <=? ActivityEvent.EventDate e)
                        && (ActivityEvent.EventDate e <=? endDate))
              (Store.events db).

(** [GetActivitySummary]: the clock is read once for [startDate] and once
    for [endDate]; [make] panics on a capacity [days+1] that is out of
    range. *)
Definition GetActivitySummary (db : Store.DB) (clock : Clock.t) (dockerUsername : string)
    (days : Z) : outcome (result (list ActivitySummary.t)) :=
  match GetDockerAccountByUsername db dockerUsername with
  | Err e => Returns (Err e)
  | Ok account =>
      let '(now, clock) := Clock.Now clock in
      let startDate := startOfWindow now days in
      let '(endDate, clock) := Clock.Now clock in
      let events := queryEvents db (DockerAccount.ID account) startDate endDate in
      let dateMap := fold_left aggregate events ∅ in
      let maxCount := maxOf dateMap in
      if Runtime.makeslice Runtime.sizeofActivitySummary (GoInt.add days 1) then
        Returns (Ok (Time.forEachDay (summaryFor dateMap maxCount) endDate startDate))
      else Panics Runtime.capOutOfRange
  end.

End ServiceH.

(** ** Handlers *)

Module Handlers.

Definition StatusOK : Z := 200.
Definition StatusBadRequest : Z := 400.
Definition StatusUnauthorized : Z := 401.
Definition StatusNotFound : Z := 404.
Definition StatusConflict : Z := 409.
Definition StatusInternalServerError : Z := 500.

Record Totals : Type := { activities : Z; pushes : Z; pulls : Z; builds : Z }.

(** The JSON bodies that the two handlers send. *)
Inductive Response : Type :=
  | Message (status : Z) (message : string)
  | Error (status : Z) (error : string)
  | Activity (username : string) (days : Z) (totals : Totals)
             (activity : list ActivitySummary.t).

(** [SyncDockerActivity] of [handlers/docker.go].  [user] is the user that
    the middleware found in the request context, if any.  The result is
    the database after the handler has returned, the response, and the
    account for which [go SyncActivity(...)] was started, if any. *)
Definition SyncDockerActivity (db : Store.DB) (user : option Z)
    : Store.DB * Response * option Z :=
  match user with
  | None => (db, Error StatusUnauthorized "Unauthorized", None)
  | Some userID =>
      match Service.GetDockerAccount db userID with
      | Err _ => (db, Error StatusNotFound "No Docker account connected", None)
      | Ok account =>
          if DockerAccount.SyncInProgress account then
            (db, Error StatusConflict "Sync already in progress", None)
          else
            (db, Message StatusOK "Sync started", Some (DockerAccount.ID account))
      end
  end.

(** A request followed by the run of the goroutine it started, with
    nothing else in between. *)
Definition SyncDockerActivityAndRun (w : World) (now : Z) (db : Store.DB) (user : option Z)
    : Store.DB * Response :=
  let '(db, response, started) := SyncDockerActivity db user in
  match started with
  | Some accountID => (fst (Service.SyncActivity w now db accountID), response)
  | None => (db, response)
  end.

(** [strings.TrimSuffix]. *)
Definition TrimSuffix (s suffix : string) : string :=
  let n := String.length s in
  let k := String.length suffix in
  if Nat.leb k n && bool_decide (String.substring (n - k) k s = suffix)
  then String.substring 0 (n - k) s
  else s.

(** The totals loop of [GetActivityJSON]. *)
Definition sumTotals (activities : list ActivitySummary.t) : Totals :=
  fold_left
    (fun t a =>
       {| activities := GoInt.add (Handlers.activities t) (ActivitySummary.TotalCount a);
          pushes := GoInt.add (pushes t) (ActivitySummary.Pushes a);
          pulls := GoInt.add (pulls t) (ActivitySummary.Pulls a);
          builds := GoInt.add (builds t) (ActivitySummary.Builds a) |})
    activities
    {| activities := 0; pushes := 0; pulls := 0; builds := 0 |}.

(** [GetActivityJSON] of [handlers/heatmap.go], over the service method
    [GetActivitySummary] it calls.  [daysQuery] is the integer that
    [strconv.Atoi] reads from the query parameter [days], if there is one.
    A panic below the handler is caught by the [recover] middleware of
    the router and answered by its [customErrorHandler]. *)
Definition GetActivityJSON
    (GetActivitySummary : string -> Z -> outcome (result (list ActivitySummary.t)))
    (usernameParam : string) (daysQuery : option Z) : Response :=
  let username := TrimSuffix usernameParam ".json" in
  if bool_decide (username = "") then Error StatusBadRequest "Username is required"
  else
    let days :=
      match daysQuery with
      | Some parsed => if (0 <? parsed) && (parsed <=? 365) then parsed else 365
      | None => 365
      end in
    match GetActivitySummary username days with
    | Panics msg => Error StatusInternalServerError msg
    | Returns (Err e) =>
        if bool_decide (e = Service.ErrDockerAccountNotFound)
        then Error StatusNotFound "User not found or no Docker account connected"
        else Error StatusInternalServerError "Failed to fetch activity"
    | Returns (Ok activities) => Activity username days (sumTotals activities) activities
    end.

(** The levels of a returned series. *)
Definition levelsOf (r : outcome (result (list ActivitySummary.t))) : list Z :=
  match r with
  | Returns (Ok activities) => ActivitySummary.Level <$> activities
  | _ => []
  end.

End Handlers.

(** ** Worker *)

Module Worker.

(** [cleanupOldData] of [worker/sync.go], with the zone of the server
    taken as UTC. *)
Definition cleanupOldData (now : Z) (db : Store.DB) : Store.DB :=
  let cutoff := Time.AddYears now (-1) in
  Store.deleteEvents (fun e => ActivityEvent.EventDate e <? cutoff) db.

End Worker.

(** ** Histories of the database *)

Module System.

(** The operations that write to the database.  A request to
    [SyncDockerActivity] that is accepted, the first synchronisation after
    [ConnectAccount] and every account visited by a sweep of the worker
    are runs of [SyncActivity], that is [Sync] steps ([SyncH] with the
    copy of [handlers/heatmap.go]). *)
Inductive Op : Type :=
  | Connect (userID : Z) (dockerUsername accessToken : string)
  | Disconnect (userID accountID : Z)
  | Sync (accountID : Z)
  | SyncH (accountID : Z)
  | Cleanup.

(** One operation, with the world it meets and the clock when it ends. *)
Record Step : Type := { world : World; clock : Z; op : Op }.

Definition exec (db : Store.DB) (s : Step) : Store.DB :=
  match op s with
  | Connect userID dockerUsername accessToken =>
      fst (Service.ConnectAccount (world s) db userID dockerUsername accessToken)
  | Disconnect userID accountID => fst (Service.DisconnectAccount db userID accountID)
  | Sync accountID => fst (Service.SyncActivity (world s) (clock s) db accountID)
  | SyncH accountID => fst (ServiceH.SyncActivity (world s) (clock s) db accountID)
  | Cleanup => Worker.cleanupOldData (clock s) db
  end.

Definition run (steps : list Step) (db : Store.DB) : Store.DB := fold_left exec steps db.

(** The databases that the operations build from the empty one. *)
Definition Reachable (db : Store.DB) : Prop := exists steps, db = run steps Store.empty.

End System.

(** ** Definitions used by the statements *)

(** The level mapping as the specification words it: [ratio = count /
    maxCount] as a rational number, and the five-bucket table. *)
Module Spec.

Definition ratio (count maxCount : Z) : Q := (inject_Z count / inject_Z maxCount)%Q.

Definition levelOfRatio (r : Q) : Z :=
  if Qlt_le_dec (3 # 4) r then 4
  else if Qlt_le_dec (1 # 2) r then 3
  else if Qlt_le_dec (1 # 4) r then 2
  else if Qlt_le_dec 0 r then 1
  else 0.

Definition level (count maxCount : Z) : Z :=
  if (count =? 0) || (maxCount =? 0) then 0 else levelOfRatio (ratio count maxCount).

(** The calendar days (day numbers) of the window that ends on the day of
    [now] and starts [days] days earlier, in ascending order. *)
Definition windowDays (now days : Z) : list Z :=
  (fun i : nat => Time.dayOf now - days + Z.of_nat i) <$> seq 0 (Z.to_nat (days + 1)).

(** The [n] calendar days (day numbers) from [first] on, in ascending
    order. *)
Definition daysFrom (first : Z) (n : nat) : list Z :=
  (fun i : nat => first + Z.of_nat i) <$> seq 0 n.

(** The count stored under a key of the event table: that of the first
    row with the key, 0 when no row has it. *)
Definition storedCount (key : ActivityEvent.t -> bool) (events : list ActivityEvent.t) : Z :=
  match List.filter key events with
  | [] => 0
  | row :: _ => ActivityEvent.Count row
  end.

(** The key of an event row in the lookup of [createActivity]. *)
Definition keyOf (e : ActivityEvent.t) : Z * Z * string * string :=
  (ActivityEvent.DockerAccountID e, ActivityEvent.EventDate e,
   ActivityEvent.Repository e, ActivityEvent.Tag e).

(** Every row of the event table has kind push. *)
Definition onlyPushes (events : list ActivityEvent.t) : Prop :=
  Forall (fun e => ActivityEvent.Kind e = EventTypePush) events.

(** A summary that counts no pull and no build. *)
Definition noPullNoBuild (s : ActivitySummary.t) : Prop :=
  ActivitySummary.Pulls s = 0 /\ ActivitySummary.Builds s = 0.

End Spec.

(** Vocabulary for the rounding steps of [SpecFloat]. *)
Module Rounding.

(** [loc_ok l r D]: the location [l] describes the fraction [r / D],
    with [0 <= r < D], relative to one half. *)
Definition loc_ok (l : location) (r D : Z) : Prop :=
  match l with
  | loc_Exact => r = 0
  | loc_Inexact Lt => 0 < 2 * r < D
  | loc_Inexact Eq => 2 * r = D
  | loc_Inexact Gt => D < 2 * r < 2 * D
  end.

(** The last step of [binary_round_aux]. *)
Definition finish (sx : bool) (mrs : shr_record) (e : Z) : spec_float :=
  match shr_m mrs with
  | Z0 => S754_zero sx
  | Zpos m =>
      if Z.leb e (Float64.emax - Float64.prec) then S754_finite sx m e
      else S754_infinity sx
  | Zneg _ => S754_nan
  end.

End Rounding.

(** ** Concrete data *)

Module Example.

Definition alice : DockerAccount.t :=
  {| DockerAccount.ID := 1;
     DockerAccount.UserID := 7;
     DockerAccount.DockerUsername := "alice";
     DockerAccount.EncryptedToken := "9f2c";
     DockerAccount.TokenIV := "01ab";
     DockerAccount.IsActive := true;
     DockerAccount.AutoRefresh := true;
     DockerAccount.SyncInProgress := false;
     DockerAccount.LastSyncAt := None;
     DockerAccount.LastSyncError := "" |}.

(** 2024-01-01 is day 19723 of the Unix era. *)
Definition jan1 : Z := 19723.

(** Noon of 2024-01-03, UTC. *)
Definition noon : Z := Time.midnightUTC (jan1 + 2) + 43200.

Definition pushes (day count : Z) : ActivityEvent.t :=
  {| ActivityEvent.DockerAccountID := 1;
     ActivityEvent.Kind := EventTypePush;
     ActivityEvent.EventDate := Time.midnightUTC day;
     ActivityEvent.Repository := "app";
     ActivityEvent.Tag := "";
     ActivityEvent.Count := count |}.

(** A clock that is read for the first time at noon of 2024-01-03 and
    moves on a second at every other reading, for three seconds. *)
Definition aroundNoon : Clock.t :=
  {| Clock.reads := [noon; noon + 1; noon + 1; noon + 2; noon + 2];
     Clock.rest := noon + 3 |}.

(** A clock that is read for the first time one second before the
    midnight that ends 2024-01-03, and at that midnight from then on. *)
Definition acrossMidnight : Clock.t :=
  {| Clock.reads := [Time.midnightUTC (jan1 + 3) - 1];
     Clock.rest := Time.midnightUTC (jan1 + 3) |}.

(** A database with [alice] and no event. *)
Definition connected : Store.DB :=
  {| Store.accounts := [alice]; Store.events := []; Store.accountSeq := 2 |}.

(** The scenario: 5 events on 2024-01-01, none on 2024-01-02, 10 on 2024-01-03. *)
Definition scenario : Store.DB :=
  Store.setEvents [pushes jan1 5; pushes (jan1 + 2) 10] connected.

(** The same, with the empty day held as a row of count 0. *)
Definition scenarioWithZeroRow : Store.DB :=
  Store.setEvents [pushes jan1 5; pushes (jan1 + 1) 0; pushes (jan1 + 2) 10] connected.

(** A database in which a synchronisation of [alice] is running. *)
Definition running : Store.DB :=
  Store.setAccounts [DockerAccount.setSyncInProgress true alice] connected.

Definition stamp : string := "2024-01-03T08:19:30.340959Z".

(** A registry that serves one repository of [alice], last updated on
    2024-01-03, with one tag pushed at the same time, to any caller. *)
Definition registry (decrypt : string -> string -> result string) : World :=
  {| utilsEncrypt := fun _ => Ok ("9f2c", "01ab");
     utilsDecrypt := decrypt;
     hubLogin := fun _ _ => Ok "jwt";
     hubUser := fun _ => Ok tt;
     hubRepositories := fun _ _ =>
       Ok [{| DockerHubRepository.Name := "app"; DockerHubRepository.LastUpdated := stamp |}];
     hubTags := fun _ _ _ =>
       Ok [{| DockerHubTag.Name := "v1"; DockerHubTag.TagLastPushed := stamp |}];
     timeParse := fun s =>
       if bool_decide (s = stamp)
       then Some {| Time.instant := Time.midnightUTC (jan1 + 2) + 29970;
                    Time.zoneOffset := 0 |}
       else None |}.

(** The vault returns the token. *)
Definition healthy : World := registry (fun _ _ => Ok "dckr_pat_k3").

(** The vault cannot decrypt the stored token. *)
Definition brokenVault : World :=
  registry (fun _ _ => Err "cipher: message authentication failed").

(** A push and then a pull of tag [v1] of [app], both seen at noon. *)
Definition pushThenPull : Store.DB :=
  (Service.createActivity
     (Service.createActivity connected alice EventTypePush
        {| Time.instant := noon; Time.zoneOffset := 0 |} "app" "v1").1
     alice EventTypePull
     {| Time.instant := noon; Time.zoneOffset := 0 |} "app" "v1").1.

(** [alice] connects on 2024-01-03 and her first synchronisation runs. *)
Definition history : list System.Step :=
  [ {| System.world := healthy; System.clock := noon;
       System.op := System.Connect 7 "alice" "dckr_pat_k3" |};
    {| System.world := healthy; System.clock := noon; System.op := System.Sync 1 |} ].

End Example.

(** ** The account handlers of [handlers/docker.go] *)

Module DockerHandler.


(** The JSON bodies that the handlers send; the last two are sent with
    status 200. *)
Inductive Response : Type :=
  | Error (status : Z) (error : string)
  | Message (status : Z) (message : string)
  | Connected (message : string) (id : Z) (docker_username : string) (is_active : bool)
  | Account (id : Z) (docker_username : string) (is_active auto_refresh : bool)
            (last_sync_at : option Z) (last_sync_error : string)
            (sync_in_progress : bool).


(** [GetDockerAccount]. *)
Definition GetDockerAccount (db : Store.DB) (user : option Z) : Response :=
  match user with
  | None => Error Handlers.StatusUnauthorized "Unauthorized"
  | Some userID =>
      match Service.GetDockerAccount db userID with
      | Err _ => Error Handlers.StatusNotFound "No Docker account connected"
      | Ok account =>
          Account (DockerAccount.ID account)
                  (DockerAccount.DockerUsername account)
                  (DockerAccount.IsActive account)
                  (DockerAccount.AutoRefresh account)
                  (DockerAccount.LastSyncAt account)
                  (DockerAccount.LastSyncError account)
                  (DockerAccount.SyncInProgress account)
      end
  end.

(** [DisconnectDocker]. *)
Definition DisconnectDocker (db : Store.DB) (user : option Z) : Store.DB * Response :=
  match user with
  | None => (db, Error Handlers.StatusUnauthorized "Unauthorized")
  | Some userID =>
      match Service.GetDockerAccount db userID with
      | Err _ => (db, Error Handlers.StatusNotFound "No Docker account connected")
      | Ok account =>
          match Service.DisconnectAccount db userID (DockerAccount.ID account) with
          | (db, Err _) =>
              (db, Error Handlers.StatusInternalServerError "Failed to disconnect account")
          | (db, Ok _) =>
              (db, Message Handlers.StatusOK "Docker account disconnected successfully")
          end
      end
  end.

End DockerHandler.

(** ** The image handler of [handlers/heatmap.go] *)

(** [strconv.Atoi]: an optional sign and decimal digits, within the range
    of an [int]. *)
Module Strconv.

Definition digitValue (c : Ascii.ascii) : option Z :=
  let n := Z.of_nat (Ascii.nat_of_ascii c) in
  if (48 <=? n) && (n <=? 57) then Some (n - 48) else None.

Fixpoint digits (s : string) (acc : Z) : option Z :=
  match s with
  | EmptyString => Some acc
  | String c rest =>
      match digitValue c with
      | Some d => digits rest (10 * acc + d)
      | None => None
      end
  end.

Definition Atoi (s : string) : option Z :=
  let '(neg, body) :=
    match s with
    | String c rest =>
        if bool_decide (c = Ascii.ascii_of_nat 45) then (true, rest)          (* '-' *)
        else if bool_decide (c = Ascii.ascii_of_nat 43) then (false, rest)    (* '+' *)
        else (false, s)
    | EmptyString => (false, s)
    end in
  match body with
  | EmptyString => None
  | _ =>
      match digits body 0 with
      | Some n =>
          let v := if neg : bool then - n else n in
          if (GoInt.minInt <=? v) && (v <=? GoInt.maxInt) then Some v else None
      | None => None
      end
  end.

End Strconv.

Module HeatmapHandler.

(** Modelled from the spec: [services.SVGOptions], the render options of
    the data model; the [services] file that declares it is not among the
    sources, the fields are those that [GetHeatmapSVG] sets. *)
Record SVGOptions : Type := {
  Theme : string;
  Days : Z;
  CellSize : Z;
  CellRadius : Z;
  HideLegend : bool;
  HideTotal : bool;
  HideLabels : bool;
  CustomTitle : string;
  BgColor : string;
  TextColor : string;
  CustomColors : list string
}.

Inductive Response : Type :=
  | Error (status : Z) (error : string)
  | SVG (contentType cacheControl : string) (svg : string).

(** [strings.HasPrefix]. *)
Definition HasPrefix (s prefix : string) : bool := String.prefix prefix s.

(** What the handler uses of the libraries and of the renderer. *)
Section WithLibraries.

(** [strings.TrimSpace] *)
Variable TrimSpace : string -> string.

(** [heatmapService.GenerateSVGWithOptions], the renderer. *)
Variable GenerateSVGWithOptions : string -> SVGOptions -> result string.

Definition parseHexColor (color : string) : string :=
  let color := TrimSpace color in
  if bool_decide (color = "") then ""
  else if negb (HasPrefix color "#") then "#" +:+ color
  else color.

(** [fmt.Sprintf("color%d", i)] for one decimal digit. *)
Definition colorParam (i : nat) : string :=
  "color" +:+ String (Ascii.ascii_of_nat (48 + i)) EmptyString.

(** [c.Query(key) == "true" || c.Query(key) == "1"]. *)
Definition flag (value : string) : bool :=
  bool_decide (value = "true") || bool_decide (value = "1").

(** A numeric option: the default unless the parameter is there, is an
    integer and lies between the bounds. *)
Definition numeric (value : string) (lo hi default : Z) : Z :=
  if bool_decide (value = "") then default
  else
    match Strconv.Atoi value with
    | Some parsed => if (lo <=? parsed) && (parsed <=? hi) then parsed else default
    | None => default
    end.

(** The loop over [color0] ... [color4]. *)
Definition customColorsOf (query : string -> string) : list string :=
  fold_left
    (fun customColors i =>
       let clr := query (colorParam i) in
       if bool_decide (clr = "") then customColors
       else customColors ++ [parseHexColor clr])
    (seq 0 5) [].

(** The options that [GetHeatmapSVG] reads from the query parameters;
    [query key] is [c.Query(key)], the empty string for a parameter that
    is not there. *)
Definition svgOptions (query : string -> string) : SVGOptions :=
  let customColors := customColorsOf query in
  let custom := Nat.eqb (length customColors) 5 in
  {| Theme := if custom then "custom"
              else if bool_decide (query "theme" = "") then "github" else query "theme";
     Days := numeric (query "days") 1 365 365;
     CellSize := numeric (query "cell_size") 5 20 11;
     CellRadius := numeric (query "radius") 0 10 2;
     HideLegend := flag (query "hide_legend");
     HideTotal := flag (query "hide_total");
     HideLabels := flag (query "hide_labels");
     CustomTitle := query "title";
     BgColor := if bool_decide (query "bg_color" = "") then ""
                else parseHexColor (query "bg_color");
     TextColor := if bool_decide (query "text_color" = "") then ""
                  else parseHexColor (query "text_color");
     CustomColors := if custom then customColors else [] |}.


End WithLibraries.

End HeatmapHandler.

(** ** The scheduled sweep of [worker/sync.go] *)

Module SyncWorker.

(** What the sweep meets while it handles one account of its list: the
    clock at the test of the last-sync time, the world during the run and
    the clock when the run ends. *)
Record Visit : Type := { checkedAt : Z; met : World; endedAt : Z }.

(** [4 * time.Hour], in seconds. *)
Definition fourHours : Z := 4 * 3600.

(** One pass of the loop of [syncAllAccounts]; [account] is the row as
    the query at the start of the sweep returned it. *)
Definition visitAccount (visit : Visit) (db : Store.DB) (account : DockerAccount.t)
    : Store.DB :=
  if DockerAccount.SyncInProgress account then db
  else
    match DockerAccount.LastSyncAt account with
    | Some lastSyncAt =>
        if checkedAt visit - lastSyncAt <? fourHours then db
        else (Service.SyncActivity (met visit) (endedAt visit) db
                (DockerAccount.ID account)).1
    | None =>
        (Service.SyncActivity (met visit) (endedAt visit) db (DockerAccount.ID account)).1
    end.

(** [syncAllAccounts]; [visits id] is what the sweep meets when it comes
    to the account [id]. *)
Definition syncAllAccounts (visits : Z -> Visit) (db : Store.DB) : Store.DB :=
  let accounts :=
    List.filter (fun a => DockerAccount.IsActive a && DockerAccount.AutoRefresh a)
                (Store.accounts db) in
  fold_left (fun db account => visitAccount (visits (DockerAccount.ID account)) db account)
            accounts db.

(** [SyncSingleAccount]. *)
Definition SyncSingleAccount (w : World) (now : Z) (db : Store.DB) (accountID : Z)
    : Store.DB * result unit :=
  Service.SyncActivity w now db accountID.

End SyncWorker.

(** ** The grid of [frontend/components/shared/heatmap-grid.tsx] *)

Module HeatmapGrid.

(** [Math.ceil(data.length / 7)] *)
Definition numCols (length : nat) : nat := ((length + 6) / 7)%nat.

(** [getCellData]: the entry shown in a cell; [None] is the [undefined]
    for which the grid draws an empty cell. *)
Definition getCellData {A : Type} (data : list A) (row col : nat) : option A :=
  data !! (col * 7 + row)%nat.

(** The cells of the grid, row by row: 7 rows of [numCols] cells. *)
Definition cells {A : Type} (data : list A) : list (list (option A)) :=
  (fun row => (fun col => getCellData data row col) <$> seq 0 (numCols (length data)))
    <$> seq 0 7.

End HeatmapGrid.

(** ** Invariants of the tables *)

Module Integrity.

(** The sums of Go are taken in 64 bits; [sumCounts] is the exact one. *)
Definition sumCounts (events : list ActivityEvent.t) : Z :=
  foldr (fun e acc => ActivityEvent.Count e + acc) 0 events.

(** The events that [Format] files under the date [dateStr]. *)
Definition datedOn (dateStr : string) (e : ActivityEvent.t) : bool :=
  bool_decide (Time.Format (ActivityEvent.EventDate e) = dateStr).

(** The total that a map of summaries holds for a date, 0 for a date
    that is not in the map. *)
Definition totalOn (dateMap : gmap string ActivitySummary.t) (dateStr : string) : Z :=
  default 0 (ActivitySummary.TotalCount <$> dateMap !! dateStr).

(** An entry whose level fits its total: a level between 0 and 4 that is
    0 exactly when there was no activity. *)
Definition levelled (entry : ActivitySummary.t) : Prop :=
  0 <= ActivitySummary.TotalCount entry
  /\ 0 <= ActivitySummary.Level entry <= 4
  /\ (ActivitySummary.Level entry = 0 <-> ActivitySummary.TotalCount entry = 0).

(** The events of an account. *)
Definition eventsOf (accountID : Z) (db : Store.DB) : list ActivityEvent.t :=
  List.filter (fun e => bool_decide (ActivityEvent.DockerAccountID e = accountID))
              (Store.events db).

(** The columns of an account that a synchronisation does not write. *)
Definition identity (a : DockerAccount.t) : Z * Z * string * string * string * bool * bool :=
  (DockerAccount.ID a, DockerAccount.UserID a, DockerAccount.DockerUsername a,
   DockerAccount.EncryptedToken a, DockerAccount.TokenIV a,
   DockerAccount.IsActive a, DockerAccount.AutoRefresh a).

(** The rows of the account table before and after a run of
    [SyncActivity]: one row is rewritten, in its sync columns only. *)
Definition rewritten (now : Z) (db db' : Store.DB) (accountID : Z) : Prop :=
  Store.accountSeq db' = Store.accountSeq db
  /\ match Store.first (fun r => bool_decide (DockerAccount.ID r = accountID))
                       (Store.accounts db) with
     | None => db' = db
     | Some (i, r) =>
         exists r', Store.accounts db' = <[i := r']> (Store.accounts db)
                    /\ identity r' = identity r
                    /\ DockerAccount.SyncInProgress r' = false
                    /\ DockerAccount.LastSyncAt r' = Some now
     end.

(** Keys of the account table: the primary key, one account for a user,
    one account for a registry user name. *)
Definition accountKeys (db : Store.DB) : Prop :=
  NoDup (DockerAccount.ID <$> Store.accounts db)
  /\ NoDup (DockerAccount.UserID <$> Store.accounts db)
  /\ NoDup (DockerAccount.DockerUsername <$> Store.accounts db)
  /\ Forall (fun a => DockerAccount.ID a < Store.accountSeq db) (Store.accounts db).

(** Every event belongs to an account of the account table. *)
Definition noOrphans (db : Store.DB) : Prop :=
  Forall (fun e => ActivityEvent.DockerAccountID e ∈ DockerAccount.ID <$> Store.accounts db)
         (Store.events db).

(** Every event is dated at a midnight, UTC. *)
Definition datedAtMidnight (db : Store.DB) : Prop :=
  Forall (fun e => ActivityEvent.EventDate e mod Time.secondsPerDay = 0) (Store.events db).

End Integrity.

(** ** More concrete data *)

Module Cases.

(** The row of [alice] after she has connected a second time. *)
Definition aliceAgain : DockerAccount.t :=
  {| DockerAccount.ID := 2;
     DockerAccount.UserID := 7;
     DockerAccount.DockerUsername := "alice";
     DockerAccount.EncryptedToken := "9f2c";
     DockerAccount.TokenIV := "01ab";
     DockerAccount.IsActive := true;
     DockerAccount.AutoRefresh := true;
     DockerAccount.SyncInProgress := false;
     DockerAccount.LastSyncAt := None;
     DockerAccount.LastSyncError := "" |}.

Definition reconnected : Store.DB :=
  {| Store.accounts := [aliceAgain]; Store.events := []; Store.accountSeq := 3 |}.

(** A second user, whose last synchronisation ended at 11:00 on
    2024-01-03 and who has switched the automatic refresh off. *)
Definition bob : DockerAccount.t :=
  {| DockerAccount.ID := 2;
     DockerAccount.UserID := 8;
     DockerAccount.DockerUsername := "bob";
     DockerAccount.EncryptedToken := "77e0";
     DockerAccount.TokenIV := "5d11";
     DockerAccount.IsActive := true;
     DockerAccount.AutoRefresh := false;
     DockerAccount.SyncInProgress := false;
     DockerAccount.LastSyncAt := Some (Time.midnightUTC (Example.jan1 + 2) + 39600);
     DockerAccount.LastSyncError := "" |}.

Definition bobPushes (day count : Z) : ActivityEvent.t :=
  {| ActivityEvent.DockerAccountID := 2;
     ActivityEvent.Kind := EventTypePush;
     ActivityEvent.EventDate := Time.midnightUTC day;
     ActivityEvent.Repository := "site";
     ActivityEvent.Tag := "latest";
     ActivityEvent.Count := count |}.

(** [alice] and [bob], each with events. *)
Definition twoUsers : Store.DB :=
  {| Store.accounts := [Example.alice; bob];
     Store.events := [Example.pushes Example.jan1 5; bobPushes Example.jan1 3;
                      Example.pushes (Example.jan1 + 2) 10];
     Store.accountSeq := 3 |}.

(** A sweep that comes to every account at noon of 2024-01-03, meets the
    healthy registry and ends the run a minute later. *)
Definition sweepAtNoon (accountID : Z) : SyncWorker.Visit :=
  {| SyncWorker.checkedAt := Example.noon;
     SyncWorker.met := Example.healthy;
     SyncWorker.endedAt := Example.noon + 60 |}.

(** The query
    [?days=30&cell_size=50&radius=abc&hide_total=1&bg_color=1a1a2e
      &color0=16213e&color1=0f3460&color2=533483&color3=e94560&color4=ff6b6b]. *)
Definition imageQuery (key : string) : string :=
  if bool_decide (key = "days") then "30"
  else if bool_decide (key = "cell_size") then "50"
  else if bool_decide (key = "radius") then "abc"
  else if bool_decide (key = "hide_total") then "1"
  else if bool_decide (key = "bg_color") then "1a1a2e"
  else if bool_decide (key = "color0") then "16213e"
  else if bool_decide (key = "color1") then "0f3460"
  else if bool_decide (key = "color2") then "533483"
  else if bool_decide (key = "color3") then "e94560"
  else if bool_decide (key = "color4") then "ff6b6b"
  else "".

(** [strings.TrimSpace] on the values of [imageQuery], none of which
    starts or ends with white space. *)
Definition trimmed (s : string) : string := s.

End Cases.

(** ** Proof automation *)

(** Linear arithmetic with quotients and remainders by constants. *)
Ltac div_lia := Z.to_euclidean_division_equations; lia.

(** * Proofs *)

(** ** Binary64 division of two integers against the thresholds *)

Section RoundingProofs.

Import Float64 Rounding.

Lemma digits2_pos_bounds (p : positive) :
  2 ^ (Zpos (digits2_pos p) - 1) <= Zpos p < 2 ^ Zpos (digits2_pos p).
Proof.
  induction p as [p IH|p IH|]; simpl digits2_pos.
  - rewrite Pos2Z.inj_succ.
    replace (Z.succ (Z.pos (digits2_pos p)) - 1) with (Z.succ (Z.pos (digits2_pos p) - 1)) by lia.
    rewrite !Z.pow_succ_r by lia. lia.
  - rewrite Pos2Z.inj_succ.
    replace (Z.succ (Z.pos (digits2_pos p)) - 1) with (Z.succ (Z.pos (digits2_pos p) - 1)) by lia.
    rewrite !Z.pow_succ_r by lia. lia.
  - simpl. lia.
Qed.

Lemma digits2_pos_unique (p : positive) (d : Z) :
  2 ^ (d - 1) <= Zpos p < 2 ^ d -> Zpos (digits2_pos p) = d.
Proof.
  intros [Hlo Hhi].
  pose proof (digits2_pos_bounds p) as [Blo Bhi].
  assert (0 < d).
  { destruct (Z_lt_le_dec 0 d) as [|Hd]; [done|].
    assert (2 ^ d <= 2 ^ 0) by (destruct (Z.eq_dec d 0) as [->|]; [lia|rewrite Z.pow_neg_r by lia; simpl; lia]).
    simpl in *. lia. }
  destruct (Z.lt_trichotomy (Zpos (digits2_pos p)) d) as [Hlt|[Heq|Hgt]]; [|done|].
  - assert (2 ^ Zpos (digits2_pos p) <= 2 ^ (d - 1)) by (apply Z.pow_le_mono_r; lia). lia.
  - assert (2 ^ d <= 2 ^ (Zpos (digits2_pos p) - 1)) by (apply Z.pow_le_mono_r; lia). lia.
Qed.

Lemma Pos_iter_xO (p n : positive) : Zpos (Pos.iter xO p n) = Zpos p * 2 ^ Zpos n.
Proof.
  induction n as [|n IH] using Pos.peano_ind.
  - simpl. lia.
  - rewrite Pos.iter_succ, Pos2Z.inj_succ, Z.pow_succ_r by lia.
    rewrite Pos2Z.inj_xO, IH. lia.
Qed.

Lemma new_location_ok (D r : Z) :
  0 < D -> 0 <= r < D -> loc_ok (new_location D r) r D.
Proof.
  intros HD Hr. unfold new_location, new_location_even, new_location_odd.
  destruct (Z.even D) eqn:Hev.
  - destruct (Z.eqb_spec r 0) as [->|Hr0]; [done|].
    destruct (Z.compare_spec (2 * r) D); simpl; lia.
  - destruct (Z.eqb_spec r 0) as [->|Hr0]; [done|].
    assert (Hodd : Z.odd D = true) by (rewrite <- Z.negb_even, Hev; done).
    apply Z.odd_spec in Hodd as [k Hk].
    destruct (Z.compare_spec (2 * r + 1) D); simpl; lia.
Qed.

Lemma loc_of_shr_record_of_loc (m : Z) (l : location) :
  loc_of_shr_record (shr_record_of_loc m l) = l.
Proof. by destruct l as [|[]]. Qed.

Lemma shr_m_record_of_loc (m : Z) (l : location) : shr_m (shr_record_of_loc m l) = m.
Proof. by destruct l as [|[]]. Qed.

Lemma round_nearest_even_ok (m : Z) (l : location) (r D : Z) :
  0 < D -> loc_ok l r D ->
  m <= round_nearest_even m l <= m + 1 /\
  2 * Z.abs (round_nearest_even m l * D - (m * D + r)) <= D.
Proof.
  intros HD Hl. destruct l as [|[]]; simpl in *.
  - subst r. split; [lia|]. replace (m * D - (m * D + 0)) with 0 by lia. simpl; lia.
  - destruct (Z.even m); (split; [lia|]); lia.
  - split; [lia|]. lia.
  - split; [lia|]. lia.
Qed.

Lemma shr_1_ok (m : Z) (l : location) (r D : Z) :
  0 <= m -> 0 < D -> 0 <= r < D -> loc_ok l r D ->
  shr_m (shr_1 (shr_record_of_loc m l)) = m / 2 /\
  loc_ok (loc_of_shr_record (shr_1 (shr_record_of_loc m l))) ((m mod 2) * D + r) (2 * D).
Proof.
  intros Hm HD Hr Hl.
  assert (Hdiv : exists q b, m = 2 * q + b /\ m / 2 = q /\ m mod 2 = b /\
            (b = 0 \/ b = 1) /\
            forall r0 s0, shr_1 (Build_shr_record m r0 s0)
                          = Build_shr_record q (Z.eqb b 1) (r0 || s0)).
  { destruct m as [|[p|p|]|p]; [ exists 0, 0 | exists (Zpos p), 1 | exists (Zpos p), 0
                               | exists 0, 1 | lia ].
    - repeat split; auto.
    - rewrite Pos2Z.inj_xI. repeat split; auto.
      + symmetry; apply Z.div_unique with 1; lia.
      + symmetry; apply Z.mod_unique with (Z.pos p); lia.
    - rewrite Pos2Z.inj_xO. repeat split; auto.
      + symmetry; apply Z.div_unique with 0; lia.
      + symmetry; apply Z.mod_unique with (Z.pos p); lia.
    - repeat split; auto. }
  destruct Hdiv as (q & b & Hmq & -> & -> & Hb & Hshr).
  destruct l as [|[]]; unfold shr_record_of_loc; rewrite Hshr;
    unfold loc_ok in *; destruct Hb as [-> | ->]; cbn; split; try done; lia.
Qed.

Lemma Zdigits2_unique (m d : Z) : 2 ^ (d - 1) <= m < 2 ^ d -> 0 < m -> Zdigits2 m = d.
Proof.
  intros H Hm. destruct m as [|p|p]; [lia| |lia]. simpl. by apply digits2_pos_unique.
Qed.

Lemma shr_fexp_53 (m e : Z) (l : location) :
  2 ^ 52 <= m < 2 ^ 53 -> -1074 <= e ->
  shr_fexp prec emax m e l = (shr_record_of_loc m l, e).
Proof.
  intros Hm He. unfold shr_fexp.
  rewrite (Zdigits2_unique m 53) by (simpl; lia).
  replace (fexp prec emax (53 + e) - e) with 0 by (unfold fexp, SpecFloat.emin, prec, emax; lia).
  done.
Qed.

Lemma shr_fexp_54 (m e : Z) (l : location) :
  2 ^ 53 <= m < 2 ^ 54 -> -1075 <= e ->
  shr_fexp prec emax m e l = (shr_1 (shr_record_of_loc m l), e + 1).
Proof.
  intros Hm He. unfold shr_fexp.
  rewrite (Zdigits2_unique m 54) by (simpl; lia).
  replace (fexp prec emax (54 + e) - e) with 1 by (unfold fexp, SpecFloat.emin, prec, emax; lia).
  done.
Qed.

Lemma binary_round_aux_unfold sx mx ex lx :
  binary_round_aux prec emax sx mx ex lx =
  finish sx
    (fst (shr_fexp prec emax
            (round_nearest_even (shr_m (fst (shr_fexp prec emax mx ex lx)))
                                (loc_of_shr_record (fst (shr_fexp prec emax mx ex lx))))
            (snd (shr_fexp prec emax mx ex lx)) loc_Exact))
    (snd (shr_fexp prec emax
            (round_nearest_even (shr_m (fst (shr_fexp prec emax mx ex lx)))
                                (loc_of_shr_record (fst (shr_fexp prec emax mx ex lx))))
            (snd (shr_fexp prec emax mx ex lx)) loc_Exact)).
Proof.
  unfold binary_round_aux, finish.
  destruct (shr_fexp prec emax mx ex lx) as [mrs' e']; cbn [fst snd].
  destruct (shr_fexp _ _ _ _ loc_Exact) as [mrs'' e'']; cbn [fst snd]. done.
Qed.

Lemma round_stage2 (m1 e : Z) :
  2 ^ 52 <= m1 <= 2 ^ 53 -> -1074 <= e <= 900 ->
  exists Mz v,
    finish false (fst (shr_fexp prec emax m1 e loc_Exact))
                 (snd (shr_fexp prec emax m1 e loc_Exact))
      = S754_finite false Mz (e + v) /\
    2 ^ 52 <= Zpos Mz < 2 ^ 53 /\ 0 <= v <= 1 /\ 2 ^ v * Zpos Mz = m1.
Proof.
  intros Hm He.
  destruct (Z_lt_le_dec m1 (2 ^ 53)) as [Hlt|Hge].
  - rewrite shr_fexp_53 by lia. cbn [fst snd shr_record_of_loc].
    unfold finish; cbn [shr_m].
    destruct m1 as [|p|p]; [lia| |lia].
    exists p, 0. replace (e + 0) with e by lia.
    replace (e <=? emax - prec) with true by (symmetry; apply Z.leb_le; unfold emax, prec; lia).
    repeat split; try lia.
  - assert (m1 = 2 ^ 53) as -> by lia.
    rewrite shr_fexp_54 by lia. cbn [fst snd].
    exists (2 ^ 52)%positive, 1.
    unfold finish.
    replace (e + 1 <=? emax - prec) with true by (symmetry; apply Z.leb_le; unfold emax, prec; lia).
    repeat split; try lia; try done.
Qed.

Lemma binary_round_aux_ok (m e : Z) (l : location) (r D : Z) :
  2 ^ 52 <= m < 2 ^ 54 -> -1074 <= e <= 800 ->
  0 < D -> 0 <= r < D -> loc_ok l r D ->
  exists Mz u,
    binary_round_aux prec emax false m e l = S754_finite false Mz (e + u) /\
    2 ^ 52 <= Zpos Mz < 2 ^ 53 /\ 0 <= u <= 2 /\
    2 * Z.abs (2 ^ u * Zpos Mz * D - (m * D + r)) <= 2 ^ u * D.
Proof.
  intros Hm He HD Hr Hl. rewrite binary_round_aux_unfold.
  destruct (Z_lt_le_dec m (2 ^ 53)) as [Hlt|Hge].
  - rewrite !(shr_fexp_53 m e l) by lia. cbn [fst snd].
    rewrite shr_m_record_of_loc, loc_of_shr_record_of_loc.
    destruct (round_nearest_even_ok m l r D HD Hl) as [Hm1 Hb].
    destruct (round_stage2 (round_nearest_even m l) e) as (Mz & v & -> & HMz & Hv & Hval);
      [lia|lia|].
    exists Mz, v. repeat split; try lia.
    rewrite Hval.
    assert (2 ^ v = 1 \/ 2 ^ v = 2) as [->| ->]
      by (assert (v = 0 \/ v = 1) as [-> | ->] by lia; [left|right]; done); lia.
  - rewrite !(shr_fexp_54 m e l) by lia. cbn [fst snd].
    destruct (shr_1_ok m l r D) as [Hq Hl']; [lia|lia|lia|done|].
    rewrite Hq.
    pose proof (Z.div_mod m 2 ltac:(lia)) as Hdm.
    pose proof (Z.mod_pos_bound m 2 ltac:(lia)) as Hmod.
    set (q' := m / 2) in *. set (b := m mod 2) in *.
    set (l' := loc_of_shr_record _) in *.
    destruct (round_nearest_even_ok q' l' (b * D + r) (2 * D) ltac:(lia) Hl') as [Hm1 Hb].
    destruct (round_stage2 (round_nearest_even q' l') (e + 1)) as (Mz & v & -> & HMz & Hv & Hval);
      [lia|lia|].
    exists Mz, (1 + v). replace (e + 1 + v) with (e + (1 + v)) by lia.
    repeat split; try lia.
    rewrite Z.pow_add_r by lia. change (2 ^ 1) with 2.
    replace (2 * 2 ^ v * Z.pos Mz) with (2 * (2 ^ v * Z.pos Mz)) by lia.
    rewrite Hval.
    assert (2 ^ v = 1 \/ 2 ^ v = 2) as [->| ->]
      by (assert (v = 0 \/ v = 1) as [-> | ->] by lia; [left|right]; done); nia.
Qed.

Lemma binary_round_aux_exact (m : positive) (e : Z) :
  2 ^ 52 <= Zpos m < 2 ^ 53 -> -1074 <= e <= 900 ->
  binary_round_aux prec emax false (Zpos m) e loc_Exact = S754_finite false m e.
Proof.
  intros Hm He. rewrite binary_round_aux_unfold.
  rewrite !(shr_fexp_53 (Zpos m) e loc_Exact) by lia. cbn [fst snd shr_record_of_loc shr_m loc_of_shr_record round_nearest_even].
  rewrite !(shr_fexp_53 (Zpos m) e loc_Exact) by lia. cbn [fst snd shr_record_of_loc].
  unfold finish; cbn [shr_m].
  replace (e <=? emax - prec) with true by (symmetry; apply Z.leb_le; unfold emax, prec; lia).
  done.
Qed.

Lemma of_int_norm (n : Z) :
  0 < n < 2 ^ 53 ->
  exists M a, of_int n = S754_finite false M (- a) /\ 0 <= a <= 52 /\
              Zpos M = n * 2 ^ a /\ 2 ^ 52 <= Zpos M < 2 ^ 53.
Proof.
  intros Hn. destruct n as [|p|p]; [lia| |lia].
  pose proof (digits2_pos_bounds p) as [Dlo Dhi].
  set (d := Zpos (digits2_pos p)) in *.
  assert (Hd : 1 <= d <= 53).
  { split; [unfold d; lia|].
    destruct (Z_lt_le_dec 53 d) as [Hgt|]; [|lia].
    assert (2 ^ 53 <= 2 ^ (d - 1)) by (apply Z.pow_le_mono_r; lia). lia. }
  unfold of_int, binary_normalize, binary_round, shl_align.
  replace (fexp prec emax (Z.pos (digits2_pos p) + 0) - 0) with (d - 53)
    by (unfold fexp, SpecFloat.emin, prec, emax; fold d; lia).
  replace (fexp prec emax (Z.pos (digits2_pos p) + 0)) with (d - 53)
    by (unfold fexp, SpecFloat.emin, prec, emax; fold d; lia).
  destruct (d - 53) as [|k|k] eqn:Hk; [|lia|].
  - exists p, 0. assert (d = 53) as Hd53 by lia. rewrite Hd53 in *.
    rewrite binary_round_aux_exact by (simpl in *; lia).
    repeat split; try lia; simpl in *; lia.
  - assert (Hpk : Zpos k = 53 - d) by lia.
    assert (Hval : Zpos (Pos.iter xO p k) = Zpos p * 2 ^ (53 - d))
      by (rewrite Pos_iter_xO, Hpk; done).
    assert (Hlo : 2 ^ 52 <= Zpos p * 2 ^ (53 - d)).
    { replace 52 with ((d - 1) + (53 - d)) by lia. rewrite Z.pow_add_r by lia.
      apply Z.mul_le_mono_nonneg_r; [apply Z.pow_nonneg|]; lia. }
    assert (Hhi : Zpos p * 2 ^ (53 - d) < 2 ^ 53).
    { replace 53 with (d + (53 - d)) at 2 by lia. rewrite Z.pow_add_r by lia.
      apply Z.mul_lt_mono_pos_r; [apply Z.pow_pos_nonneg|]; lia. }
    rewrite binary_round_aux_exact by lia.
    exists (Pos.iter xO p k), (53 - d).
    replace (- (53 - d)) with (Z.neg k) by lia.
    repeat split; try lia.
Qed.

Lemma div_norm (Mx My : positive) (Ex Ey : Z) :
  2 ^ 52 <= Zpos Mx < 2 ^ 53 -> 2 ^ 52 <= Zpos My < 2 ^ 53 ->
  -60 <= Ex <= 0 -> -60 <= Ey <= 0 ->
  exists Mz u,
    div (S754_finite false Mx Ex) (S754_finite false My Ey)
      = S754_finite false Mz (Ex - Ey - 53 + u) /\
    2 ^ 52 <= Zpos Mz < 2 ^ 53 /\ 0 <= u <= 2 /\
    2 * Z.abs (2 ^ u * Zpos Mz * Zpos My - Zpos Mx * 2 ^ 53) <= 2 ^ u * Zpos My.
Proof.
  intros HMx HMy HEx HEy.
  unfold div, SFdiv, SFdiv_core_binary.
  rewrite (Zdigits2_unique (Zpos Mx) 53), (Zdigits2_unique (Zpos My) 53) by (simpl; lia).
  replace (Z.min (fexp prec emax (53 + Ex - (53 + Ey))) (Ex - Ey)) with (Ex - Ey - 53)
    by (unfold fexp, SpecFloat.emin, prec, emax; lia).
  replace (Ex - Ey - (Ex - Ey - 53)) with 53 by lia.
  rewrite Z.shiftl_mul_pow2 by lia.
  pose proof (Z_div_mod (Zpos Mx * 2 ^ 53) (Zpos My) ltac:(lia)) as Hdm.
  destruct (Z.div_eucl (Zpos Mx * 2 ^ 53) (Zpos My)) as [q r].
  destruct Hdm as [Hq Hr]. cbn [xorb].
  assert (Hqb : 2 ^ 52 <= q < 2 ^ 54) by nia.
  destruct (binary_round_aux_ok q (Ex - Ey - 53) (new_location (Zpos My) r) r (Zpos My))
    as (Mz & u & -> & HMz & Hu & Hb); [lia|lia|lia|lia|by apply new_location_ok; lia|].
  exists Mz, u. repeat split; lia.
Qed.

(** The comparison of the rounded quotient [c / m] with a threshold
    [k / 4], given as a normalised binary64 value. *)
Lemma ratio_gt_threshold (c m k : Z) (T : positive) (Et : Z) :
  0 < c < 2 ^ 53 -> 0 < m < 2 ^ 52 ->
  2 ^ 52 <= Zpos T <= 3 * 2 ^ 51 -> -54 <= Et <= -53 ->
  Zpos T * 2 ^ (Et + 128) = k * 2 ^ 126 ->
  gt (div (of_int c) (of_int m)) (S754_finite false T Et) = (k * m <? 4 * c).
Proof.
  intros Hc Hm HT HEt Hk.
  destruct (of_int_norm c) as (Mx & a & -> & Ha & HMxv & HMx); [lia|].
  destruct (of_int_norm m) as (My & b & -> & Hb & HMyv & HMy); [lia|].
  destruct (div_norm Mx My (- a) (- b)) as (Mz & u & -> & HMz & Hu & Hbound); [lia..|].
  set (Ez := - a - - b - 53 + u) in *.
  set (A := 2 ^ a) in *. set (B := 2 ^ b) in *. set (U := 2 ^ u) in *.
  set (H := 2 ^ (Ez + 128)).
  assert (HA : 0 < A) by (apply Z.pow_pos_nonneg; lia).
  assert (HB : 0 < B) by (apply Z.pow_pos_nonneg; lia).
  assert (HU : 0 < U) by (apply Z.pow_pos_nonneg; lia).
  assert (HH : 0 < H) by (apply Z.pow_pos_nonneg; unfold Ez; lia).
  assert (HHA : H * A = U * B * 2 ^ 75).
  { unfold H, A, U, B, Ez. rewrite <- !Z.pow_add_r by lia. f_equal. lia. }
  (* the rounding error of the quotient, at scale 2^128 *)
  assert (F : 2 * Z.abs (Zpos Mz * H * m - c * 2 ^ 128) <= H * m).
  { rewrite HMxv, HMyv in Hbound.
    set (X := Zpos Mz * H * m - c * 2 ^ 128).
    set (Y := U * Z.pos Mz * (m * B) - c * A * 2 ^ 53) in *.
    assert (E1 : A * X = 2 ^ 75 * Y).
    { unfold X, Y. replace (A * (Z.pos Mz * H * m - c * 2 ^ 128))
        with (Z.pos Mz * (H * A) * m - c * A * 2 ^ 128) by ring.
      rewrite HHA. change (2 ^ 128) with (2 ^ 75 * 2 ^ 53). ring. }
    assert (E2 : A * Z.abs X = 2 ^ 75 * Z.abs Y).
    { rewrite <- (Z.abs_eq A) at 1 by lia. rewrite <- Z.abs_mul, E1, Z.abs_mul. done. }
    assert (E3 : A * (H * m) = 2 ^ 75 * (U * (m * B))).
    { replace (A * (H * m)) with (H * A * m) by ring. rewrite HHA. ring. }
    apply (Z.mul_le_mono_pos_l _ _ A); [lia|].
    rewrite E3. replace (A * (2 * Z.abs X)) with (2 * (A * Z.abs X)) by ring.
    rewrite E2. lia. }
  clear Hbound HHA HMxv HMyv.
  assert (HEzb : -170 <= Ez <= 70) by (unfold Ez; lia).
  set (S := 2 ^ (Et + 128)) in *.
  assert (HS : 2 ^ 74 <= S <= 2 ^ 75).
  { unfold S. split; [change (2 ^ 74) with (2 ^ (-54 + 128))|change (2 ^ 75) with (2 ^ (-53 + 128))];
      apply Z.pow_le_mono_r; lia. }
  assert (Hc128 : c * 2 ^ 128 = 4 * c * 2 ^ 126) by (change (2 ^ 128) with (4 * 2 ^ 126); ring).
  assert (HTm : Zpos T * S * m = k * m * 2 ^ 126) by (rewrite Hk; ring).
  unfold gt, SFltb, SFcompare.
  destruct (Z.compare_spec Et Ez) as [Heq|Hlt|Hgt].
  - assert (H = S) as HHS by (unfold H, S; by rewrite Heq).
    rewrite HHS in *. rewrite Pos.compare_cont_spec. cbn [Pos.switch_Eq].
    rewrite Pos2Z.inj_compare.
    destruct (Z.compare_spec (Zpos T) (Zpos Mz)) as [HTM|HTM|HTM];
      symmetry; [apply Z.ltb_ge|apply Z.ltb_lt|apply Z.ltb_ge].
    + rewrite <- HTM in F. nia.
    + assert (Zpos T * S * m + S * m <= Zpos Mz * S * m) by nia. nia.
    + assert (Zpos Mz * S * m <= Zpos T * S * m) by nia. nia.
  - assert (2 * S <= H).
    { unfold H, S. replace (Ez + 128) with ((Ez - Et - 1) + (1 + (Et + 128))) by lia.
      rewrite (Z.pow_add_r _ (Ez - Et - 1)) by lia. rewrite (Z.pow_add_r 2 1) by lia.
      change (2 ^ 1) with 2.
      assert (0 < 2 ^ (Ez - Et - 1)) by (apply Z.pow_pos_nonneg; lia).
      assert (0 < 2 ^ (Et + 128)) by (apply Z.pow_pos_nonneg; lia).
      nia. }
    symmetry; apply Z.ltb_lt.
    destruct (Z_lt_le_dec (k * m) (4 * c)) as [|Hle]; [done|exfalso].
    assert (0 < S * m) by nia.
    assert (2 * (S * m) <= H * m) by nia.
    assert (Zpos T * S * m <= 3 * 2 ^ 51 * (S * m)) by nia.
    assert (2 ^ 52 * (H * m) <= Zpos Mz * H * m) by nia.
    assert (c * 2 ^ 128 <= Zpos T * S * m) by nia.
    lia.
  - assert (2 * H <= S).
    { unfold H, S. replace (Et + 128) with ((Et - Ez - 1) + (1 + (Ez + 128))) by lia.
      rewrite (Z.pow_add_r _ (Et - Ez - 1)) by lia. rewrite (Z.pow_add_r 2 1) by lia.
      change (2 ^ 1) with 2.
      assert (0 < 2 ^ (Et - Ez - 1)) by (apply Z.pow_pos_nonneg; lia).
      assert (0 < 2 ^ (Ez + 128)) by (apply Z.pow_pos_nonneg; lia).
      nia. }
    symmetry; apply Z.ltb_ge.
    destruct (Z_lt_le_dec (k * m) (4 * c)) as [Hlt|]; [exfalso|done].
    assert (0 < H * m) by nia.
    assert (2 * (H * m) <= S * m) by nia.
    assert (Zpos Mz * H * m <= 2 ^ 53 * (H * m)) by nia.
    assert (2 ^ 52 * (S * m) <= Zpos T * S * m) by nia.
    assert (Zpos T * S * m + 2 ^ 126 <= c * 2 ^ 128) by nia.
    assert (S * m < 2 ^ 75 * 2 ^ 52) by nia.
    lia.
Qed.

Lemma ratio_gt_0_75 (c m : Z) :
  0 < c < 2 ^ 53 -> 0 < m < 2 ^ 52 ->
  gt (div (of_int c) (of_int m)) c0_75 = (3 * m <? 4 * c).
Proof. intros. by apply ratio_gt_threshold. Qed.

Lemma ratio_gt_0_5 (c m : Z) :
  0 < c < 2 ^ 53 -> 0 < m < 2 ^ 52 ->
  gt (div (of_int c) (of_int m)) c0_5 = (2 * m <? 4 * c).
Proof. intros. by apply ratio_gt_threshold. Qed.

Lemma ratio_gt_0_25 (c m : Z) :
  0 < c < 2 ^ 53 -> 0 < m < 2 ^ 52 ->
  gt (div (of_int c) (of_int m)) c0_25 = (1 * m <? 4 * c).
Proof. intros. by apply ratio_gt_threshold. Qed.

Lemma ratio_gt_zero (c m : Z) :
  0 < c < 2 ^ 53 -> 0 < m < 2 ^ 53 ->
  gt (div (of_int c) (of_int m)) zero = true.
Proof.
  intros Hc Hm.
  destruct (of_int_norm c) as (Mx & a & -> & Ha & HMxv & HMx); [lia|].
  destruct (of_int_norm m) as (My & b & -> & Hb & HMyv & HMy); [lia|].
  destruct (div_norm Mx My (- a) (- b)) as (Mz & u & -> & HMz & Hu & Hbound); [lia..|].
  done.
Qed.

End RoundingProofs.

(** ** The intensity level against the table of the specification *)

Lemma ratio_lt_cross (c m k : Z) (d : positive) :
  0 < m -> ((k # d) < Spec.ratio c m)%Q <-> k * m < Zpos d * c.
Proof.
  intros Hm. unfold Spec.ratio. destruct m as [|p|p]; [lia| |lia].
  unfold Qlt, Qdiv, Qmult, Qinv, inject_Z; cbn. lia.
Qed.

Lemma ratio_zero_cross (c m : Z) : 0 < m -> (0 < Spec.ratio c m)%Q <-> 0 < c.
Proof.
  intros Hm. unfold Spec.ratio. destruct m as [|p|p]; [lia| |lia].
  unfold Qlt, Qdiv, Qmult, Qinv, inject_Z; cbn. lia.
Qed.

Lemma ratio_le_cross (c m c' m' : Z) :
  0 < m -> 0 < m' -> (Spec.ratio c m <= Spec.ratio c' m')%Q <-> c * m' <= c' * m.
Proof.
  intros Hm Hm'. unfold Spec.ratio.
  destruct m as [|p|p]; [lia| |lia]. destruct m' as [|p'|p']; [lia| |lia].
  unfold Qle, Qdiv, Qmult, Qinv, inject_Z; cbn. lia.
Qed.

Lemma levelOfRatio_cross (c m : Z) :
  0 < c -> 0 < m ->
  Spec.levelOfRatio (Spec.ratio c m) =
  if 3 * m <? 4 * c then 4
  else if 2 * m <? 4 * c then 3
  else if 1 * m <? 4 * c then 2
  else 1.
Proof.
  intros Hc Hm. unfold Spec.levelOfRatio.
  repeat match goal with
         | |- context [Qlt_le_dec ?a ?b] => destruct (Qlt_le_dec a b)
         | |- context [?a <? ?b] => destruct (Z.ltb_spec a b)
         end;
    repeat match goal with
           | Hq : (_ <= _)%Q |- _ => apply Qle_not_lt in Hq
           end;
    repeat match goal with
           | Hq : context [(?k # ?d < Spec.ratio c m)%Q] |- _ =>
               rewrite (ratio_lt_cross c m k d Hm) in Hq
           end;
    try reflexivity; lia.
Qed.

Lemma calculateLevel_cross (c m : Z) :
  0 < c < 2 ^ 53 -> 0 < m < 2 ^ 52 ->
  Service.calculateLevel c m =
  if 3 * m <? 4 * c then 4
  else if 2 * m <? 4 * c then 3
  else if 1 * m <? 4 * c then 2
  else 1.
Proof.
  intros Hc Hm. unfold Service.calculateLevel.
  replace (c =? 0) with false by (symmetry; apply Z.eqb_neq; lia).
  replace (m =? 0) with false by (symmetry; apply Z.eqb_neq; lia).
  cbn [orb]. cbv zeta.
  rewrite ratio_gt_0_75, ratio_gt_0_5, ratio_gt_0_25 by lia. done.
Qed.

Lemma calculateLevelH_cross (c m : Z) :
  0 < c < 2 ^ 53 -> 0 < m < 2 ^ 52 ->
  ServiceH.calculateLevel c m =
  if 3 * m <? 4 * c then 4
  else if 2 * m <? 4 * c then 3
  else if 1 * m <? 4 * c then 2
  else 1.
Proof.
  intros Hc Hm. unfold ServiceH.calculateLevel.
  replace (c =? 0) with false by (symmetry; apply Z.eqb_neq; lia).
  replace (m =? 0) with false by (symmetry; apply Z.eqb_neq; lia).
  cbn [orb]. cbv zeta.
  rewrite ratio_gt_0_75, ratio_gt_0_5, ratio_gt_0_25, ratio_gt_zero by lia. done.
Qed.

Lemma calculateLevel_refines (c m : Z) :
  0 <= c < 2 ^ 53 -> 0 <= m < 2 ^ 52 ->
  Service.calculateLevel c m = Spec.level c m /\
  ServiceH.calculateLevel c m = Spec.level c m.
Proof.
  intros Hc Hm. unfold Spec.level.
  destruct (Z.eqb_spec c 0) as [->|Hc0].
  { by unfold Service.calculateLevel, ServiceH.calculateLevel. }
  destruct (Z.eqb_spec m 0) as [->|Hm0].
  { unfold Service.calculateLevel, ServiceH.calculateLevel.
    by rewrite Z.eqb_refl, orb_true_r. }
  cbn [orb].
  rewrite calculateLevel_cross, calculateLevelH_cross, levelOfRatio_cross by lia. done.
Qed.

Lemma levelOfRatio_mono (r r' : Q) :
  (r <= r')%Q -> Spec.levelOfRatio r <= Spec.levelOfRatio r'.
Proof.
  intros Hr. unfold Spec.levelOfRatio.
  repeat match goal with
         | |- context [Qlt_le_dec ?a ?b] => destruct (Qlt_le_dec a b)
         end; try lia; exfalso; lra.
Qed.

Lemma level_levelOfRatio (c m : Z) :
  0 <= c -> 0 < m -> Spec.level c m = Spec.levelOfRatio (Spec.ratio c m).
Proof.
  intros Hc Hm. unfold Spec.level.
  destruct (Z.eqb_spec c 0) as [->|Hc0].
  - cbn [orb]. unfold Spec.levelOfRatio.
    repeat match goal with
           | |- context [Qlt_le_dec ?a ?b] => destruct (Qlt_le_dec a b)
           end;
      repeat match goal with
             | Hq : context [(?k # ?d < Spec.ratio 0 m)%Q] |- _ =>
                 rewrite (ratio_lt_cross 0 m k d Hm) in Hq
             end; try reflexivity; lia.
  - replace (m =? 0) with false by (symmetry; apply Z.eqb_neq; lia). done.
Qed.

Lemma levelOfRatio_proper (r r' : Q) :
  (r == r')%Q -> Spec.levelOfRatio r = Spec.levelOfRatio r'.
Proof.
  intros Hr. apply Z.le_antisymm; apply levelOfRatio_mono; rewrite Hr; apply Qle_refl.
Qed.

(** C1. For a day count [c] and a window maximum [m] (non-negative and
    below 2^52, where the binary64 quotient decides the comparisons as the
    exact ratio does), [calculateLevel c m], in [docker_service.go] and in
    the copy of [handlers/heatmap.go] alike, is the level of the five-bucket
    table at [ratio = c / m]: 0 when [c] or [m] is 0, 4 when [ratio > 0.75],
    3 when [ratio > 0.5], 2 when [ratio > 0.25], 1 when [ratio > 0].  It
    depends on [c] and [m] through the ratio only, it does not decrease
    when the ratio grows, and the ratios 0.75, 0.5 and 0.25 themselves fall
    in the lower bucket (levels 3, 2 and 1). *)
Theorem calculateLevel_buckets (c m c' m' : Z) :
  0 <= c < 2 ^ 53 -> 0 <= m < 2 ^ 52 -> 0 <= c' < 2 ^ 53 -> 0 <= m' < 2 ^ 52 ->
  (Service.calculateLevel c m = Spec.level c m
   /\ ServiceH.calculateLevel c m = Spec.level c m)
  /\ (c = 0 \/ m = 0 -> Service.calculateLevel c m = 0)
  /\ (0 < m -> 0 < m' -> (Spec.ratio c m <= Spec.ratio c' m')%Q ->
      Service.calculateLevel c m <= Service.calculateLevel c' m')
  /\ (0 < m -> 0 < m' -> (Spec.ratio c m == Spec.ratio c' m')%Q ->
      Service.calculateLevel c m = Service.calculateLevel c' m')
  /\ (0 < m -> (Spec.ratio c m == 3 # 4)%Q -> Service.calculateLevel c m = 3)
  /\ (0 < m -> (Spec.ratio c m == 1 # 2)%Q -> Service.calculateLevel c m = 2)
  /\ (0 < m -> (Spec.ratio c m == 1 # 4)%Q -> Service.calculateLevel c m = 1).
Proof.
  intros Hc Hm Hc' Hm'.
  destruct (calculateLevel_refines c m Hc Hm) as [E EH].
  destruct (calculateLevel_refines c' m' Hc' Hm') as [E' _].
  split; [done|]. rewrite E, E'.
  split.
  { intros [-> | ->]; unfold Spec.level; [done|by rewrite Z.eqb_refl, orb_true_r]. }
  split.
  { intros Hm0 Hm0' Hr. rewrite !level_levelOfRatio by lia. by apply levelOfRatio_mono. }
  split.
  { intros Hm0 Hm0' Hr. rewrite !level_levelOfRatio by lia. by apply levelOfRatio_proper. }
  repeat split; intros Hm0 Hr; rewrite level_levelOfRatio by lia;
    rewrite (levelOfRatio_proper _ _ Hr); reflexivity.
Qed.

Lemma calculateLevel_buckets_witness :
  (0 <= 3 < 2 ^ 53 /\ 0 <= 4 < 2 ^ 52 /\ 0 <= 7 < 2 ^ 53 /\ 0 <= 8 < 2 ^ 52)
  /\ (Service.calculateLevel 3 4 = Spec.level 3 4
      /\ ServiceH.calculateLevel 3 4 = Spec.level 3 4)
  /\ (3 = 0 \/ 4 = 0 -> Service.calculateLevel 3 4 = 0)
  /\ (0 < 4 -> 0 < 8 -> (Spec.ratio 3 4 <= Spec.ratio 7 8)%Q ->
      Service.calculateLevel 3 4 <= Service.calculateLevel 7 8)
  /\ (0 < 4 -> 0 < 8 -> (Spec.ratio 3 4 == Spec.ratio 7 8)%Q ->
      Service.calculateLevel 3 4 = Service.calculateLevel 7 8)
  /\ (0 < 4 -> (Spec.ratio 3 4 == 3 # 4)%Q -> Service.calculateLevel 3 4 = 3)
  /\ (0 < 4 -> (Spec.ratio 3 4 == 1 # 2)%Q -> Service.calculateLevel 3 4 = 2)
  /\ (0 < 4 -> (Spec.ratio 3 4 == 1 # 4)%Q -> Service.calculateLevel 3 4 = 1).
Proof.
  split; [lia|]. apply (calculateLevel_buckets 3 4 7 8); lia.
Defined.

(** ** The loop over the days of the window *)

Lemma forEachDay_unfold {A : Type} (body : Z -> A) (endDate d : Z) :
  Time.forEachDay body endDate d =
  if Z_lt_dec endDate d then []
  else body d :: Time.forEachDay body endDate (Time.AddDays d 1).
Proof.
  funelim (Time.forEachDay body endDate d); simp forEachDay.
  - rewrite Heq. done.
  - rewrite Heq. done.
Qed.

(** The loop visits [start], [start + 1 day], ... while the day does not
    lie after [endDate]. *)
Lemma forEachDay_seq {A : Type} (body : Z -> A) (endDate d : Z) :
  Time.forEachDay body endDate d =
  (fun i : nat => body (Time.AddDays d (Z.of_nat i)))
    <$> seq 0 (Z.to_nat ((endDate - d) / Time.secondsPerDay + 1)).
Proof.
  remember (Z.to_nat ((endDate - d) / Time.secondsPerDay + 1)) as n eqn:Hn.
  revert d Hn. induction n as [|n IH]; intros d Hn; rewrite forEachDay_unfold.
  - destruct (Z_lt_dec endDate d) as [|Hge]; [done|].
    exfalso. unfold Time.secondsPerDay in Hn. div_lia.
  - destruct (Z_lt_dec endDate d) as [Hlt|Hge].
    { exfalso. unfold Time.secondsPerDay in Hn. div_lia. }
    rewrite (IH (Time.AddDays d 1)).
    2:{ unfold Time.AddDays, Time.secondsPerDay in *. div_lia. }
    cbn [seq fmap list_fmap]. f_equal.
    + f_equal. unfold Time.AddDays. lia.
    + rewrite <- fmap_S_seq, <- list_fmap_compose. apply list_fmap_ext.
      intros i x _. cbn. f_equal. unfold Time.AddDays. lia.
Qed.

Lemma startOfWindow_day (now days : Z) :
  Service.startOfWindow now days = Time.midnightUTC (Time.dayOf now - days).
Proof.
  unfold Service.startOfWindow, Time.truncateToDay, Time.dayOf, Time.AddDays,
    Time.midnightUTC, Time.secondsPerDay.
  f_equal. div_lia.
Qed.

Lemma window_length (now days : Z) :
  (now - Service.startOfWindow now days) / Time.secondsPerDay = days.
Proof.
  rewrite startOfWindow_day.
  unfold Time.midnightUTC, Time.dayOf, Time.secondsPerDay. div_lia.
Qed.

Lemma dayOf_AddDays_midnight (d i : Z) :
  Time.dayOf (Time.AddDays (Time.midnightUTC d) i) = d + i.
Proof. unfold Time.dayOf, Time.AddDays, Time.midnightUTC, Time.secondsPerDay. div_lia. Qed.

(** ** Aggregation: which dates are in the map *)

Lemma aggregate_lookup_ne (st : gmap string ActivitySummary.t * Z) (e : ActivityEvent.t)
    (k : string) :
  Time.Format (ActivityEvent.EventDate e) <> k ->
  (Service.aggregate st e).1 !! k = st.1 !! k.
Proof.
  intros Hne. destruct st as [m mx]. unfold Service.aggregate. cbn [fst].
  rewrite lookup_alter_ne by done.
  destruct (m !! Time.Format (ActivityEvent.EventDate e)); [done|].
  by rewrite lookup_insert_ne.
Qed.

Lemma aggregate_fold_lookup_ne (events : list ActivityEvent.t)
    (st : gmap string ActivitySummary.t * Z) (k : string) :
  (forall e, e ∈ events -> Time.Format (ActivityEvent.EventDate e) <> k) ->
  (fold_left Service.aggregate events st).1 !! k = st.1 !! k.
Proof.
  revert st. induction events as [|e events IH]; intros st Hall; [done|].
  cbn [fold_left]. rewrite IH.
  - apply aggregate_lookup_ne. apply Hall. left.
  - intros e' He'. apply Hall. by right.
Qed.

Lemma aggregateH_lookup_ne (m : gmap string ActivitySummary.t) (e : ActivityEvent.t)
    (k : string) :
  Time.Format (ActivityEvent.EventDate e) <> k ->
  ServiceH.aggregate m e !! k = m !! k.
Proof.
  intros Hne. unfold ServiceH.aggregate.
  rewrite lookup_alter_ne by done.
  destruct (m !! Time.Format (ActivityEvent.EventDate e)); [done|].
  by rewrite lookup_insert_ne.
Qed.

Lemma aggregateH_fold_lookup_ne (events : list ActivityEvent.t)
    (m : gmap string ActivitySummary.t) (k : string) :
  (forall e, e ∈ events -> Time.Format (ActivityEvent.EventDate e) <> k) ->
  fold_left ServiceH.aggregate events m !! k = m !! k.
Proof.
  revert m. induction events as [|e events IH]; intros m Hall; [done|].
  cbn [fold_left]. rewrite IH.
  - apply aggregateH_lookup_ne. apply Hall. left.
  - intros e' He'. apply Hall. by right.
Qed.

Lemma queryEvents_elem (db : Store.DB) (accountID startDate : Z) (e : ActivityEvent.t) :
  e ∈ Service.queryEvents db accountID startDate ->
  e ∈ Store.events db /\ ActivityEvent.DockerAccountID e = accountID.
Proof.
  unfold Service.queryEvents. rewrite !list_elem_of_In, filter_In.
  intros [Hin Hc]. apply andb_true_iff in Hc as [Hid _].
  apply bool_decide_eq_true in Hid. done.
Qed.

Lemma queryEventsH_elem (db : Store.DB) (accountID startDate endDate : Z)
    (e : ActivityEvent.t) :
  e ∈ ServiceH.queryEvents db accountID startDate endDate ->
  e ∈ Store.events db /\ ActivityEvent.DockerAccountID e = accountID.
Proof.
  unfold ServiceH.queryEvents. rewrite !list_elem_of_In, filter_In.
  intros [Hin Hc]. apply andb_true_iff in Hc as [Hc _].
  apply andb_true_iff in Hc as [Hid _].
  apply bool_decide_eq_true in Hid. done.
Qed.

Lemma summaryFor_Date (dateMap : gmap string ActivitySummary.t) (maxCount d : Z) :
  ActivitySummary.Date (Service.summaryFor dateMap maxCount d) = Time.Format d.
Proof. unfold Service.summaryFor. by destruct (dateMap !! Time.Format d). Qed.

(** Every entry of the map is filed under its own date. *)
Lemma aggregateH_Date (events : list ActivityEvent.t) (m : gmap string ActivitySummary.t) :
  (forall k s, m !! k = Some s -> ActivitySummary.Date s = k) ->
  forall k s, fold_left ServiceH.aggregate events m !! k = Some s ->
              ActivitySummary.Date s = k.
Proof.
  revert m. induction events as [|e events IH]; intros m Hm; [done|].
  cbn [fold_left]. apply IH. clear IH.
  intros k s. unfold ServiceH.aggregate.
  set (dateStr := Time.Format (ActivityEvent.EventDate e)).
  destruct (decide (dateStr = k)) as [<-|Hne].
  - rewrite lookup_alter_eq.
    destruct (m !! dateStr) as [s0|] eqn:Hs0.
    + rewrite Hs0. cbn. intros [= <-]. specialize (Hm _ _ Hs0).
      by destruct (ActivityEvent.Kind e).
    + rewrite lookup_insert_eq. cbn. intros [= <-].
      by destruct (ActivityEvent.Kind e).
  - rewrite lookup_alter_ne by done.
    destruct (m !! dateStr); [apply Hm|].
    rewrite lookup_insert_ne by done. apply Hm.
Qed.

Lemma summaryForH_Date (events : list ActivityEvent.t) (maxCount d : Z) :
  ActivitySummary.Date
    (ServiceH.summaryFor (fold_left ServiceH.aggregate events ∅) maxCount d)
  = Time.Format d.
Proof.
  unfold ServiceH.summaryFor.
  destruct (fold_left ServiceH.aggregate events ∅ !! Time.Format d) as [s|] eqn:Hs; [|done].
  cbn. eapply aggregateH_Date; [|exact Hs]. intros k s0. by rewrite lookup_empty.
Qed.

(** ** The summary series *)

Lemma series_dates {A : Type} (body : Z -> A) (date : A -> string) (now days : Z) :
  (forall d, date (body d) = Time.Format d) ->
  date <$> Time.forEachDay body now (Service.startOfWindow now days)
  = Time.formatDay <$> Spec.windowDays now days.
Proof.
  intros Hdate. rewrite forEachDay_seq, window_length.
  unfold Spec.windowDays. rewrite <- !list_fmap_compose.
  apply list_fmap_ext. intros i x _. cbn.
  rewrite Hdate, startOfWindow_day. unfold Time.Format.
  by rewrite dayOf_AddDays_midnight.
Qed.

(** *** The loop that reads the clock at every test *)

Lemma rest_Now (c : Clock.t) : Clock.rest (Clock.Now c).2 = Clock.rest c.
Proof. unfold Clock.Now. by destruct (Clock.reads c). Qed.

Lemma later_Now (c : Clock.t) :
  Clock.later c = Clock.reads (Clock.Now c).2 ++ [Clock.rest (Clock.Now c).2].
Proof. unfold Clock.later. by rewrite rest_Now. Qed.

(** With a clock that does not run backwards the loop visits [d],
    [d + 1 day], ... up to the day of the reading at which it stops: the
    reading of the test that follows the last pass. *)
Lemma forEachDayOf_seq {A : Type} (body : Z -> A) (reads : list Z) (rest d : Z) :
  StronglySorted Z.le (reads ++ [rest]) ->
  exists windowEnd,
    windowEnd ∈ reads ++ [rest]
    /\ windowEnd = nth (length (Clock.forEachDayOf body reads rest d)) (reads ++ [rest]) rest
    /\ Clock.forEachDayOf body reads rest d
       = (fun i : nat => body (Time.AddDays d (Z.of_nat i)))
           <$> seq 0 (Z.to_nat ((windowEnd - d) / Time.secondsPerDay + 1)).
Proof.
  revert d. induction reads as [|now later IH]; intros d Hsorted.
  - exists rest. split; [left|]. cbn [Clock.forEachDayOf app].
    split; [|apply forEachDay_seq].
    by destruct (length _) as [|[|n]].
  - cbn [app] in Hsorted. apply StronglySorted_inv in Hsorted as [Hsorted Hnow].
    cbn [Clock.forEachDayOf]. destruct (Z_lt_dec now d) as [Hlt|Hge].
    + exists now. split; [left|]. split; [done|].
      replace (Z.to_nat ((now - d) / Time.secondsPerDay + 1)) with 0%nat; [done|].
      unfold Time.secondsPerDay. div_lia.
    + destruct (IH (Time.AddDays d 1) Hsorted) as (windowEnd & Hin & Hnth & Hloop).
      exists windowEnd. split; [by right|]. split; [done|]. rewrite Hloop.
      assert (Hle : now <= windowEnd).
      { rewrite Forall_forall in Hnow. by apply Hnow. }
      replace (Z.to_nat ((windowEnd - d) / Time.secondsPerDay + 1))
        with (S (Z.to_nat ((windowEnd - Time.AddDays d 1) / Time.secondsPerDay + 1))).
      2:{ unfold Time.AddDays, Time.secondsPerDay. div_lia. }
      cbn [seq fmap list_fmap]. f_equal.
      * f_equal. unfold Time.AddDays. lia.
      * rewrite <- fmap_S_seq, <- list_fmap_compose. apply list_fmap_ext.
        intros i x _. cbn. f_equal. unfold Time.AddDays. lia.
Qed.

(** No reading before the day [i] of the loop: the loop reaches it. *)
Lemma forEachDayOf_lookup {A : Type} (body : Z -> A) (reads : list Z) (rest d : Z)
    (i : nat) :
  Forall (fun r => Time.AddDays d (Z.of_nat i) <= r) (reads ++ [rest]) ->
  Clock.forEachDayOf body reads rest d !! i = Some (body (Time.AddDays d (Z.of_nat i))).
Proof.
  revert d i. induction reads as [|now later IH]; intros d i Hall.
  - cbn [app] in Hall. rewrite Forall_singleton in Hall.
    cbn [Clock.forEachDayOf]. rewrite forEachDay_seq, list_lookup_fmap.
    rewrite lookup_seq_lt; [done|].
    assert (Hi : Z.of_nat i < (rest - d) / Time.secondsPerDay + 1).
    { unfold Time.AddDays, Time.secondsPerDay in *. div_lia. }
    lia.
  - cbn [app] in Hall. apply Forall_cons in Hall as [Hnow Hall].
    cbn [Clock.forEachDayOf]. destruct (Z_lt_dec now d) as [Hlt|Hge].
    { exfalso. unfold Time.AddDays, Time.secondsPerDay in Hnow. lia. }
    destruct i as [|i].
    + cbn. do 2 f_equal. unfold Time.AddDays. lia.
    + cbn [lookup list_lookup]. rewrite IH.
      * do 2 f_equal. unfold Time.AddDays. lia.
      * eapply Forall_impl; [exact Hall|]. intros r Hr. cbn beta in *.
        unfold Time.AddDays in *. lia.
Qed.

(** The capacities that [make] accepts include those of the windows of
    up to 2^40 days. *)
Lemma makeslice_window (days : Z) :
  -1 <= days <= 2 ^ 40 ->
  Runtime.makeslice Runtime.sizeofActivitySummary (GoInt.add days 1) = true.
Proof.
  intros Hdays.
  unfold Runtime.makeslice, Runtime.sizeofActivitySummary, Runtime.maxAlloc, GoInt.add,
    GoInt.wrap64.
  rewrite Z.mod_small by lia.
  apply andb_true_iff. split; apply Z.leb_le; lia.
Qed.

Lemma series_dates_of {A : Type} (body : Z -> A) (date : A -> string) (now days : Z)
    (n : nat) :
  (forall d, date (body d) = Time.Format d) ->
  date <$> ((fun i : nat => body (Time.AddDays (Service.startOfWindow now days) (Z.of_nat i)))
              <$> seq 0 n)
  = Time.formatDay <$> Spec.daysFrom (Time.dayOf now - days) n.
Proof.
  intros Hdate. unfold Spec.daysFrom. rewrite <- !list_fmap_compose.
  apply list_fmap_ext. intros i x _. cbn.
  rewrite Hdate, startOfWindow_day. unfold Time.Format.
  by rewrite dayOf_AddDays_midnight.
Qed.

Lemma windowDays_daysFrom (now days : Z) :
  Spec.windowDays now days = Spec.daysFrom (Time.dayOf now - days) (Z.to_nat (days + 1)).
Proof. reflexivity. Qed.

Lemma window_length_until (now windowEnd days : Z) :
  Time.dayOf windowEnd = Time.dayOf now ->
  (windowEnd - Service.startOfWindow now days) / Time.secondsPerDay = days.
Proof.
  intros Hday. rewrite startOfWindow_day. revert Hday.
  unfold Time.midnightUTC, Time.dayOf, Time.secondsPerDay. div_lia.
Qed.

(** C2. When the account exists and [days + 1] is a capacity that [make]
    accepts (that is, [-1 <= days] and [56 * (days + 1) <= 2^48]), and the
    clock does not run backwards during the call, [GetActivitySummary]
    returns a series with exactly [(windowEnd - windowStart in days) + 1]
    entries, where the window starts at the midnight [days] days before
    the first reading of the clock and ends at the reading at which the
    loop over the days stops, the one of the test after the last entry
    (in the copy of [handlers/heatmap.go]: at the second reading of the
    call); the entries are dated with the calendar days from
    the first day of the window on, one entry per day, without gaps, in
    ascending order.  When the window ends on the day of the first
    reading these are the [days + 1] days of the requested window.  This
    holds for [docker_service.go] and for the copy of
    [handlers/heatmap.go]. *)
Theorem summary_series_covers_window (db : Store.DB) (clock : Clock.t)
    (dockerUsername : string) (days : Z) (account : DockerAccount.t) :
  Service.GetDockerAccountByUsername db dockerUsername = Ok account ->
  Runtime.makeslice Runtime.sizeofActivitySummary (GoInt.add days 1) = true ->
  StronglySorted Z.le ((Clock.Now clock).1 :: Clock.later clock) ->
  exists summaries summariesH windowEnd windowEndH,
    Service.GetActivitySummary db clock dockerUsername days = Returns (Ok summaries)
    /\ ServiceH.GetActivitySummary db clock dockerUsername days = Returns (Ok summariesH)
    /\ windowEnd ∈ Clock.later clock
    /\ windowEnd = nth (length summaries) (Clock.later clock) (Clock.rest clock)
    /\ windowEndH = (Clock.Now (Clock.Now clock).2).1
    /\ length summaries
       = Z.to_nat ((windowEnd - Service.startOfWindow (Clock.Now clock).1 days)
                   / Time.secondsPerDay + 1)
    /\ length summariesH
       = Z.to_nat ((windowEndH - Service.startOfWindow (Clock.Now clock).1 days)
                   / Time.secondsPerDay + 1)
    /\ ActivitySummary.Date <$> summaries
       = Time.formatDay
           <$> Spec.daysFrom (Time.dayOf (Clock.Now clock).1 - days) (length summaries)
    /\ ActivitySummary.Date <$> summariesH
       = Time.formatDay
           <$> Spec.daysFrom (Time.dayOf (Clock.Now clock).1 - days) (length summariesH)
    /\ (Time.dayOf windowEnd = Time.dayOf (Clock.Now clock).1 ->
        (windowEnd - Service.startOfWindow (Clock.Now clock).1 days) / Time.secondsPerDay
        = days
        /\ length summaries = Z.to_nat (days + 1)
        /\ ActivitySummary.Date <$> summaries
           = Time.formatDay <$> Spec.windowDays (Clock.Now clock).1 days)
    /\ (Time.dayOf windowEndH = Time.dayOf (Clock.Now clock).1 ->
        (windowEndH - Service.startOfWindow (Clock.Now clock).1 days) / Time.secondsPerDay
        = days
        /\ length summariesH = Z.to_nat (days + 1)
        /\ ActivitySummary.Date <$> summariesH
           = Time.formatDay <$> Spec.windowDays (Clock.Now clock).1 days).
Proof.
  intros Hacc Hcap Hsorted.
  apply StronglySorted_inv in Hsorted as [Hsorted _]. rewrite later_Now in Hsorted.
  unfold Service.GetActivitySummary, ServiceH.GetActivitySummary,
    ServiceH.GetDockerAccountByUsername.
  rewrite Hacc, later_Now, <- (rest_Now clock).
  destruct (Clock.Now clock) as [now clock1]. cbn [fst snd] in *.
  rewrite Hcap.
  destruct (fold_left Service.aggregate _ _) as [dateMap maxCount].
  change (ServiceH.startOfWindow now days) with (Service.startOfWindow now days).
  destruct (forEachDayOf_seq (Service.summaryFor dateMap maxCount) (Clock.reads clock1)
              (Clock.rest clock1) (Service.startOfWindow now days) Hsorted)
    as (windowEnd & Hin & Hnth & Hloop).
  unfold Clock.forEachDay. rewrite Hloop in Hnth |- *.
  destruct (Clock.Now clock1) as [endDate clock2]. cbn [fst snd].
  set (eventsH := ServiceH.queryEvents _ _ _ _).
  rewrite (forEachDay_seq _ endDate).
  eexists _, _, windowEnd, endDate.
  split; [reflexivity|]. split; [reflexivity|]. split; [done|].
  split; [exact Hnth|]. split; [done|].
  rewrite !length_fmap, !length_seq.
  split; [done|]. split; [done|].
  split; [apply series_dates_of, summaryFor_Date|].
  split; [apply series_dates_of; intros d; apply summaryForH_Date|].
  split.
  - intros Hday. rewrite (window_length_until now windowEnd days Hday).
    split; [done|]. split; [done|].
    rewrite windowDays_daysFrom. apply series_dates_of, summaryFor_Date.
  - intros Hday. rewrite (window_length_until now endDate days Hday).
    split; [done|]. split; [done|].
    rewrite windowDays_daysFrom. apply series_dates_of. intros d. apply summaryForH_Date.
Qed.

Lemma summary_series_covers_window_witness :
  (Service.GetDockerAccountByUsername Example.scenario "alice" = Ok Example.alice
   /\ Runtime.makeslice Runtime.sizeofActivitySummary (GoInt.add 2 1) = true
   /\ StronglySorted Z.le
        ((Clock.Now Example.aroundNoon).1 :: Clock.later Example.aroundNoon))
  /\ exists summaries summariesH windowEnd windowEndH,
       Service.GetActivitySummary Example.scenario Example.aroundNoon "alice" 2
       = Returns (Ok summaries)
       /\ ServiceH.GetActivitySummary Example.scenario Example.aroundNoon "alice" 2
          = Returns (Ok summariesH)
       /\ windowEnd ∈ Clock.later Example.aroundNoon
       /\ windowEnd = nth (length summaries) (Clock.later Example.aroundNoon)
                        (Clock.rest Example.aroundNoon)
       /\ windowEndH = (Clock.Now (Clock.Now Example.aroundNoon).2).1
       /\ length summaries
          = Z.to_nat ((windowEnd - Service.startOfWindow (Clock.Now Example.aroundNoon).1 2)
                      / Time.secondsPerDay + 1)
       /\ length summariesH
          = Z.to_nat ((windowEndH - Service.startOfWindow (Clock.Now Example.aroundNoon).1 2)
                      / Time.secondsPerDay + 1).
Proof.
  assert (Hsorted : StronglySorted Z.le
                      ((Clock.Now Example.aroundNoon).1 :: Clock.later Example.aroundNoon)).
  { vm_compute. repeat (constructor; [|repeat constructor; discriminate]). constructor. }
  split; [split; [reflexivity|split; [reflexivity|exact Hsorted]]|].
  destruct (summary_series_covers_window Example.scenario Example.aroundNoon "alice" 2
              Example.alice eq_refl eq_refl Hsorted)
    as (summaries & summariesH & windowEnd & windowEndH
        & H1 & H2 & H3 & H4 & H5 & H6 & H7 & _).
  by exists summaries, summariesH, windowEnd, windowEndH.
Defined.

Lemma series_lookup {A : Type} (body : Z -> A) (now days : Z) (i : nat) :
  (i < Z.to_nat (days + 1))%nat ->
  Time.forEachDay body now (Service.startOfWindow now days) !! i
  = Some (body (Time.midnightUTC (Time.dayOf now - days + Z.of_nat i))).
Proof.
  intros Hi. rewrite forEachDay_seq, window_length, list_lookup_fmap.
  rewrite lookup_seq_lt by done. cbn. f_equal. f_equal.
  rewrite startOfWindow_day.
  unfold Time.AddDays, Time.midnightUTC, Time.secondsPerDay. lia.
Qed.

Lemma Format_midnight (d : Z) : Time.Format (Time.midnightUTC d) = Time.formatDay d.
Proof.
  unfold Time.Format. f_equal.
  unfold Time.dayOf, Time.midnightUTC, Time.secondsPerDay. div_lia.
Qed.

Lemma Now_in_later (c : Clock.t) : (Clock.Now (Clock.Now c).2).1 ∈ Clock.later c.
Proof.
  rewrite later_Now. destruct (Clock.Now c) as [now c1]. cbn [fst snd].
  unfold Clock.Now. destruct (Clock.reads c1) as [|r later]; cbn; [left|left].
Qed.

(** The entry of day [i] of the window, when no reading of the clock is
    earlier than the first one. *)
Lemma series_lookup_of {A : Type} (body : Z -> A) (reads : list Z) (rest now days : Z)
    (i : nat) :
  (i < Z.to_nat (days + 1))%nat ->
  Forall (fun reading => now <= reading) (reads ++ [rest]) ->
  Clock.forEachDayOf body reads rest (Service.startOfWindow now days) !! i
  = Some (body (Time.midnightUTC (Time.dayOf now - days + Z.of_nat i))).
Proof.
  intros Hi Hall. rewrite forEachDayOf_lookup.
  - do 2 f_equal. rewrite startOfWindow_day.
    unfold Time.AddDays, Time.midnightUTC, Time.secondsPerDay. lia.
  - eapply Forall_impl; [exact Hall|]. intros r Hr. cbn beta in *.
    rewrite startOfWindow_day.
    assert (Hday : Time.midnightUTC (Time.dayOf now) <= now).
    { unfold Time.midnightUTC, Time.dayOf, Time.secondsPerDay. div_lia. }
    unfold Time.AddDays, Time.midnightUTC, Time.secondsPerDay in *. lia.
Qed.

(** C9. A day of the requested window on which the account has no
    recorded event still has its entry in the series, at the position of
    the day, with total count 0 and level 0.  The window is the one of
    the first reading of the clock; no later reading is earlier than
    that, and [days + 1] is a capacity that [make] accepts. *)
Theorem empty_day_is_emitted_as_zero (db : Store.DB) (clock : Clock.t)
    (dockerUsername : string) (days : Z) (account : DockerAccount.t) (i : nat) :
  Service.GetDockerAccountByUsername db dockerUsername = Ok account ->
  (i < Z.to_nat (days + 1))%nat ->
  Runtime.makeslice Runtime.sizeofActivitySummary (GoInt.add days 1) = true ->
  Forall (fun reading => (Clock.Now clock).1 <= reading) (Clock.later clock) ->
  (forall e, e ∈ Store.events db ->
             ActivityEvent.DockerAccountID e = DockerAccount.ID account ->
             Time.Format (ActivityEvent.EventDate e)
             <> Time.formatDay (Time.dayOf (Clock.Now clock).1 - days + Z.of_nat i)) ->
  exists summaries summariesH entry entryH,
    Service.GetActivitySummary db clock dockerUsername days = Returns (Ok summaries)
    /\ ServiceH.GetActivitySummary db clock dockerUsername days = Returns (Ok summariesH)
    /\ Spec.windowDays (Clock.Now clock).1 days !! i
       = Some (Time.dayOf (Clock.Now clock).1 - days + Z.of_nat i)
    /\ summaries !! i = Some entry
    /\ summariesH !! i = Some entryH
    /\ ActivitySummary.Date entry
       = Time.formatDay (Time.dayOf (Clock.Now clock).1 - days + Z.of_nat i)
    /\ ActivitySummary.TotalCount entry = 0
    /\ ActivitySummary.Level entry = 0
    /\ ActivitySummary.Date entryH
       = Time.formatDay (Time.dayOf (Clock.Now clock).1 - days + Z.of_nat i)
    /\ ActivitySummary.TotalCount entryH = 0
    /\ ActivitySummary.Level entryH = 0.
Proof.
  intros Hacc Hi Hcap Hclock Hnone.
  pose proof (Now_in_later clock) as Hend.
  rewrite later_Now in Hclock, Hend.
  unfold Service.GetActivitySummary, ServiceH.GetActivitySummary,
    ServiceH.GetDockerAccountByUsername.
  rewrite Hacc.
  destruct (Clock.Now clock) as [now clock1]. cbn [fst snd] in *.
  set (day := Time.dayOf now - days + Z.of_nat i) in *.
  rewrite Hcap.
  assert (HendDate : now <= (Clock.Now clock1).1).
  { rewrite Forall_forall in Hclock. by apply Hclock. }
  destruct (Clock.Now clock1) as [endDate clock2]. cbn [fst snd] in *.
  change (ServiceH.startOfWindow now days) with (Service.startOfWindow now days).
  set (events := Service.queryEvents _ _ _).
  set (eventsH := ServiceH.queryEvents _ _ _ _).
  pose proof (aggregate_fold_lookup_ne events (∅, 0) (Time.formatDay day)) as Hmap.
  destruct (fold_left Service.aggregate events (∅, 0)) as [dateMap maxCount].
  cbn [fst] in Hmap. rewrite lookup_empty in Hmap.
  assert (HmapH : fold_left ServiceH.aggregate eventsH ∅ !! Time.formatDay day = None).
  { rewrite aggregateH_fold_lookup_ne; [apply lookup_empty|].
    intros e He. apply queryEventsH_elem in He as [He Hid]. by apply Hnone. }
  eexists _, _, _, _.
  split; [reflexivity|]. split; [reflexivity|].
  split.
  { unfold Spec.windowDays. rewrite list_lookup_fmap, lookup_seq_lt by done. done. }
  split; [by apply series_lookup_of|].
  split.
  { apply (series_lookup_of _ [] endDate now days i Hi). by apply Forall_singleton. }
  fold day.
  unfold Service.summaryFor, ServiceH.summaryFor.
  rewrite !Format_midnight, HmapH, Hmap; [done|].
  intros e He. apply queryEvents_elem in He as [He Hid]. by apply Hnone.
Qed.

Lemma empty_day_is_emitted_as_zero_witness :
  (Service.GetDockerAccountByUsername Example.scenario "alice" = Ok Example.alice
   /\ (1 < Z.to_nat (2 + 1))%nat
   /\ Runtime.makeslice Runtime.sizeofActivitySummary (GoInt.add 2 1) = true
   /\ Forall (fun reading => (Clock.Now Example.aroundNoon).1 <= reading)
             (Clock.later Example.aroundNoon))
  /\ exists summaries summariesH entry entryH,
       Service.GetActivitySummary Example.scenario Example.aroundNoon "alice" 2
       = Returns (Ok summaries)
       /\ ServiceH.GetActivitySummary Example.scenario Example.aroundNoon "alice" 2
          = Returns (Ok summariesH)
       /\ Spec.windowDays (Clock.Now Example.aroundNoon).1 2 !! 1%nat
          = Some (Time.dayOf (Clock.Now Example.aroundNoon).1 - 2 + Z.of_nat 1)
       /\ summaries !! 1%nat = Some entry
       /\ summariesH !! 1%nat = Some entryH
       /\ ActivitySummary.Date entry
          = Time.formatDay (Time.dayOf (Clock.Now Example.aroundNoon).1 - 2 + Z.of_nat 1)
       /\ ActivitySummary.TotalCount entry = 0
       /\ ActivitySummary.Level entry = 0
       /\ ActivitySummary.Date entryH
          = Time.formatDay (Time.dayOf (Clock.Now Example.aroundNoon).1 - 2 + Z.of_nat 1)
       /\ ActivitySummary.TotalCount entryH = 0
       /\ ActivitySummary.Level entryH = 0.
Proof.
  assert (Hi : (1 < Z.to_nat (2 + 1))%nat) by (vm_compute; lia).
  assert (Hclock : Forall (fun reading => (Clock.Now Example.aroundNoon).1 <= reading)
                          (Clock.later Example.aroundNoon)).
  { vm_compute. repeat constructor; discriminate. }
  split; [split; [reflexivity|split; [exact Hi|split; [reflexivity|exact Hclock]]]|].
  apply (empty_day_is_emitted_as_zero Example.scenario Example.aroundNoon "alice" 2
           Example.alice 1); [reflexivity|exact Hi|reflexivity|exact Hclock|].
  intros e He _.
  apply list_elem_of_In in He. cbn in He.
  destruct He as [<-|[<-|[]]]; vm_compute; discriminate.
Defined.

(** *** Windows that [make] refuses, and a day that begins during the call *)

(** X5. For an account that exists and a Go int [days] of -2 or less,
    [GetActivitySummary] does not return: [make([]ActivitySummary, 0,
    days+1)] panics on the negative capacity, in [docker_service.go] and
    in the copy of [handlers/heatmap.go]. *)
Theorem window_below_minus_one_panics (db : Store.DB) (clock : Clock.t)
    (dockerUsername : string) (days : Z) (account : DockerAccount.t) :
  Service.GetDockerAccountByUsername db dockerUsername = Ok account ->
  GoInt.inRange days ->
  days <= -2 ->
  Service.GetActivitySummary db clock dockerUsername days = Panics Runtime.capOutOfRange
  /\ ServiceH.GetActivitySummary db clock dockerUsername days = Panics Runtime.capOutOfRange.
Proof.
  intros Hacc Hrange Hdays.
  assert (Hcap : Runtime.makeslice Runtime.sizeofActivitySummary (GoInt.add days 1) = false).
  { unfold Runtime.makeslice. apply andb_false_iff. left. apply Z.leb_gt.
    unfold GoInt.inRange, GoInt.minInt, GoInt.maxInt in Hrange.
    unfold GoInt.add, GoInt.wrap64. div_lia. }
  unfold Service.GetActivitySummary, ServiceH.GetActivitySummary,
    ServiceH.GetDockerAccountByUsername.
  rewrite Hacc, Hcap.
  destruct (Clock.Now clock) as [now clock1].
  destruct (Clock.Now clock1) as [endDate clock2].
  by destruct (fold_left Service.aggregate _ _).
Qed.

Lemma window_below_minus_one_panics_witness :
  (Service.GetDockerAccountByUsername Example.scenario "alice" = Ok Example.alice
   /\ GoInt.inRange (-2)
   /\ -2 <= -2)
  /\ Service.GetActivitySummary Example.scenario Example.aroundNoon "alice" (-2)
     = Panics Runtime.capOutOfRange
  /\ ServiceH.GetActivitySummary Example.scenario Example.aroundNoon "alice" (-2)
     = Panics Runtime.capOutOfRange.
Proof.
  assert (Hrange : GoInt.inRange (-2)) by (vm_compute; split; discriminate).
  split; [split; [reflexivity|split; [exact Hrange|lia]]|].
  apply (window_below_minus_one_panics Example.scenario Example.aroundNoon "alice" (-2)
           Example.alice); [reflexivity|exact Hrange|lia].
Defined.

(** X6. When a day begins between the first reading of the clock and the
    reading at which the window ends, the series has one entry more than
    [days + 1]: asked for 2 days one second before the midnight that ends
    2024-01-03, both copies return the four days 2024-01-01 to
    2024-01-04. *)
Theorem window_across_midnight_has_one_more_day :
  exists summaries summariesH,
    Service.GetActivitySummary Example.scenario Example.acrossMidnight "alice" 2
    = Returns (Ok summaries)
    /\ ServiceH.GetActivitySummary Example.scenario Example.acrossMidnight "alice" 2
       = Returns (Ok summariesH)
    /\ ActivitySummary.Date <$> summaries
       = ["2024-01-01"; "2024-01-02"; "2024-01-03"; "2024-01-04"]
    /\ ActivitySummary.Date <$> summariesH
       = ["2024-01-01"; "2024-01-02"; "2024-01-03"; "2024-01-04"]
    /\ length summaries = Z.to_nat (2 + 2)
    /\ length summariesH = Z.to_nat (2 + 2).
Proof.
  eexists _, _. split; [vm_compute; reflexivity|]. split; [vm_compute; reflexivity|].
  repeat split; vm_compute; reflexivity.
Qed.

(** X7. [GetActivityJSON] asks for a window of 1 to 365 days, a capacity
    that [make] accepts: the handler never answers with the panic of
    [make], whatever the request, the database and the clock. *)
Theorem GetActivityJSON_window_is_allocated (db : Store.DB) (clock : Clock.t)
    (usernameParam : string) (daysQuery : option Z) (status : Z) :
  Handlers.GetActivityJSON (Service.GetActivitySummary db clock) usernameParam daysQuery
  <> Handlers.Error status Runtime.capOutOfRange
  /\ Handlers.GetActivityJSON (ServiceH.GetActivitySummary db clock) usernameParam daysQuery
     <> Handlers.Error status Runtime.capOutOfRange.
Proof.
  unfold Handlers.GetActivityJSON.
  set (username := Handlers.TrimSuffix usernameParam ".json").
  set (days := match daysQuery with Some _ => _ | None => _ end).
  assert (Hdays : 1 <= days <= 365).
  { subst days. destruct daysQuery as [parsed|]; [|lia].
    destruct (0 <? parsed) eqn:H0; cbn [andb]; [|lia].
    destruct (parsed <=? 365) eqn:H1; [|lia].
    apply Z.ltb_lt in H0. apply Z.leb_le in H1. lia. }
  clearbody days.
  assert (Hcap : Runtime.makeslice Runtime.sizeofActivitySummary (GoInt.add days 1) = true).
  { apply makeslice_window. lia. }
  destruct (bool_decide (username = "")); [done|].
  unfold Service.GetActivitySummary, ServiceH.GetActivitySummary,
    ServiceH.GetDockerAccountByUsername.
  rewrite Hcap.
  destruct (Service.GetDockerAccountByUsername db username) as [account|e].
  2:{ by destruct (bool_decide _). }
  destruct (Clock.Now clock) as [now clock1].
  destruct (Clock.Now clock1) as [endDate clock2].
  by destruct (fold_left Service.aggregate _ _).
Qed.

(** ** The event store *)

Lemma wrap64_inRange (z : Z) : GoInt.inRange z -> GoInt.wrap64 z = z.
Proof.
  unfold GoInt.inRange, GoInt.minInt, GoInt.maxInt, GoInt.wrap64. intros Hz.
  rewrite Z.mod_small by lia. lia.
Qed.

Lemma incr_inRange (z : Z) : GoInt.inRange z -> GoInt.inRange (z + 1) -> GoInt.incr z = z + 1.
Proof. intros _ Hz. unfold GoInt.incr, GoInt.add. by apply wrap64_inRange. Qed.

Lemma sameObservation_setCount (accountID date : Z) (repo tag : string) (n : Z)
    (e : ActivityEvent.t) :
  Service.sameObservation accountID date repo tag (ActivityEvent.setCount n e)
  = Service.sameObservation accountID date repo tag e.
Proof. done. Qed.

Section FirstMatch.

Context {A : Type} (key : A -> bool).

Lemma first_None (rows : list A) :
  Store.first key rows = None <-> List.filter key rows = [].
Proof.
  unfold Store.first. rewrite list_find_None. induction rows as [|x rows IH]; cbn.
  - split; [done|constructor].
  - destruct (key x) eqn:Hx.
    + split; [|done]. intros H. apply Forall_cons_1 in H as [H _]. done.
    + rewrite <- IH. split.
      * intros H. by apply Forall_cons_1 in H as [_ H].
      * intros H. constructor; [by rewrite Hx|done].
Qed.

(** The first match splits the table: no row before it matches. *)
Lemma first_Some (rows : list A) (i : nat) (x : A) :
  Store.first key rows = Some (i, x) ->
  rows = take i rows ++ x :: drop (S i) rows
  /\ key x = true
  /\ List.filter key (take i rows) = []
  /\ rows !! i = Some x.
Proof.
  unfold Store.first. intros H. apply list_find_Some in H as (Hi & Hx & Hbefore).
  split; [by rewrite take_drop_middle|]. split; [done|]. split; [|done].
  apply first_None. unfold Store.first. apply list_find_None.
  apply Forall_forall. intros y Hy.
  apply list_elem_of_lookup in Hy as [j Hj].
  pose proof (lookup_lt_Some _ _ _ Hj) as Hlt. rewrite length_take in Hlt.
  rewrite lookup_take_lt in Hj by lia. apply (Hbefore j y Hj). lia.
Qed.

Lemma first_app_new (rows : list A) (x : A) :
  List.filter key rows = [] -> key x = true ->
  Store.first key (rows ++ [x]) = Some (length rows, x).
Proof.
  intros Hnone Hx. unfold Store.first. apply list_find_Some.
  split; [by rewrite lookup_app_r, Nat.sub_diag by lia|]. split; [done|].
  intros j y Hj Hlt. rewrite lookup_app_l in Hj by done.
  apply first_None in Hnone. unfold Store.first in Hnone.
  rewrite list_find_None, Forall_forall in Hnone.
  apply Hnone. by eapply list_elem_of_lookup_2.
Qed.

Lemma first_insert (rows : list A) (i : nat) (x y : A) :
  Store.first key rows = Some (i, x) -> key y = true ->
  Store.first key (<[i := y]> rows) = Some (i, y).
Proof.
  intros H Hy. unfold Store.first in *.
  apply list_find_Some in H as (Hi & Hx & Hbefore). apply list_find_Some.
  pose proof (lookup_lt_Some _ _ _ Hi) as Hlt.
  split; [by rewrite list_lookup_insert_eq|]. split; [done|].
  intros j z Hj Hji. rewrite list_lookup_insert_ne in Hj by lia. by eapply Hbefore.
Qed.

Lemma filter_insert_first (rows : list A) (i : nat) (x y : A) :
  Store.first key rows = Some (i, x) -> key y = true ->
  List.filter key rows = x :: List.filter key (drop (S i) rows)
  /\ List.filter key (<[i := y]> rows) = y :: List.filter key (drop (S i) rows)
  /\ List.filter (fun r => negb (key r)) (<[i := y]> rows)
     = List.filter (fun r => negb (key r)) rows.
Proof.
  intros H Hy. apply first_Some in H as (Hsplit & Hx & Hbefore & Hi).
  pose proof (lookup_lt_Some _ _ _ Hi) as Hlt.
  assert (Hins : <[i := y]> rows = take i rows ++ y :: drop (S i) rows).
  { rewrite Hsplit at 1. rewrite insert_app_r_alt by (rewrite length_take; lia).
    rewrite length_take, Nat.min_l, Nat.sub_diag by lia. done. }
  split; [|split].
  - rewrite Hsplit at 1. rewrite List.filter_app, Hbefore. cbn. by rewrite Hx.
  - rewrite Hins, List.filter_app, Hbefore. cbn. by rewrite Hy.
  - rewrite Hins. rewrite Hsplit at 3. rewrite !List.filter_app. cbn.
    by rewrite Hx, Hy.
Qed.

End FirstMatch.

Lemma createActivity_found (db : Store.DB) (account : DockerAccount.t) (eventType : EventType)
    (eventDate : Time.Parsed) (repo tag : string) (i : nat) (existing : ActivityEvent.t) :
  Store.first (Service.sameObservation (DockerAccount.ID account)
                 (Time.midnightUTC (Time.civilDayOf eventDate)) repo tag)
              (Store.events db) = Some (i, existing) ->
  Service.createActivity db account eventType eventDate repo tag
  = (Store.setEvents
       (<[i := ActivityEvent.setCount (GoInt.incr (ActivityEvent.Count existing)) existing]>
          (Store.events db)) db, false).
Proof. intros H. unfold Service.createActivity. by rewrite H. Qed.

Lemma createActivity_fresh (db : Store.DB) (account : DockerAccount.t) (eventType : EventType)
    (eventDate : Time.Parsed) (repo tag : string) :
  Store.first (Service.sameObservation (DockerAccount.ID account)
                 (Time.midnightUTC (Time.civilDayOf eventDate)) repo tag)
              (Store.events db) = None ->
  Service.createActivity db account eventType eventDate repo tag
  = (Store.setEvents
       (Store.events db ++
          [{| ActivityEvent.DockerAccountID := DockerAccount.ID account;
              ActivityEvent.Kind := eventType;
              ActivityEvent.EventDate := Time.midnightUTC (Time.civilDayOf eventDate);
              ActivityEvent.Repository := repo;
              ActivityEvent.Tag := tag;
              ActivityEvent.Count := 1 |}]) db, true).
Proof. intros H. unfold Service.createActivity. by rewrite H. Qed.

Lemma sameObservation_new (accountID date : Z) (repo tag : string) (k : EventType) (n : Z) :
  Service.sameObservation accountID date repo tag
    {| ActivityEvent.DockerAccountID := accountID; ActivityEvent.Kind := k;
       ActivityEvent.EventDate := date; ActivityEvent.Repository := repo;
       ActivityEvent.Tag := tag; ActivityEvent.Count := n |} = true.
Proof.
  unfold Service.sameObservation. cbn. by rewrite !bool_decide_eq_true_2.
Qed.

(** C4. [createActivity] is an upsert on the key of its lookup, (account,
    day, resource, sub-resource).  When a row with the key exists its
    count is incremented and the call returns false; otherwise a row with
    count 1 is appended and the call returns true.  Two successive calls
    with identical (account, day, kind, resource, sub-resource) leave
    exactly one row with the key, whose count has grown by 2 (from 0 when
    there was none), and leave every other row as it was.  The table is
    assumed to hold at most one row with the key, as every table that the
    operations build does, and a count that can grow by 2 within a Go
    [int]. *)
Theorem createActivity_upsert (db : Store.DB) (account : DockerAccount.t)
    (eventType : EventType) (eventDate : Time.Parsed) (repo tag : string) :
  let key := Service.sameObservation (DockerAccount.ID account)
               (Time.midnightUTC (Time.civilDayOf eventDate)) repo tag in
  let once := Service.createActivity db account eventType eventDate repo tag in
  let twice := Service.createActivity once.1 account eventType eventDate repo tag in
  (length (List.filter key (Store.events db)) <= 1)%nat ->
  GoInt.minInt <= Spec.storedCount key (Store.events db) ->
  Spec.storedCount key (Store.events db) + 2 <= GoInt.maxInt ->
  (forall row, List.filter key (Store.events db) = [row] ->
     once.2 = false
     /\ List.filter key (Store.events once.1)
        = [ActivityEvent.setCount (ActivityEvent.Count row + 1) row]
     /\ length (Store.events once.1) = length (Store.events db))
  /\ (List.filter key (Store.events db) = [] ->
      once.2 = true
      /\ Store.events once.1
         = Store.events db ++
           [{| ActivityEvent.DockerAccountID := DockerAccount.ID account;
               ActivityEvent.Kind := eventType;
               ActivityEvent.EventDate := Time.midnightUTC (Time.civilDayOf eventDate);
               ActivityEvent.Repository := repo;
               ActivityEvent.Tag := tag;
               ActivityEvent.Count := 1 |}])
  /\ twice.2 = false
  /\ (exists row, List.filter key (Store.events twice.1) = [row]
                  /\ ActivityEvent.Count row
                     = Spec.storedCount key (Store.events db) + 2)
  /\ List.filter (fun r => negb (key r)) (Store.events twice.1)
     = List.filter (fun r => negb (key r)) (Store.events db)
  /\ (length (Store.events twice.1) <= S (length (Store.events db)))%nat.
Proof.
  intros key once twice Huniq Hlo Hhi.
  destruct (Store.first key (Store.events db)) as [[i x]|] eqn:Hfirst.
  - (* a row with the key exists *)
    set (x1 := ActivityEvent.setCount (GoInt.incr (ActivityEvent.Count x)) x).
    set (x2 := ActivityEvent.setCount (GoInt.incr (ActivityEvent.Count x1)) x1).
    assert (Hx1 : key x1 = true) by (apply first_Some in Hfirst; tauto).
    assert (Hx2 : key x2 = true) by done.
    destruct (filter_insert_first key _ i x x1 Hfirst Hx1) as (Hf0 & Hf1 & Hn1).
    assert (Hrest : List.filter key (drop (S i) (Store.events db)) = []).
    { rewrite Hf0 in Huniq. cbn in Huniq.
      destruct (List.filter key (drop (S i) (Store.events db))); [done|cbn in Huniq; lia]. }
    rewrite Hrest in *.
    assert (Hc : Spec.storedCount key (Store.events db) = ActivityEvent.Count x)
      by (unfold Spec.storedCount; by rewrite Hf0).
    rewrite Hc in *.
    assert (Hi1 : GoInt.incr (ActivityEvent.Count x) = ActivityEvent.Count x + 1)
      by (apply incr_inRange; unfold GoInt.inRange, GoInt.minInt, GoInt.maxInt in *; lia).
    assert (Hi2 : GoInt.incr (ActivityEvent.Count x1) = ActivityEvent.Count x + 2).
    { cbn. rewrite Hi1, incr_inRange;
        unfold GoInt.inRange, GoInt.minInt, GoInt.maxInt in *; lia. }
    assert (Honce : once = (Store.setEvents (<[i := x1]> (Store.events db)) db, false))
      by (by apply createActivity_found).
    pose proof (first_insert key _ i x x1 Hfirst Hx1) as Hfirst1.
    assert (Htwice : twice
              = (Store.setEvents (<[i := x2]> (<[i := x1]> (Store.events db))) once.1,
                 false)).
    { subst twice. rewrite Honce. cbn [fst]. by apply createActivity_found. }
    destruct (filter_insert_first key _ i x1 x2 Hfirst1 Hx2) as (_ & Hf2 & Hn2).
    rewrite Htwice, Honce. cbn [fst snd Store.events Store.setEvents].
    split; [|split; [|split; [|split; [|split]]]].
    + intros row Hrow. rewrite Hf0 in Hrow. injection Hrow as <-.
      split; [done|]. split; [|by rewrite length_insert].
      rewrite Hf1. unfold x1. by rewrite Hi1.
    + intros Hnone. by rewrite Hf0 in Hnone.
    + done.
    + exists x2. split.
      * rewrite Hf2. do 2 f_equal.
        rewrite drop_insert_lt by lia. done.
      * unfold x2. cbn [ActivityEvent.Count ActivityEvent.setCount]. exact Hi2.
    + by rewrite Hn2, Hn1.
    + rewrite !length_insert. lia.
  - (* no row with the key *)
    pose proof (proj1 (first_None key _) Hfirst) as Hnone.
    set (new :=
      {| ActivityEvent.DockerAccountID := DockerAccount.ID account;
         ActivityEvent.Kind := eventType;
         ActivityEvent.EventDate := Time.midnightUTC (Time.civilDayOf eventDate);
         ActivityEvent.Repository := repo;
         ActivityEvent.Tag := tag;
         ActivityEvent.Count := 1 |}).
    assert (Hnew : key new = true) by apply sameObservation_new.
    assert (Honce : once = (Store.setEvents (Store.events db ++ [new]) db, true))
      by (by apply createActivity_fresh).
    pose proof (first_app_new key _ new Hnone Hnew) as Hfirst1.
    set (new2 := ActivityEvent.setCount (GoInt.incr (ActivityEvent.Count new)) new).
    assert (Htwice : twice
              = (Store.setEvents
                   (<[length (Store.events db) := new2]> (Store.events db ++ [new])) once.1,
                 false)).
    { subst twice. rewrite Honce. cbn [fst]. by apply createActivity_found. }
    assert (Hins : <[length (Store.events db) := new2]> (Store.events db ++ [new])
                   = Store.events db ++ [new2]).
    { rewrite insert_app_r_alt, Nat.sub_diag by lia. done. }
    assert (Hc : Spec.storedCount key (Store.events db) = 0)
      by (unfold Spec.storedCount; by rewrite Hnone).
    rewrite Htwice, Honce, Hins. cbn [fst snd Store.events Store.setEvents].
    split; [|split; [|split; [|split; [|split]]]].
    + intros row Hrow. by rewrite Hnone in Hrow.
    + done.
    + done.
    + exists new2. split.
      * rewrite List.filter_app, Hnone. cbn [List.filter app].
        by replace (key new2) with true.
      * by rewrite Hc.
    + rewrite List.filter_app. cbn [List.filter].
      replace (key new2) with true by done. cbn [negb]. by rewrite app_nil_r.
    + rewrite length_app. cbn. lia.
Qed.

Lemma createActivity_upsert_witness :
  ((length (List.filter
              (Service.sameObservation 1 (Time.midnightUTC (Example.jan1 + 2)) "app" "v1")
              (Store.events Example.connected)) <= 1)%nat
   /\ GoInt.minInt
      <= Spec.storedCount
           (Service.sameObservation 1 (Time.midnightUTC (Example.jan1 + 2)) "app" "v1")
           (Store.events Example.connected)
   /\ Spec.storedCount
        (Service.sameObservation 1 (Time.midnightUTC (Example.jan1 + 2)) "app" "v1")
        (Store.events Example.connected) + 2 <= GoInt.maxInt)
  /\ exists row,
       List.filter
         (Service.sameObservation 1 (Time.midnightUTC (Example.jan1 + 2)) "app" "v1")
         (Store.events
            (Service.createActivity
               (Service.createActivity Example.connected Example.alice EventTypePush
                  {| Time.instant := Example.noon; Time.zoneOffset := 0 |} "app" "v1").1
               Example.alice EventTypePush
               {| Time.instant := Example.noon; Time.zoneOffset := 0 |} "app" "v1").1)
       = [row]
       /\ ActivityEvent.Count row = 2.
Proof.
  assert (H1 : (length (List.filter
                  (Service.sameObservation 1 (Time.midnightUTC (Example.jan1 + 2)) "app" "v1")
                  (Store.events Example.connected)) <= 1)%nat) by (cbn; lia).
  assert (H2 : GoInt.minInt
               <= Spec.storedCount
                    (Service.sameObservation 1 (Time.midnightUTC (Example.jan1 + 2)) "app" "v1")
                    (Store.events Example.connected)) by (vm_compute; discriminate).
  assert (H3 : Spec.storedCount
                 (Service.sameObservation 1 (Time.midnightUTC (Example.jan1 + 2)) "app" "v1")
                 (Store.events Example.connected) + 2 <= GoInt.maxInt)
    by (vm_compute; discriminate).
  split; [done|].
  pose proof (createActivity_upsert Example.connected Example.alice EventTypePush
                {| Time.instant := Example.noon; Time.zoneOffset := 0 |} "app" "v1"
                H1 H2 H3) as (_ & _ & _ & Hrow & _).
  exact Hrow.
Defined.

(** ** The scenario of the specification *)

(** C3, as the code computes it.  For the events {2024-01-01: 5,
    2024-01-02: 0, 2024-01-03: 10} over exactly those three days the
    window maximum is 10 and [totals.activities] is 15; the levels are 2
    for day 1 (ratio 0.5 is not above 0.5), 0 for day 2 and 4 for day 3
    (ratio 1.0).  The same holds when the empty day is held as a row of
    count 0, for the copy of [handlers/heatmap.go], and when the clock
    advances by a second between its readings instead of standing at
    noon of 2024-01-03. *)
Theorem scenario_three_days :
  (fold_left Service.aggregate
     (Service.queryEvents Example.scenario 1 (Service.startOfWindow Example.noon 2))
     (∅, 0)).2 = 10
  /\ ServiceH.maxOf
       (fold_left ServiceH.aggregate
          (ServiceH.queryEvents Example.scenario 1
             (ServiceH.startOfWindow Example.noon 2) Example.noon) ∅) = 10
  /\ Handlers.GetActivityJSON
       (Service.GetActivitySummary Example.scenario (Clock.fixed Example.noon))
       "alice" (Some 2)
     = Handlers.Activity "alice" 2
         {| Handlers.activities := 15; Handlers.pushes := 0;
            Handlers.pulls := 0; Handlers.builds := 0 |}
         [ ActivitySummary.setLevel 2
             (ActivitySummary.setTotalCount 5 (ActivitySummary.new "2024-01-01"));
           ActivitySummary.new "2024-01-02";
           ActivitySummary.setLevel 4
             (ActivitySummary.setTotalCount 10 (ActivitySummary.new "2024-01-03")) ]
  /\ Handlers.levelsOf
       (Service.GetActivitySummary Example.scenarioWithZeroRow (Clock.fixed Example.noon)
          "alice" 2)
     = [2; 0; 4]
  /\ Handlers.levelsOf
       (ServiceH.GetActivitySummary Example.scenario (Clock.fixed Example.noon) "alice" 2)
     = [2; 0; 4]
  /\ Handlers.levelsOf
       (ServiceH.GetActivitySummary Example.scenarioWithZeroRow (Clock.fixed Example.noon)
          "alice" 2)
     = [2; 0; 4]
  /\ Handlers.levelsOf
       (Service.GetActivitySummary Example.scenario Example.aroundNoon "alice" 2)
     = [2; 0; 4]
  /\ Handlers.levelsOf
       (ServiceH.GetActivitySummary Example.scenario Example.aroundNoon "alice" 2)
     = [2; 0; 4].
Proof. repeat split; vm_compute; reflexivity. Qed.

(** The level emitted for 2024-01-01 in the scenario is 2, not 3. *)
Lemma scenario_day1_level_is_2 :
  Handlers.levelsOf
    (Service.GetActivitySummary Example.scenario (Clock.fixed Example.noon) "alice" 2)
    !! 0%nat = Some 2
  /\ Handlers.levelsOf
       (Service.GetActivitySummary Example.scenario (Clock.fixed Example.noon) "alice" 2)
     <> [3; 0; 4].
Proof. split; vm_compute; [reflexivity|discriminate]. Qed.

(** ** The key of the event table *)

(** C5, as the code has it.  The key of an event row is (account, day,
    resource, sub-resource); the kind is not part of it.  Of two upserts
    that agree on the four fields, whatever their kinds, the second does
    not create a row: it finds the first row of the key, stores that row
    with its count incremented and every other column as it was, and
    changes nothing else, so the kinds stored in the table stay as they
    were.  When the first upsert created the row, the row ends with the
    kind of the first upsert and count 2.  Rows that differ from the
    upserts in one of the four fields are not touched. *)
Theorem createActivity_key_ignores_kind (db : Store.DB) (account : DockerAccount.t)
    (kind1 kind2 : EventType) (eventDate : Time.Parsed) (repo tag : string) :
  let key := Service.sameObservation (DockerAccount.ID account)
               (Time.midnightUTC (Time.civilDayOf eventDate)) repo tag in
  let once := Service.createActivity db account kind1 eventDate repo tag in
  let twice := Service.createActivity once.1 account kind2 eventDate repo tag in
  twice.2 = false
  /\ length (Store.events twice.1) = length (Store.events once.1)
  /\ (exists i existing,
        Store.first key (Store.events once.1) = Some (i, existing)
        /\ Store.events twice.1
           = <[i := ActivityEvent.setCount (GoInt.incr (ActivityEvent.Count existing))
                      existing]> (Store.events once.1)
        /\ Store.accounts twice.1 = Store.accounts once.1)
  /\ ActivityEvent.Kind <$> Store.events twice.1 = ActivityEvent.Kind <$> Store.events once.1
  /\ (List.filter key (Store.events db) = [] ->
      exists row, List.filter key (Store.events twice.1) = [row]
                  /\ ActivityEvent.Kind row = kind1
                  /\ ActivityEvent.Count row = 2)
  /\ List.filter (fun r => negb (key r)) (Store.events twice.1)
     = List.filter (fun r => negb (key r)) (Store.events db).
Proof.
  intros key once twice.
  assert (Hex : exists i x, Store.first key (Store.events once.1) = Some (i, x)
                /\ List.filter (fun r => negb (key r)) (Store.events once.1)
                   = List.filter (fun r => negb (key r)) (Store.events db)
                /\ (List.filter key (Store.events db) = [] ->
                    List.filter key (Store.events once.1) = [x]
                    /\ ActivityEvent.Kind x = kind1
                    /\ ActivityEvent.Count x = 1)).
  { destruct (Store.first key (Store.events db)) as [[i x]|] eqn:Hfirst.
    - set (x1 := ActivityEvent.setCount (GoInt.incr (ActivityEvent.Count x)) x).
      assert (Hx1 : key x1 = true) by (apply first_Some in Hfirst; tauto).
      exists i, x1. subst once. rewrite (createActivity_found _ _ _ _ _ _ _ _ Hfirst).
      cbn [fst Store.events Store.setEvents].
      destruct (filter_insert_first key _ i x x1 Hfirst Hx1) as (Hf0 & _ & Hn).
      split; [by eapply first_insert|]. split; [done|].
      intros Hnone. by rewrite Hf0 in Hnone.
    - pose proof (proj1 (first_None key _) Hfirst) as Hnone.
      set (new :=
        {| ActivityEvent.DockerAccountID := DockerAccount.ID account;
           ActivityEvent.Kind := kind1;
           ActivityEvent.EventDate := Time.midnightUTC (Time.civilDayOf eventDate);
           ActivityEvent.Repository := repo;
           ActivityEvent.Tag := tag;
           ActivityEvent.Count := 1 |}).
      assert (Hnew : key new = true) by apply sameObservation_new.
      exists (length (Store.events db)), new.
      subst once. rewrite (createActivity_fresh _ _ _ _ _ _ Hfirst).
      cbn [fst Store.events Store.setEvents]. fold new.
      split; [by apply first_app_new|].
      split.
      + rewrite List.filter_app. cbn [List.filter].
        rewrite Hnew. cbn [negb]. by rewrite app_nil_r.
      + intros _. rewrite List.filter_app, Hnone. cbn [List.filter app].
        by rewrite Hnew. }
  destruct Hex as (i & x & Hfirst1 & Hn1 & Hnew).
  set (x2 := ActivityEvent.setCount (GoInt.incr (ActivityEvent.Count x)) x).
  assert (Hx2 : key x2 = true) by (apply first_Some in Hfirst1; tauto).
  subst twice. rewrite (createActivity_found _ _ _ _ _ _ _ _ Hfirst1).
  cbn [fst snd Store.events Store.accounts Store.setEvents]. fold x2.
  destruct (filter_insert_first key _ i x x2 Hfirst1 Hx2) as (Hf1 & Hf2 & Hn2).
  split; [done|]. split; [by rewrite length_insert|].
  split; [by exists i, x|]. split; [|split].
  - apply first_Some in Hfirst1 as (_ & _ & _ & Hi).
    rewrite list_fmap_insert. apply list_insert_id.
    by rewrite list_lookup_fmap, Hi.
  - intros Hnone. destruct (Hnew Hnone) as (Hone & Hkind & Hcount).
    exists x2. split; [|split; [done|]].
    + rewrite Hf2. rewrite Hf1 in Hone. by injection Hone as ->.
    + subst x2. cbn [ActivityEvent.setCount ActivityEvent.Count]. by rewrite Hcount.
  - by rewrite Hn2.
Qed.

(** A push and a pull of the same tag on the same day share one row,
    which keeps the kind of the first; no row of kind pull exists. *)
Lemma push_then_pull_share_one_row :
  Store.events Example.pushThenPull
  = [ {| ActivityEvent.DockerAccountID := 1;
         ActivityEvent.Kind := EventTypePush;
         ActivityEvent.EventDate := Time.midnightUTC (Example.jan1 + 2);
         ActivityEvent.Repository := "app";
         ActivityEvent.Tag := "v1";
         ActivityEvent.Count := 2 |} ]
  /\ length (Store.events Example.pushThenPull) <> 2%nat
  /\ Forall (fun row => ActivityEvent.Kind row <> EventTypePull)
            (Store.events Example.pushThenPull).
Proof.
  split; [vm_compute; reflexivity|]. split; [vm_compute; discriminate|].
  vm_compute. repeat constructor. discriminate.
Qed.

(** ** Accounts: lookup and save *)

Lemma firstAccountByID_saveAccount (account : DockerAccount.t) (db : Store.DB) :
  Store.firstAccountByID (Store.saveAccount account db) (DockerAccount.ID account)
  = Some account.
Proof.
  unfold Store.firstAccountByID, Store.saveAccount.
  set (key := fun a => bool_decide (DockerAccount.ID a = DockerAccount.ID account)).
  assert (Hkey : key account = true) by (by apply bool_decide_eq_true_2).
  destruct (Store.first key (Store.accounts db)) as [[i x]|] eqn:Hfirst.
  - cbn [Store.accounts Store.setAccounts].
    by rewrite (first_insert key _ i x account Hfirst Hkey).
  - cbn [Store.accounts Store.setAccounts].
    apply first_None in Hfirst. by rewrite (first_app_new key _ account Hfirst Hkey).
Qed.

Lemma saveAccount_events (account : DockerAccount.t) (db : Store.DB) :
  Store.events (Store.saveAccount account db) = Store.events db.
Proof. unfold Store.saveAccount. by destruct (Store.first _ _) as [[i x]|]. Qed.

Lemma GetDockerAccount_loaded (db : Store.DB) (userID : Z) (account : DockerAccount.t) :
  Service.GetDockerAccount db userID = Ok account ->
  exists loaded, Store.firstAccountByID db (DockerAccount.ID account) = Some loaded
                 /\ DockerAccount.ID loaded = DockerAccount.ID account.
Proof.
  unfold Service.GetDockerAccount, Store.firstAccountByID.
  destruct (Store.first _ (Store.accounts db)) as [[i x]|] eqn:Hfirst; [|done].
  intros [= ->]. apply first_Some in Hfirst as (_ & _ & _ & Hi).
  destruct (Store.first (fun a => bool_decide (DockerAccount.ID a = DockerAccount.ID account))
              (Store.accounts db)) as [[j y]|] eqn:Hid.
  - exists y. split; [done|]. apply first_Some in Hid as (_ & Hy & _).
    by apply bool_decide_eq_true in Hy.
  - exfalso. unfold Store.first in Hid. rewrite list_find_None, Forall_forall in Hid.
    apply (Hid account); [by eapply list_elem_of_lookup_2|].
    by apply bool_decide_eq_true_2.
Qed.

(** ** The single-flight guard of the handler *)

(** C6. A request to synchronise an account whose sync-in-progress flag
    is set is answered with 409 Conflict; it starts no synchronisation and
    leaves the database, and so every activity event, as it was.  The
    flag is the last thing the handler reads: when it is clear the handler
    starts [SyncActivity] for the account, whose first step on the same
    database loads the account and saves it with the flag set. *)
Theorem sync_request_conflict_while_running (w : World) (now : Z) (db : Store.DB)
    (userID : Z) (account : DockerAccount.t) :
  Service.GetDockerAccount db userID = Ok account ->
  (DockerAccount.SyncInProgress account = true ->
     Handlers.SyncDockerActivity db (Some userID)
     = (db, Handlers.Error Handlers.StatusConflict "Sync already in progress", None)
     /\ Handlers.SyncDockerActivityAndRun w now db (Some userID)
        = (db, Handlers.Error Handlers.StatusConflict "Sync already in progress"))
  /\ (DockerAccount.SyncInProgress account = false ->
      Handlers.SyncDockerActivity db (Some userID)
      = (db, Handlers.Message Handlers.StatusOK "Sync started",
         Some (DockerAccount.ID account))
      /\ exists loaded,
           DockerAccount.ID loaded = DockerAccount.ID account
           /\ Service.syncBegin db (DockerAccount.ID account)
              = Ok (Store.saveAccount (DockerAccount.setSyncInProgress true loaded) db,
                    DockerAccount.setSyncInProgress true loaded)
           /\ Store.firstAccountByID
                (Store.saveAccount (DockerAccount.setSyncInProgress true loaded) db)
                (DockerAccount.ID account)
              = Some (DockerAccount.setSyncInProgress true loaded)).
Proof.
  intros Hacc. split; intros Hflag.
  - unfold Handlers.SyncDockerActivityAndRun, Handlers.SyncDockerActivity.
    by rewrite Hacc, Hflag.
  - unfold Handlers.SyncDockerActivity. rewrite Hacc, Hflag. split; [done|].
    destruct (GetDockerAccount_loaded _ _ _ Hacc) as (loaded & Hload & Hid).
    exists loaded. split; [done|]. unfold Service.syncBegin. rewrite Hload.
    split; [done|]. rewrite <- Hid.
    apply (firstAccountByID_saveAccount (DockerAccount.setSyncInProgress true loaded)).
Qed.

Lemma sync_request_conflict_while_running_witness :
  Service.GetDockerAccount Example.running 7
  = Ok (DockerAccount.setSyncInProgress true Example.alice)
  /\ Handlers.SyncDockerActivityAndRun Example.healthy Example.noon Example.running (Some 7)
     = (Example.running,
        Handlers.Error Handlers.StatusConflict "Sync already in progress").
Proof.
  split; [reflexivity|].
  apply (sync_request_conflict_while_running Example.healthy Example.noon Example.running 7
           (DockerAccount.setSyncInProgress true Example.alice)); reflexivity.
Defined.

(** ** Exits of a synchronisation run *)

Lemma firstAccountByID_ID (db : Store.DB) (accountID : Z) (account : DockerAccount.t) :
  Store.firstAccountByID db accountID = Some account -> DockerAccount.ID account = accountID.
Proof.
  unfold Store.firstAccountByID.
  destruct (Store.first _ _) as [[i x]|] eqn:Hfirst; [|done].
  intros [= <-]. apply first_Some in Hfirst as (_ & Hx & _).
  by apply bool_decide_eq_true in Hx.
Qed.

Lemma syncBody_ID (w : World) (db : Store.DB) (account : DockerAccount.t) :
  DockerAccount.ID (Service.syncBody w db account).1.2 = DockerAccount.ID account.
Proof.
  unfold Service.syncBody.
  destruct (utilsDecrypt w _ _); [|done].
  destruct (Service.login w _ _); [|done].
  destruct (Service.FetchRepositories w _ _); [|done].
  by destruct (fold_left _ _ _).
Qed.

Lemma syncBodyH_ID (w : World) (db : Store.DB) (account : DockerAccount.t) :
  DockerAccount.ID (ServiceH.syncBody w db account).1.2 = DockerAccount.ID account.
Proof.
  unfold ServiceH.syncBody.
  destruct (ServiceH.FetchRepositories w _ _); [|done].
  destruct (Nat.eqb _ _); [done|]. by destruct (fold_left _ _ _).
Qed.

(** X2. On every exit of [SyncActivity] for an account that exists, in
    both copies of the service, the stored account has the flag cleared
    and the time of the exit as its last-sync time. *)
Theorem sync_exit_clears_flag (w : World) (now : Z) (db : Store.DB) (accountID : Z)
    (account : DockerAccount.t) :
  Store.firstAccountByID db accountID = Some account ->
  (exists stored,
     Store.firstAccountByID (Service.SyncActivity w now db accountID).1 accountID
     = Some stored
     /\ DockerAccount.SyncInProgress stored = false
     /\ DockerAccount.LastSyncAt stored = Some now)
  /\ (exists stored,
        Store.firstAccountByID (ServiceH.SyncActivity w now db accountID).1 accountID
        = Some stored
        /\ DockerAccount.SyncInProgress stored = false
        /\ DockerAccount.LastSyncAt stored = Some now).
Proof.
  intros Hload. pose proof (firstAccountByID_ID _ _ _ Hload) as Hid.
  split.
  - unfold Service.SyncActivity, Service.syncBegin. rewrite Hload.
    pose proof (syncBody_ID w (Store.saveAccount (DockerAccount.setSyncInProgress true account) db)
                  (DockerAccount.setSyncInProgress true account)) as Hbody.
    destruct (Service.syncBody w _ _) as [[db2 acc2] err]. cbn [fst snd] in *.
    exists (DockerAccount.setLastSyncAt (Some now)
              (DockerAccount.setSyncInProgress false acc2)).
    unfold Service.syncDeferred. split; [|done].
    rewrite <- Hid.
    change (DockerAccount.ID account)
      with (DockerAccount.ID (DockerAccount.setSyncInProgress true account)).
    rewrite <- Hbody.
    apply (firstAccountByID_saveAccount
             (DockerAccount.setLastSyncAt (Some now)
                (DockerAccount.setSyncInProgress false acc2))).
  - unfold ServiceH.SyncActivity, ServiceH.syncBegin. rewrite Hload.
    pose proof (syncBodyH_ID w (Store.saveAccount (DockerAccount.setSyncInProgress true account) db)
                  (DockerAccount.setSyncInProgress true account)) as Hbody.
    destruct (ServiceH.syncBody w _ _) as [[db2 acc2] err]. cbn [fst snd] in *.
    exists (DockerAccount.setLastSyncAt (Some now)
              (DockerAccount.setSyncInProgress false acc2)).
    unfold ServiceH.syncDeferred. split; [|done].
    rewrite <- Hid.
    change (DockerAccount.ID account)
      with (DockerAccount.ID (DockerAccount.setSyncInProgress true account)).
    rewrite <- Hbody.
    apply (firstAccountByID_saveAccount
             (DockerAccount.setLastSyncAt (Some now)
                (DockerAccount.setSyncInProgress false acc2))).
Qed.

Lemma sync_exit_clears_flag_witness :
  Store.firstAccountByID Example.connected 1 = Some Example.alice
  /\ (exists stored,
        Store.firstAccountByID
          (Service.SyncActivity Example.brokenVault Example.noon Example.connected 1).1 1
        = Some stored
        /\ DockerAccount.SyncInProgress stored = false
        /\ DockerAccount.LastSyncAt stored = Some Example.noon).
Proof.
  split; [reflexivity|].
  exact (proj1 (sync_exit_clears_flag Example.brokenVault Example.noon Example.connected 1
                  Example.alice eq_refl)).
Defined.

(** X3. In the copy of [handlers/heatmap.go] the stored last-sync-error
    is the message of the failure, and empty after a run without error. *)
Theorem syncH_exit_records_error (w : World) (now : Z) (db : Store.DB) (accountID : Z)
    (account : DockerAccount.t) :
  Store.firstAccountByID db accountID = Some account ->
  exists stored,
    Store.firstAccountByID (ServiceH.SyncActivity w now db accountID).1 accountID
    = Some stored
    /\ DockerAccount.LastSyncError stored
       = match (ServiceH.SyncActivity w now db accountID).2 with
         | Ok _ => ""
         | Err e => e
         end.
Proof.
  intros Hload. pose proof (firstAccountByID_ID _ _ _ Hload) as Hid.
  unfold ServiceH.SyncActivity, ServiceH.syncBegin. rewrite Hload.
  set (db1 := Store.saveAccount _ db). set (acc1 := DockerAccount.setSyncInProgress true account).
  pose proof (syncBodyH_ID w db1 acc1) as Hbody.
  assert (Herr : DockerAccount.LastSyncError (ServiceH.syncBody w db1 acc1).1.2
                 = match (ServiceH.syncBody w db1 acc1).2 with Ok _ => "" | Err e => e end).
  { unfold ServiceH.syncBody.
    destruct (ServiceH.FetchRepositories w _ _); [|done].
    destruct (Nat.eqb _ _); [done|]. by destruct (fold_left _ _ _). }
  destruct (ServiceH.syncBody w db1 acc1) as [[db2 acc2] err]. cbn [fst snd] in *.
  exists (DockerAccount.setLastSyncAt (Some now)
            (DockerAccount.setSyncInProgress false acc2)).
  unfold ServiceH.syncDeferred. split; [|exact Herr].
  rewrite <- Hid. change (DockerAccount.ID account) with (DockerAccount.ID acc1).
  rewrite <- Hbody.
  apply (firstAccountByID_saveAccount
           (DockerAccount.setLastSyncAt (Some now)
              (DockerAccount.setSyncInProgress false acc2))).
Qed.

Lemma syncH_exit_records_error_witness :
  Store.firstAccountByID Example.connected 1 = Some Example.alice
  /\ exists stored,
       Store.firstAccountByID
         (ServiceH.SyncActivity Example.healthy Example.noon Example.connected 1).1 1
       = Some stored
       /\ DockerAccount.LastSyncError stored
          = match (ServiceH.SyncActivity Example.healthy Example.noon Example.connected 1).2
            with
            | Ok _ => ""
            | Err e => e
            end.
Proof.
  split; [reflexivity|].
  exact (syncH_exit_records_error Example.healthy Example.noon Example.connected 1
           Example.alice eq_refl).
Defined.

(** C7, where [docker_service.go] departs from it.  A run for [alice]
    whose stored credential cannot be decrypted returns the error; the
    deferred function clears the flag and sets the last-sync time, but the
    stored last-sync-error is still the empty string that stands for a
    healthy account. *)
Theorem decrypt_failure_is_not_recorded :
  Service.SyncActivity Example.brokenVault Example.noon Example.connected 1
  = (Store.setAccounts [DockerAccount.setLastSyncAt (Some Example.noon) Example.alice]
       Example.connected,
     Err "cipher: message authentication failed")
  /\ (DockerAccount.LastSyncError
        <$> Store.firstAccountByID
              (Service.SyncActivity Example.brokenVault Example.noon Example.connected 1).1 1)
     = Some "".
Proof. split; vm_compute; reflexivity. Qed.

(** X4. In [docker_service.go], once the credential is decrypted, the
    stored last-sync-error is empty after a run without error and one of
    the two failure messages otherwise. *)
Theorem sync_exit_records_error_after_decrypt (w : World) (now : Z) (db : Store.DB)
    (accountID : Z) (account : DockerAccount.t) (pat : string) :
  Store.firstAccountByID db accountID = Some account ->
  utilsDecrypt w (DockerAccount.EncryptedToken account) (DockerAccount.TokenIV account)
  = Ok pat ->
  exists stored,
    Store.firstAccountByID (Service.SyncActivity w now db accountID).1 accountID
    = Some stored
    /\ match (Service.SyncActivity w now db accountID).2 with
       | Ok _ => DockerAccount.LastSyncError stored = ""
       | Err _ => DockerAccount.LastSyncError stored = "Authentication failed"
                  \/ DockerAccount.LastSyncError stored = "Failed to fetch repositories"
       end.
Proof.
  intros Hload Hpat. pose proof (firstAccountByID_ID _ _ _ Hload) as Hid.
  unfold Service.SyncActivity, Service.syncBegin. rewrite Hload.
  set (db1 := Store.saveAccount _ db). set (acc1 := DockerAccount.setSyncInProgress true account).
  pose proof (syncBody_ID w db1 acc1) as Hbody.
  assert (Herr : match (Service.syncBody w db1 acc1).2 with
                 | Ok _ => DockerAccount.LastSyncError (Service.syncBody w db1 acc1).1.2 = ""
                 | Err _ =>
                     DockerAccount.LastSyncError (Service.syncBody w db1 acc1).1.2
                     = "Authentication failed"
                     \/ DockerAccount.LastSyncError (Service.syncBody w db1 acc1).1.2
                        = "Failed to fetch repositories"
                 end).
  { unfold Service.syncBody. cbn [acc1 DockerAccount.EncryptedToken DockerAccount.TokenIV
                                  DockerAccount.setSyncInProgress]. rewrite Hpat.
    destruct (Service.login w _ _); [|by left].
    destruct (Service.FetchRepositories w _ _); [|by right].
    by destruct (fold_left _ _ _). }
  destruct (Service.syncBody w db1 acc1) as [[db2 acc2] err]. cbn [fst snd] in *.
  exists (DockerAccount.setLastSyncAt (Some now)
            (DockerAccount.setSyncInProgress false acc2)).
  unfold Service.syncDeferred. split; [|exact Herr].
  rewrite <- Hid. change (DockerAccount.ID account) with (DockerAccount.ID acc1).
  rewrite <- Hbody.
  apply (firstAccountByID_saveAccount
           (DockerAccount.setLastSyncAt (Some now)
              (DockerAccount.setSyncInProgress false acc2))).
Qed.

Lemma sync_exit_records_error_after_decrypt_witness :
  (Store.firstAccountByID Example.connected 1 = Some Example.alice
   /\ utilsDecrypt Example.healthy (DockerAccount.EncryptedToken Example.alice)
        (DockerAccount.TokenIV Example.alice) = Ok "dckr_pat_k3")
  /\ exists stored,
       Store.firstAccountByID
         (Service.SyncActivity Example.healthy Example.noon Example.connected 1).1 1
       = Some stored
       /\ match (Service.SyncActivity Example.healthy Example.noon Example.connected 1).2
          with
          | Ok _ => DockerAccount.LastSyncError stored = ""
          | Err _ =>
              DockerAccount.LastSyncError stored = "Authentication failed"
              \/ DockerAccount.LastSyncError stored = "Failed to fetch repositories"
          end.
Proof.
  split; [split; reflexivity|].
  exact (sync_exit_records_error_after_decrypt Example.healthy Example.noon
           Example.connected 1 Example.alice "dckr_pat_k3" eq_refl eq_refl).
Defined.

(** ** Failure of the credential vault *)




(** ** Only push events are recorded *)

Section OnlyPush.

Lemma createActivity_push (db : Store.DB) (account : DockerAccount.t)
    (eventDate : Time.Parsed) (repo tag : string) :
  Spec.onlyPushes (Store.events db) ->
  Spec.onlyPushes (Store.events
             (Service.createActivity db account EventTypePush eventDate repo tag).1).
Proof.
  intros Hall. unfold Service.createActivity.
  destruct (Store.first _ _) as [[i x]|] eqn:Hfirst; cbn [fst Store.events Store.setEvents].
  - apply first_Some in Hfirst as (_ & _ & _ & Hi).
    apply Forall_insert; [done|]. cbn.
    eapply (Forall_lookup_1 _ _ _ _ Hall Hi).
  - apply Forall_app. split; [done|]. by constructor.
Qed.

Lemma filter_push (cond : ActivityEvent.t -> bool) (events : list ActivityEvent.t) :
  Spec.onlyPushes events -> Spec.onlyPushes (List.filter cond events).
Proof.
  unfold Spec.onlyPushes. rewrite !Forall_forall. intros Hall e He.
  apply Hall. apply list_elem_of_In in He. apply filter_In in He as [He _].
  by apply list_elem_of_In.
Qed.

Lemma syncTag_push (w : World) (account : DockerAccount.t) (repoName : string)
    (st : Store.DB * Z) (tag : DockerHubTag.t) :
  Spec.onlyPushes (Store.events st.1) ->
  Spec.onlyPushes (Store.events (Service.syncTag w account repoName st tag).1).
Proof.
  intros Hall. unfold Service.syncTag.
  destruct (bool_decide _); [done|].
  destruct (Service.parseDockerHubTime w _) as [t|]; [|done].
  pose proof (createActivity_push st.1 account t repoName (DockerHubTag.Name tag) Hall).
  by destruct (Service.createActivity _ _ _ _ _ _).
Qed.

Lemma syncRepo_push (w : World) (account : DockerAccount.t) (token : string)
    (st : Store.DB * Z) (repo : DockerHubRepository.t) :
  Spec.onlyPushes (Store.events st.1) ->
  Spec.onlyPushes (Store.events (Service.syncRepo w account token st repo).1).
Proof.
  intros Hall. unfold Service.syncRepo.
  generalize (match Service.FetchTags w (DockerAccount.DockerUsername account)
                      (DockerHubRepository.Name repo) token with
              | Ok tags => tags
              | Err _ => []
              end).
  intros tags.
  set (st1 := if bool_decide _ then st else _).
  assert (Hst1 : Spec.onlyPushes (Store.events st1.1)).
  { subst st1. destruct (bool_decide _); [done|].
    destruct (Service.parseDockerHubTime w _) as [t|]; [|done].
    pose proof (createActivity_push st.1 account t (DockerHubRepository.Name repo) "" Hall).
    by destruct (Service.createActivity _ _ _ _ _ _). }
  clearbody st1. revert st1 Hst1.
  induction tags as [|tag tags IH]; intros st1 Hst1; [done|].
  cbn [fold_left]. apply IH. by apply syncTag_push.
Qed.

Lemma syncBody_push (w : World) (db : Store.DB) (account : DockerAccount.t) :
  Spec.onlyPushes (Store.events db) ->
  Spec.onlyPushes (Store.events (Service.syncBody w db account).1.1).
Proof.
  intros Hall. unfold Service.syncBody.
  destruct (utilsDecrypt w _ _); [|done].
  destruct (Service.login w _ _) as [token|]; [|done].
  destruct (Service.FetchRepositories w _ _) as [repos|]; [|done].
  assert (Hfold : forall st, Spec.onlyPushes (Store.events st.1) ->
            Spec.onlyPushes (Store.events (fold_left (Service.syncRepo w account token) repos st).1)).
  { induction repos as [|repo repos IH]; intros st Hst; [done|].
    cbn [fold_left]. apply IH. by apply syncRepo_push. }
  specialize (Hfold (db, 0) Hall). by destruct (fold_left _ _ _).
Qed.

Lemma syncTagH_push (w : World) (account : DockerAccount.t) (repoName : string)
    (st : Store.DB * Z) (tag : DockerHubTag.t) :
  Spec.onlyPushes (Store.events st.1) ->
  Spec.onlyPushes (Store.events (ServiceH.syncTag w account repoName st tag).1).
Proof.
  intros Hall. unfold ServiceH.syncTag.
  destruct (bool_decide _); [done|].
  destruct (ServiceH.parseDockerTime w _) as [t|]; [|done].
  pose proof (createActivity_push st.1 account t repoName (DockerHubTag.Name tag) Hall).
  unfold ServiceH.createActivity. by destruct (Service.createActivity _ _ _ _ _ _).
Qed.

Lemma syncRepoH_push (w : World) (account : DockerAccount.t) (token : string)
    (st : Store.DB * Z) (repo : DockerHubRepository.t) :
  Spec.onlyPushes (Store.events st.1) ->
  Spec.onlyPushes (Store.events (ServiceH.syncRepo w account token st repo).1).
Proof.
  intros Hall. unfold ServiceH.syncRepo.
  set (st1 := if bool_decide _ then st else _).
  assert (Hst1 : Spec.onlyPushes (Store.events st1.1)).
  { subst st1. destruct (bool_decide _); [done|].
    destruct (ServiceH.parseDockerTime w _) as [t|]; [|done].
    pose proof (createActivity_push st.1 account t (DockerHubRepository.Name repo) "" Hall).
    unfold ServiceH.createActivity. by destruct (Service.createActivity _ _ _ _ _ _). }
  clearbody st1.
  destruct (ServiceH.FetchTags w _ _ _) as [tags|]; [|done].
  revert st1 Hst1.
  induction tags as [|tag tags IH]; intros st1 Hst1; [done|].
  cbn [fold_left]. apply IH. by apply syncTagH_push.
Qed.

Lemma syncBodyH_push (w : World) (db : Store.DB) (account : DockerAccount.t) :
  Spec.onlyPushes (Store.events db) ->
  Spec.onlyPushes (Store.events (ServiceH.syncBody w db account).1.1).
Proof.
  intros Hall. unfold ServiceH.syncBody.
  set (token := match utilsDecrypt w _ _ with Ok token => token | Err _ => "" end).
  clearbody token.
  destruct (ServiceH.FetchRepositories w _ _) as [repos|]; [|done].
  destruct (Nat.eqb _ _); [done|].
  assert (Hfold : forall st, Spec.onlyPushes (Store.events st.1) ->
            Spec.onlyPushes (Store.events (fold_left (ServiceH.syncRepo w account token) repos st).1)).
  { induction repos as [|repo repos IH]; intros st Hst; [done|].
    cbn [fold_left]. apply IH. by apply syncRepoH_push. }
  specialize (Hfold (db, 0) Hall). by destruct (fold_left _ _ _).
Qed.

Lemma exec_push (db : Store.DB) (s : System.Step) :
  Spec.onlyPushes (Store.events db) -> Spec.onlyPushes (Store.events (System.exec db s)).
Proof.
  intros Hall. unfold System.exec. destruct (System.op s) as [u n t|u a|a|a|].
  - unfold Service.ConnectAccount.
    destruct (Store.first _ _); [done|].
    destruct (Service.validateUsername _ _); [|done].
    destruct (Service.login _ _ _); [|done].
    destruct (utilsEncrypt _ _) as [[enc iv]|]; [|done].
    cbn [fst Store.events].
    destruct (Nat.ltb _ _); [|done].
    cbn [Store.deleteAccounts Store.deleteEvents Store.events Store.setAccounts
         Store.setEvents]. by apply filter_push.
  - unfold Service.DisconnectAccount.
    destruct (Nat.eqb _ _); cbn [fst Store.deleteAccounts Store.deleteEvents Store.events
                                 Store.setAccounts Store.setEvents]; by apply filter_push.
  - unfold Service.SyncActivity, Service.syncBegin.
    destruct (Store.firstAccountByID db a) as [account|]; [|done].
    pose proof (syncBody_push (System.world s)
                  (Store.saveAccount (DockerAccount.setSyncInProgress true account) db)
                  (DockerAccount.setSyncInProgress true account)) as Hbody.
    rewrite saveAccount_events in Hbody. specialize (Hbody Hall).
    destruct (Service.syncBody _ _ _) as [[db2 acc2] err]. cbn [fst snd] in *.
    unfold Service.syncDeferred. by rewrite saveAccount_events.
  - unfold ServiceH.SyncActivity, ServiceH.syncBegin.
    destruct (Store.firstAccountByID db a) as [account|]; [|done].
    pose proof (syncBodyH_push (System.world s)
                  (Store.saveAccount (DockerAccount.setSyncInProgress true account) db)
                  (DockerAccount.setSyncInProgress true account)) as Hbody.
    rewrite saveAccount_events in Hbody. specialize (Hbody Hall).
    destruct (ServiceH.syncBody _ _ _) as [[db2 acc2] err]. cbn [fst snd] in *.
    unfold ServiceH.syncDeferred. by rewrite saveAccount_events.
  - unfold Worker.cleanupOldData. by apply filter_push.
Qed.

Lemma reachable_push (db : Store.DB) :
  System.Reachable db -> Spec.onlyPushes (Store.events db).
Proof.
  intros [steps ->]. unfold System.run.
  assert (H : forall db0, Spec.onlyPushes (Store.events db0) ->
                Spec.onlyPushes (Store.events (fold_left System.exec steps db0))).
  { induction steps as [|s steps IH]; intros db0 H0; [done|].
    cbn [fold_left]. apply IH. by apply exec_push. }
  apply H. constructor.
Qed.

End OnlyPush.

(** ** Totals of pulls and builds *)

Lemma forEachDay_Forall {A : Type} (P : A -> Prop) (body : Z -> A) (endDate d : Z) :
  (forall d', P (body d')) -> Forall P (Time.forEachDay body endDate d).
Proof.
  intros HP. rewrite forEachDay_seq. apply Forall_fmap, Forall_forall.
  intros i _. apply HP.
Qed.

Lemma sumTotals_no_pull_no_build (activities : list ActivitySummary.t) :
  Forall Spec.noPullNoBuild activities ->
  Handlers.pulls (Handlers.sumTotals activities) = 0
  /\ Handlers.builds (Handlers.sumTotals activities) = 0.
Proof.
  unfold Handlers.sumTotals.
  set (t0 := {| Handlers.activities := 0; Handlers.pushes := 0;
                Handlers.pulls := 0; Handlers.builds := 0 |}).
  assert (H0 : Handlers.pulls t0 = 0 /\ Handlers.builds t0 = 0) by done.
  clearbody t0. revert t0 H0.
  induction activities as [|a activities IH]; intros t0 H0 Hall; [done|].
  apply Forall_cons_1 in Hall as [[Hp Hb] Hall].
  cbn [fold_left]. apply IH; [|done].
  cbn. destruct H0 as [-> ->]. by rewrite Hp, Hb.
Qed.

Lemma summaryFor_no_pull_no_build (dateMap : gmap string ActivitySummary.t)
    (maxCount d : Z) :
  Spec.noPullNoBuild (Service.summaryFor dateMap maxCount d).
Proof. unfold Service.summaryFor. by destruct (dateMap !! Time.Format d). Qed.

Lemma aggregateH_no_pull_no_build (events : list ActivityEvent.t)
    (m : gmap string ActivitySummary.t) :
  Spec.onlyPushes events ->
  map_Forall (fun _ s => Spec.noPullNoBuild s) m ->
  map_Forall (fun _ s => Spec.noPullNoBuild s) (fold_left ServiceH.aggregate events m).
Proof.
  revert m. induction events as [|e events IH]; intros m Hpush Hm; [done|].
  apply Forall_cons_1 in Hpush as [He Hpush].
  cbn [fold_left]. apply IH; [done|]. clear IH.
  unfold ServiceH.aggregate. rewrite He.
  set (dateStr := Time.Format (ActivityEvent.EventDate e)).
  intros k s. destruct (decide (dateStr = k)) as [<-|Hne].
  - rewrite lookup_alter_eq.
    destruct (m !! dateStr) as [s0|] eqn:Hs0.
    + rewrite Hs0. cbn. intros [= <-]. apply (Hm _ _ Hs0).
    + rewrite lookup_insert_eq. cbn. by intros [= <-].
  - rewrite lookup_alter_ne by done.
    destruct (m !! dateStr); [apply Hm|].
    rewrite lookup_insert_ne by done. apply Hm.
Qed.

Lemma summaryForH_no_pull_no_build (dateMap : gmap string ActivitySummary.t)
    (maxCount d : Z) :
  map_Forall (fun _ s => Spec.noPullNoBuild s) dateMap ->
  Spec.noPullNoBuild (ServiceH.summaryFor dateMap maxCount d).
Proof.
  intros Hm. unfold ServiceH.summaryFor.
  destruct (dateMap !! Time.Format d) as [s|] eqn:Hs; [|done].
  apply (Hm _ _ Hs).
Qed.

Lemma forEachDayOf_Forall {A : Type} (P : A -> Prop) (body : Z -> A) (reads : list Z)
    (rest d : Z) :
  (forall d', P (body d')) -> Forall P (Clock.forEachDayOf body reads rest d).
Proof.
  intros Hbody. revert d.
  induction reads as [|now later IH]; intros d; cbn [Clock.forEachDayOf].
  - by apply forEachDay_Forall.
  - destruct (Z_lt_dec now d); [constructor|]. by constructor.
Qed.

(** C10. In every database that the operations build from the empty
    one, each event row has kind push: the synchronisation records
    repository-level and tag-level observations alike as push events, and
    nothing else creates a row.  Hence the totals of pulls and of builds
    that [GetActivityJSON] reports are 0 for every account and every
    window, with either copy of the service, whatever the clock reads. *)
Theorem no_pull_or_build_is_ever_counted (db : Store.DB) (clock : Clock.t)
    (usernameParam : string) (daysQuery : option Z) :
  System.Reachable db ->
  Spec.onlyPushes (Store.events db)
  /\ match Handlers.GetActivityJSON (Service.GetActivitySummary db clock)
             usernameParam daysQuery with
     | Handlers.Activity _ _ totals _ =>
         Handlers.pulls totals = 0 /\ Handlers.builds totals = 0
     | _ => True
     end
  /\ match Handlers.GetActivityJSON (ServiceH.GetActivitySummary db clock)
             usernameParam daysQuery with
     | Handlers.Activity _ _ totals _ =>
         Handlers.pulls totals = 0 /\ Handlers.builds totals = 0
     | _ => True
     end.
Proof.
  intros Hreach. pose proof (reachable_push db Hreach) as Hpush.
  split; [done|]. unfold Handlers.GetActivityJSON.
  set (username := Handlers.TrimSuffix usernameParam ".json").
  set (days := match daysQuery with Some _ => _ | None => _ end).
  destruct (bool_decide (username = "")); [done|].
  split.
  - unfold Service.GetActivitySummary.
    destruct (Service.GetDockerAccountByUsername db username) as [account|e].
    2:{ by destruct (bool_decide _). }
    destruct (Clock.Now clock) as [now clock1].
    destruct (fold_left Service.aggregate _ _) as [dateMap maxCount].
    destruct (Runtime.makeslice _ _); [|done].
    apply sumTotals_no_pull_no_build, forEachDayOf_Forall.
    intros d. apply summaryFor_no_pull_no_build.
  - unfold ServiceH.GetActivitySummary, ServiceH.GetDockerAccountByUsername.
    destruct (Service.GetDockerAccountByUsername db username) as [account|e].
    2:{ by destruct (bool_decide _). }
    destruct (Clock.Now clock) as [now clock1].
    destruct (Clock.Now clock1) as [endDate clock2].
    destruct (Runtime.makeslice _ _); [|done].
    apply sumTotals_no_pull_no_build, forEachDay_Forall.
    intros d. apply summaryForH_no_pull_no_build, aggregateH_no_pull_no_build.
    + by apply filter_push.
    + apply map_Forall_empty.
Qed.

Lemma no_pull_or_build_is_ever_counted_witness :
  System.Reachable (System.run Example.history Store.empty)
  /\ Spec.onlyPushes (Store.events (System.run Example.history Store.empty))
  /\ match Handlers.GetActivityJSON
             (ServiceH.GetActivitySummary (System.run Example.history Store.empty)
                Example.aroundNoon)
             "alice.json" (Some 30) with
     | Handlers.Activity _ _ totals _ =>
         Handlers.pulls totals = 0 /\ Handlers.builds totals = 0
     | _ => True
     end.
Proof.
  assert (Hreach : System.Reachable (System.run Example.history Store.empty))
    by (exists Example.history; reflexivity).
  split; [exact Hreach|].
  pose proof (no_pull_or_build_is_ever_counted _ Example.aroundNoon "alice.json" (Some 30)
                Hreach) as (H1 & _ & H3).
  exact (conj H1 H3).
Defined.

(** ** At most one row per key *)

Lemma sameObservation_keyOf (accountID date : Z) (repo tag : string) (e : ActivityEvent.t) :
  Service.sameObservation accountID date repo tag e = true
  <-> Spec.keyOf e = (accountID, date, repo, tag).
Proof.
  unfold Service.sameObservation, Spec.keyOf.
  rewrite !andb_true_iff, !bool_decide_eq_true. split.
  - by intros [[[-> ->] ->] ->].
  - by intros [= -> -> -> ->].
Qed.

Lemma keys_NoDup_filter (accountID date : Z) (repo tag : string)
    (events : list ActivityEvent.t) :
  NoDup (Spec.keyOf <$> events) ->
  (length (List.filter (Service.sameObservation accountID date repo tag) events) <= 1)%nat.
Proof.
  induction events as [|e events IH]; intros Hnd; [cbn; lia|].
  cbn [fmap list_fmap] in Hnd. apply NoDup_cons in Hnd as [Hnotin Hnd].
  cbn [List.filter].
  destruct (Service.sameObservation accountID date repo tag e) eqn:He; [|by apply IH].
  apply sameObservation_keyOf in He.
  assert (Hnone : List.filter (Service.sameObservation accountID date repo tag) events = []).
  { apply first_None. unfold Store.first. apply list_find_None, Forall_forall.
    intros e' He' Hk. apply sameObservation_keyOf in Hk.
    apply Hnotin. rewrite He, <- Hk. by apply list_elem_of_fmap_2. }
  rewrite Hnone. cbn. lia.
Qed.

Lemma keys_NoDup_filtered (cond : ActivityEvent.t -> bool) (events : list ActivityEvent.t) :
  NoDup (Spec.keyOf <$> events) -> NoDup (Spec.keyOf <$> List.filter cond events).
Proof.
  induction events as [|e events IH]; intros Hnd; [done|].
  cbn [fmap list_fmap] in Hnd. apply NoDup_cons in Hnd as [Hnotin Hnd].
  cbn [List.filter]. destruct (cond e); [|by apply IH].
  cbn [fmap list_fmap]. apply NoDup_cons. split; [|by apply IH].
  intros Hin. apply Hnotin.
  apply list_elem_of_fmap in Hin as (e' & -> & He').
  apply list_elem_of_fmap_2. apply list_elem_of_In in He'.
  apply filter_In in He' as [He' _]. by apply list_elem_of_In.
Qed.

Lemma createActivity_keys (db : Store.DB) (account : DockerAccount.t) (eventType : EventType)
    (eventDate : Time.Parsed) (repo tag : string) :
  NoDup (Spec.keyOf <$> Store.events db) ->
  NoDup (Spec.keyOf <$> Store.events
                          (Service.createActivity db account eventType eventDate repo tag).1).
Proof.
  intros Hnd. unfold Service.createActivity.
  destruct (Store.first _ _) as [[i x]|] eqn:Hfirst; cbn [fst Store.events Store.setEvents].
  - apply first_Some in Hfirst as (_ & _ & _ & Hi).
    rewrite list_fmap_insert, list_insert_id; [done|].
    by rewrite list_lookup_fmap, Hi.
  - rewrite fmap_app. apply NoDup_app. split; [done|]. split; [|apply NoDup_singleton].
    intros k Hk Hnew. cbn in Hnew. apply list_elem_of_singleton in Hnew. subst k.
    apply list_elem_of_fmap in Hk as (e & Hke & He).
    unfold Store.first in Hfirst. rewrite list_find_None, Forall_forall in Hfirst.
    apply (Hfirst e He). apply sameObservation_keyOf. by rewrite <- Hke.
Qed.

Lemma syncBody_keys (w : World) (db : Store.DB) (account : DockerAccount.t) :
  NoDup (Spec.keyOf <$> Store.events db) ->
  NoDup (Spec.keyOf <$> Store.events (Service.syncBody w db account).1.1).
Proof.
  intros Hall. unfold Service.syncBody.
  destruct (utilsDecrypt w _ _); [|done].
  destruct (Service.login w _ _) as [token|]; [|done].
  destruct (Service.FetchRepositories w _ _) as [repos|]; [|done].
  assert (Htag : forall repoName tags st,
            NoDup (Spec.keyOf <$> Store.events st.1) ->
            NoDup (Spec.keyOf <$> Store.events
                     (fold_left (Service.syncTag w account repoName) tags st).1)).
  { intros repoName tags. induction tags as [|tag tags IH]; intros st Hst; [done|].
    cbn [fold_left]. apply IH. unfold Service.syncTag.
    destruct (bool_decide _); [done|].
    destruct (Service.parseDockerHubTime w _) as [t|]; [|done].
    pose proof (createActivity_keys st.1 account EventTypePush t repoName
                  (DockerHubTag.Name tag) Hst).
    by destruct (Service.createActivity _ _ _ _ _ _). }
  assert (Hfold : forall st, NoDup (Spec.keyOf <$> Store.events st.1) ->
            NoDup (Spec.keyOf <$> Store.events
                     (fold_left (Service.syncRepo w account token) repos st).1)).
  { induction repos as [|repo repos IH]; intros st Hst; [done|].
    cbn [fold_left]. apply IH. unfold Service.syncRepo. apply Htag.
    destruct (bool_decide _); [done|].
    destruct (Service.parseDockerHubTime w _) as [t|]; [|done].
    pose proof (createActivity_keys st.1 account EventTypePush t
                  (DockerHubRepository.Name repo) "" Hst).
    by destruct (Service.createActivity _ _ _ _ _ _). }
  specialize (Hfold (db, 0) Hall). by destruct (fold_left _ _ _).
Qed.

Lemma syncBodyH_keys (w : World) (db : Store.DB) (account : DockerAccount.t) :
  NoDup (Spec.keyOf <$> Store.events db) ->
  NoDup (Spec.keyOf <$> Store.events (ServiceH.syncBody w db account).1.1).
Proof.
  intros Hall. unfold ServiceH.syncBody.
  set (token := match utilsDecrypt w _ _ with Ok token => token | Err _ => "" end).
  clearbody token.
  destruct (ServiceH.FetchRepositories w _ _) as [repos|]; [|done].
  destruct (Nat.eqb _ _); [done|].
  assert (Htag : forall repoName tags st,
            NoDup (Spec.keyOf <$> Store.events st.1) ->
            NoDup (Spec.keyOf <$> Store.events
                     (fold_left (ServiceH.syncTag w account repoName) tags st).1)).
  { intros repoName tags. induction tags as [|tag tags IH]; intros st Hst; [done|].
    cbn [fold_left]. apply IH. unfold ServiceH.syncTag.
    destruct (bool_decide _); [done|].
    destruct (ServiceH.parseDockerTime w _) as [t|]; [|done].
    pose proof (createActivity_keys st.1 account EventTypePush t repoName
                  (DockerHubTag.Name tag) Hst).
    unfold ServiceH.createActivity. by destruct (Service.createActivity _ _ _ _ _ _). }
  assert (Hfold : forall st, NoDup (Spec.keyOf <$> Store.events st.1) ->
            NoDup (Spec.keyOf <$> Store.events
                     (fold_left (ServiceH.syncRepo w account token) repos st).1)).
  { induction repos as [|repo repos IH]; intros st Hst; [done|].
    cbn [fold_left]. apply IH. unfold ServiceH.syncRepo.
    set (st1 := if bool_decide _ then st else _).
    assert (Hst1 : NoDup (Spec.keyOf <$> Store.events st1.1)).
    { subst st1. destruct (bool_decide _); [done|].
      destruct (ServiceH.parseDockerTime w _) as [t|]; [|done].
      pose proof (createActivity_keys st.1 account EventTypePush t
                    (DockerHubRepository.Name repo) "" Hst).
      unfold ServiceH.createActivity. by destruct (Service.createActivity _ _ _ _ _ _). }
    clearbody st1. destruct (ServiceH.FetchTags w _ _ _) as [tags|]; [|done].
    by apply Htag. }
  specialize (Hfold (db, 0) Hall). by destruct (fold_left _ _ _).
Qed.

Lemma exec_keys (db : Store.DB) (s : System.Step) :
  NoDup (Spec.keyOf <$> Store.events db) ->
  NoDup (Spec.keyOf <$> Store.events (System.exec db s)).
Proof.
  intros Hall. unfold System.exec. destruct (System.op s) as [u n t|u a|a|a|].
  - unfold Service.ConnectAccount.
    destruct (Store.first _ _); [done|].
    destruct (Service.validateUsername _ _); [|done].
    destruct (Service.login _ _ _); [|done].
    destruct (utilsEncrypt _ _) as [[enc iv]|]; [|done].
    cbn [fst Store.events].
    destruct (Nat.ltb _ _); [|done].
    cbn [Store.deleteAccounts Store.deleteEvents Store.events Store.setAccounts
         Store.setEvents]. by apply keys_NoDup_filtered.
  - unfold Service.DisconnectAccount.
    destruct (Nat.eqb _ _); cbn [fst Store.deleteAccounts Store.deleteEvents Store.events
                                 Store.setAccounts Store.setEvents];
      by apply keys_NoDup_filtered.
  - unfold Service.SyncActivity, Service.syncBegin.
    destruct (Store.firstAccountByID db a) as [account|]; [|done].
    pose proof (syncBody_keys (System.world s)
                  (Store.saveAccount (DockerAccount.setSyncInProgress true account) db)
                  (DockerAccount.setSyncInProgress true account)) as Hbody.
    rewrite saveAccount_events in Hbody. specialize (Hbody Hall).
    destruct (Service.syncBody _ _ _) as [[db2 acc2] err]. cbn [fst snd] in *.
    unfold Service.syncDeferred. by rewrite saveAccount_events.
  - unfold ServiceH.SyncActivity, ServiceH.syncBegin.
    destruct (Store.firstAccountByID db a) as [account|]; [|done].
    pose proof (syncBodyH_keys (System.world s)
                  (Store.saveAccount (DockerAccount.setSyncInProgress true account) db)
                  (DockerAccount.setSyncInProgress true account)) as Hbody.
    rewrite saveAccount_events in Hbody. specialize (Hbody Hall).
    destruct (ServiceH.syncBody _ _ _) as [[db2 acc2] err]. cbn [fst snd] in *.
    unfold ServiceH.syncDeferred. by rewrite saveAccount_events.
  - unfold Worker.cleanupOldData. by apply keys_NoDup_filtered.
Qed.

(** X1. In every database that the operations build from the empty one,
    the event table holds at most one row for each (account, day,
    resource, sub-resource). *)
Theorem reachable_keys_unique (db : Store.DB) (accountID date : Z) (repo tag : string) :
  System.Reachable db ->
  (length (List.filter (Service.sameObservation accountID date repo tag) (Store.events db))
   <= 1)%nat.
Proof.
  intros [steps ->]. apply keys_NoDup_filter. unfold System.run.
  assert (H : forall db0, NoDup (Spec.keyOf <$> Store.events db0) ->
                NoDup (Spec.keyOf <$> Store.events (fold_left System.exec steps db0))).
  { induction steps as [|s steps IH]; intros db0 H0; [done|].
    cbn [fold_left]. apply IH. by apply exec_keys. }
  apply H. constructor.
Qed.

Lemma reachable_keys_unique_witness :
  System.Reachable (System.run Example.history Store.empty)
  /\ (length (List.filter
                (Service.sameObservation 1 (Time.midnightUTC (Example.jan1 + 2)) "app" "v1")
                (Store.events (System.run Example.history Store.empty)))
      <= 1)%nat.
Proof.
  assert (Hreach : System.Reachable (System.run Example.history Store.empty))
    by (exists Example.history; reflexivity).
  split; [exact Hreach|].
  exact (reachable_keys_unique _ 1 (Time.midnightUTC (Example.jan1 + 2)) "app" "v1" Hreach).
Defined.

(** ** Rows that a filter or an update leaves alone *)

Lemma elem_of_filter {A : Type} (cond : A -> bool) (l : list A) (x : A) :
  x ∈ List.filter cond l <-> x ∈ l /\ cond x = true.
Proof. by rewrite !list_elem_of_In, filter_In. Qed.

Lemma NoDup_fmap_filter {A B : Type} (f : A -> B) (cond : A -> bool) (l : list A) :
  NoDup (f <$> l) -> NoDup (f <$> List.filter cond l).
Proof.
  induction l as [|x l IH]; intros Hnd; [done|].
  cbn [fmap list_fmap] in Hnd. apply NoDup_cons in Hnd as [Hnotin Hnd].
  cbn [List.filter]. destruct (cond x); [|by apply IH].
  cbn [fmap list_fmap]. apply NoDup_cons. split; [|by apply IH].
  intros Hin. apply Hnotin.
  apply list_elem_of_fmap in Hin as (y & -> & Hy).
  apply list_elem_of_fmap_2. by apply elem_of_filter in Hy as [Hy _].
Qed.

Lemma filter_insert_out {A : Type} (cond : A -> bool) (l : list A) (i : nat) (x y : A) :
  l !! i = Some x -> cond x = false -> cond y = false ->
  List.filter cond (<[i := y]> l) = List.filter cond l.
Proof.
  revert i. induction l as [|z l IH]; intros i Hi Hx Hy; [done|].
  destruct i as [|i]; cbn in Hi.
  - injection Hi as ->. change (<[0%nat := y]> (x :: l)) with (y :: l).
    cbn [List.filter]. by rewrite Hx, Hy.
  - change (<[S i := y]> (z :: l)) with (z :: <[i := y]> l).
    cbn [List.filter]. by rewrite (IH i Hi Hx Hy).
Qed.

Lemma first_insert_out {A : Type} (cond : A -> bool) (l : list A) (i : nat) (x y : A) :
  l !! i = Some x -> cond x = false -> cond y = false ->
  Store.first cond (<[i := y]> l) = Store.first cond l.
Proof.
  unfold Store.first.
  revert i. induction l as [|z l IH]; intros i Hi Hx Hy; [done|].
  destruct i as [|i]; cbn in Hi.
  - injection Hi as ->. change (<[0%nat := y]> (x :: l)) with (y :: l).
    cbn [list_find]. rewrite !decide_False; [done| |]; congruence.
  - change (<[S i := y]> (z :: l)) with (z :: <[i := y]> l).
    cbn [list_find]. by rewrite (IH i Hi Hx Hy).
Qed.

Lemma first_app_out {A : Type} (cond : A -> bool) (l : list A) (y : A) :
  cond y = false -> Store.first cond (l ++ [y]) = Store.first cond l.
Proof.
  intros Hy. unfold Store.first.
  induction l as [|z l IH].
  - cbn. rewrite decide_False; [done|congruence].
  - change ((z :: l) ++ [y]) with (z :: (l ++ [y])). cbn [list_find]. by rewrite IH.
Qed.

(** ** What a synchronisation run preserves *)

(** A property of the database that every call of [createActivity] for
    the account keeps is kept by the loops of [SyncActivity]. *)
Section SyncPreserves.

Variable P : Store.DB -> Prop.
Variable account : DockerAccount.t.
Hypothesis Hcreate : forall db t repo tag,
  P db -> P (Service.createActivity db account EventTypePush t repo tag).1.

Lemma syncBody_preserves (w : World) (db : Store.DB) :
  P db -> P (Service.syncBody w db account).1.1.
Proof.
  intros Hall. unfold Service.syncBody.
  destruct (utilsDecrypt w _ _); [|done].
  destruct (Service.login w _ _) as [token|]; [|done].
  destruct (Service.FetchRepositories w _ _) as [repos|]; [|done].
  assert (Htag : forall repoName tags st,
            P st.1 -> P (fold_left (Service.syncTag w account repoName) tags st).1).
  { intros repoName tags. induction tags as [|tag tags IH]; intros st Hst; [done|].
    cbn [fold_left]. apply IH. unfold Service.syncTag.
    destruct (bool_decide _); [done|].
    destruct (Service.parseDockerHubTime w _) as [t|]; [|done].
    pose proof (Hcreate st.1 t repoName (DockerHubTag.Name tag) Hst).
    by destruct (Service.createActivity _ _ _ _ _ _). }
  assert (Hfold : forall st, P st.1 ->
            P (fold_left (Service.syncRepo w account token) repos st).1).
  { induction repos as [|repo repos IH]; intros st Hst; [done|].
    cbn [fold_left]. apply IH. unfold Service.syncRepo. apply Htag.
    destruct (bool_decide _); [done|].
    destruct (Service.parseDockerHubTime w _) as [t|]; [|done].
    pose proof (Hcreate st.1 t (DockerHubRepository.Name repo) "" Hst).
    by destruct (Service.createActivity _ _ _ _ _ _). }
  specialize (Hfold (db, 0) Hall). by destruct (fold_left _ _ _).
Qed.

Lemma syncBodyH_preserves (w : World) (db : Store.DB) :
  P db -> P (ServiceH.syncBody w db account).1.1.
Proof.
  intros Hall. unfold ServiceH.syncBody.
  set (token := match utilsDecrypt w _ _ with Ok token => token | Err _ => "" end).
  clearbody token.
  destruct (ServiceH.FetchRepositories w _ _) as [repos|]; [|done].
  destruct (Nat.eqb _ _); [done|].
  assert (Htag : forall repoName tags st,
            P st.1 -> P (fold_left (ServiceH.syncTag w account repoName) tags st).1).
  { intros repoName tags. induction tags as [|tag tags IH]; intros st Hst; [done|].
    cbn [fold_left]. apply IH. unfold ServiceH.syncTag.
    destruct (bool_decide _); [done|].
    destruct (ServiceH.parseDockerTime w _) as [t|]; [|done].
    pose proof (Hcreate st.1 t repoName (DockerHubTag.Name tag) Hst).
    unfold ServiceH.createActivity. by destruct (Service.createActivity _ _ _ _ _ _). }
  assert (Hfold : forall st, P st.1 ->
            P (fold_left (ServiceH.syncRepo w account token) repos st).1).
  { induction repos as [|repo repos IH]; intros st Hst; [done|].
    cbn [fold_left]. apply IH. unfold ServiceH.syncRepo.
    set (st1 := if bool_decide _ then st else _).
    assert (Hst1 : P st1.1).
    { subst st1. destruct (bool_decide _); [done|].
      destruct (ServiceH.parseDockerTime w _) as [t|]; [|done].
      pose proof (Hcreate st.1 t (DockerHubRepository.Name repo) "" Hst).
      unfold ServiceH.createActivity. by destruct (Service.createActivity _ _ _ _ _ _). }
    clearbody st1. destruct (ServiceH.FetchTags w _ _ _) as [tags|]; [|done].
    by apply Htag. }
  specialize (Hfold (db, 0) Hall). by destruct (fold_left _ _ _).
Qed.

End SyncPreserves.

Lemma createActivity_accounts (db : Store.DB) (account : DockerAccount.t)
    (eventType : EventType) (eventDate : Time.Parsed) (repo tag : string) :
  Store.accounts (Service.createActivity db account eventType eventDate repo tag).1
  = Store.accounts db
  /\ Store.accountSeq (Service.createActivity db account eventType eventDate repo tag).1
     = Store.accountSeq db.
Proof. unfold Service.createActivity. by destruct (Store.first _ _) as [[i x]|]. Qed.

(** The events of another account are not touched by [createActivity]. *)
Lemma createActivity_eventsOf (db : Store.DB) (account : DockerAccount.t)
    (eventType : EventType) (eventDate : Time.Parsed) (repo tag : string) (other : Z) :
  other <> DockerAccount.ID account ->
  Integrity.eventsOf other (Service.createActivity db account eventType eventDate repo tag).1
  = Integrity.eventsOf other db.
Proof.
  intros Hne. unfold Service.createActivity, Integrity.eventsOf.
  destruct (Store.first _ _) as [[i x]|] eqn:Hfirst; cbn [fst Store.events Store.setEvents].
  - apply first_Some in Hfirst as (_ & Hx & _ & Hi).
    apply sameObservation_keyOf in Hx. injection Hx as Hid _ _ _.
    eapply filter_insert_out; [exact Hi| |].
    + apply bool_decide_eq_false_2. congruence.
    + apply bool_decide_eq_false_2. cbn. congruence.
  - rewrite List.filter_app. cbn [List.filter ActivityEvent.DockerAccountID].
    rewrite bool_decide_eq_false_2 by congruence. by rewrite app_nil_r.
Qed.

Lemma syncBody_identity (w : World) (db : Store.DB) (account : DockerAccount.t) :
  Integrity.identity (Service.syncBody w db account).1.2 = Integrity.identity account.
Proof.
  unfold Service.syncBody.
  destruct (utilsDecrypt w _ _); [|done].
  destruct (Service.login w _ _); [|done].
  destruct (Service.FetchRepositories w _ _); [|done].
  by destruct (fold_left _ _ _).
Qed.

Lemma syncBodyH_identity (w : World) (db : Store.DB) (account : DockerAccount.t) :
  Integrity.identity (ServiceH.syncBody w db account).1.2 = Integrity.identity account.
Proof.
  unfold ServiceH.syncBody.
  destruct (ServiceH.FetchRepositories w _ _); [|done].
  destruct (Nat.eqb _ _); [done|]. by destruct (fold_left _ _ _).
Qed.

Lemma saveAccount_accountSeq (account : DockerAccount.t) (db : Store.DB) :
  Store.accountSeq (Store.saveAccount account db) = Store.accountSeq db.
Proof. unfold Store.saveAccount. by destruct (Store.first _ _) as [[i x]|]. Qed.

Lemma saveAccount_at (db : Store.DB) (i : nat) (r account : DockerAccount.t) :
  Store.first (fun a => bool_decide (DockerAccount.ID a = DockerAccount.ID account))
              (Store.accounts db) = Some (i, r) ->
  Store.saveAccount account db = Store.setAccounts (<[i := account]> (Store.accounts db)) db.
Proof. intros Hfirst. unfold Store.saveAccount. by rewrite Hfirst. Qed.

(** The two writes of a run to the account table. *)
Lemma sync_rewrites (now : Z) (db db2 : Store.DB) (accountID : Z) (i : nat)
    (r acc2 : DockerAccount.t) :
  Store.first (fun a => bool_decide (DockerAccount.ID a = accountID)) (Store.accounts db)
  = Some (i, r) ->
  Store.accounts db2
  = Store.accounts (Store.saveAccount (DockerAccount.setSyncInProgress true r) db) ->
  Store.accountSeq db2 = Store.accountSeq db ->
  Integrity.identity acc2 = Integrity.identity (DockerAccount.setSyncInProgress true r) ->
  Integrity.rewritten now db
    (Store.saveAccount
       (DockerAccount.setLastSyncAt (Some now) (DockerAccount.setSyncInProgress false acc2))
       db2)
    accountID.
Proof.
  intros Hfirst Hacc Hseq Hident.
  pose proof (first_Some _ _ _ _ Hfirst) as (_ & Hr & _ & Hi).
  apply bool_decide_eq_true in Hr.
  assert (Hid2 : DockerAccount.ID acc2 = accountID).
  { unfold Integrity.identity in Hident. injection Hident as -> _ _ _ _ _ _. done. }
  rewrite (saveAccount_at db i r) in Hacc by (cbn; by rewrite Hr).
  cbn [Store.accounts Store.setAccounts] in Hacc.
  set (r3 := DockerAccount.setLastSyncAt _ _).
  assert (Hfirst2 : Store.first
            (fun a => bool_decide (DockerAccount.ID a = DockerAccount.ID r3))
            (Store.accounts db2) = Some (i, DockerAccount.setSyncInProgress true r)).
  { rewrite Hacc. cbn [DockerAccount.ID r3 DockerAccount.setLastSyncAt
                       DockerAccount.setSyncInProgress]. rewrite Hid2.
    eapply first_insert; [exact Hfirst|]. by apply bool_decide_eq_true_2. }
  rewrite (saveAccount_at db2 i _ r3 Hfirst2).
  unfold Integrity.rewritten. rewrite Hfirst.
  cbn [Store.accounts Store.setAccounts Store.accountSeq].
  split; [done|]. exists r3. rewrite Hacc, list_insert_insert_eq.
  split; [done|]. split; [|done].
  subst r3. unfold Integrity.identity in *. cbn in *. done.
Qed.

Lemma SyncActivity_rewritten (w : World) (now : Z) (db : Store.DB) (accountID : Z) :
  Integrity.rewritten now db (Service.SyncActivity w now db accountID).1 accountID.
Proof.
  unfold Service.SyncActivity, Service.syncBegin, Store.firstAccountByID.
  destruct (Store.first _ (Store.accounts db)) as [[i r]|] eqn:Hfirst; cbn [fmap option_fmap option_map snd].
  2:{ unfold Integrity.rewritten. by rewrite Hfirst. }
  set (r1 := DockerAccount.setSyncInProgress true r).
  set (db1 := Store.saveAccount r1 db).
  pose proof (syncBody_identity w db1 r1) as Hident.
  pose proof (syncBody_preserves
                (fun d => Store.accounts d = Store.accounts db1
                          /\ Store.accountSeq d = Store.accountSeq db) r1) as Hkeep.
  specialize (Hkeep ltac:(intros d t repo tag [Ha Hs];
                          destruct (createActivity_accounts d r1 EventTypePush t repo tag)
                            as [-> ->]; done) w db1).
  destruct (Service.syncBody w db1 r1) as [[db2 acc2] err]. cbn [fst snd] in *.
  destruct Hkeep as [Hacc Hseq].
  { split; [done|]. apply saveAccount_accountSeq. }
  unfold Service.syncDeferred. by eapply sync_rewrites.
Qed.

Lemma SyncActivityH_rewritten (w : World) (now : Z) (db : Store.DB) (accountID : Z) :
  Integrity.rewritten now db (ServiceH.SyncActivity w now db accountID).1 accountID.
Proof.
  unfold ServiceH.SyncActivity, ServiceH.syncBegin, Store.firstAccountByID.
  destruct (Store.first _ (Store.accounts db)) as [[i r]|] eqn:Hfirst; cbn [fmap option_fmap option_map snd].
  2:{ unfold Integrity.rewritten. by rewrite Hfirst. }
  set (r1 := DockerAccount.setSyncInProgress true r).
  set (db1 := Store.saveAccount r1 db).
  pose proof (syncBodyH_identity w db1 r1) as Hident.
  pose proof (syncBodyH_preserves
                (fun d => Store.accounts d = Store.accounts db1
                          /\ Store.accountSeq d = Store.accountSeq db) r1) as Hkeep.
  specialize (Hkeep ltac:(intros d t repo tag [Ha Hs];
                          destruct (createActivity_accounts d r1 EventTypePush t repo tag)
                            as [-> ->]; done) w db1).
  destruct (ServiceH.syncBody w db1 r1) as [[db2 acc2] err]. cbn [fst snd] in *.
  destruct Hkeep as [Hacc Hseq].
  { split; [done|]. apply saveAccount_accountSeq. }
  unfold ServiceH.syncDeferred. by eapply sync_rewrites.
Qed.

(** A property of the event table that [createActivity] keeps for the
    account of a run is kept by the run, in both copies. *)
Lemma SyncActivity_events_preserves (Q : list ActivityEvent.t -> Prop) (w : World) (now : Z)
    (db : Store.DB) (accountID : Z) :
  (forall d account t repo tag,
     DockerAccount.ID account = accountID -> Q (Store.events d) ->
     Q (Store.events (Service.createActivity d account EventTypePush t repo tag).1)) ->
  Q (Store.events db) ->
  Q (Store.events (Service.SyncActivity w now db accountID).1)
  /\ Q (Store.events (ServiceH.SyncActivity w now db accountID).1).
Proof.
  intros Hcreate HQ.
  unfold Service.SyncActivity, Service.syncBegin, ServiceH.SyncActivity, ServiceH.syncBegin.
  destruct (Store.firstAccountByID db accountID) as [account|] eqn:Hload; [|done].
  apply firstAccountByID_ID in Hload.
  set (r1 := DockerAccount.setSyncInProgress true account).
  assert (Hr1 : DockerAccount.ID r1 = accountID) by done.
  split.
  - pose proof (syncBody_preserves (fun d => Q (Store.events d)) r1
                  ltac:(intros d t repo tag; by apply Hcreate) w
                  (Store.saveAccount r1 db)) as Hbody.
    cbn beta in Hbody. rewrite saveAccount_events in Hbody. specialize (Hbody HQ).
    destruct (Service.syncBody w _ _) as [[db2 acc2] err]. cbn [fst snd] in *.
    unfold Service.syncDeferred. by rewrite saveAccount_events.
  - pose proof (syncBodyH_preserves (fun d => Q (Store.events d)) r1
                  ltac:(intros d t repo tag; by apply Hcreate) w
                  (Store.saveAccount r1 db)) as Hbody.
    cbn beta in Hbody. rewrite saveAccount_events in Hbody. specialize (Hbody HQ).
    destruct (ServiceH.syncBody w _ _) as [[db2 acc2] err]. cbn [fst snd] in *.
    unfold ServiceH.syncDeferred. by rewrite saveAccount_events.
Qed.

Lemma createActivity_Forall (Q : ActivityEvent.t -> Prop) (db : Store.DB)
    (account : DockerAccount.t) (eventType : EventType) (eventDate : Time.Parsed)
    (repo tag : string) :
  (forall e n, Q e -> Q (ActivityEvent.setCount n e)) ->
  (forall n, Q {| ActivityEvent.DockerAccountID := DockerAccount.ID account;
                  ActivityEvent.Kind := eventType;
                  ActivityEvent.EventDate := Time.midnightUTC (Time.civilDayOf eventDate);
                  ActivityEvent.Repository := repo;
                  ActivityEvent.Tag := tag;
                  ActivityEvent.Count := n |}) ->
  Forall Q (Store.events db) ->
  Forall Q (Store.events (Service.createActivity db account eventType eventDate repo tag).1).
Proof.
  intros Hset Hnew Hall. unfold Service.createActivity.
  destruct (Store.first _ _) as [[i x]|] eqn:Hfirst; cbn [fst Store.events Store.setEvents].
  - apply first_Some in Hfirst as (_ & _ & _ & Hi).
    apply Forall_insert; [done|]. apply Hset.
    rewrite Forall_forall in Hall. apply Hall. by eapply list_elem_of_lookup_2.
  - apply Forall_app. split; [done|]. by apply Forall_singleton.
Qed.

Lemma Forall_filter {A : Type} (Q : A -> Prop) (cond : A -> bool) (l : list A) :
  Forall Q l -> Forall Q (List.filter cond l).
Proof.
  rewrite !Forall_forall. intros Hall x Hx. apply elem_of_filter in Hx as [Hx _].
  by apply Hall.
Qed.

(** *** The shape of the results of [ConnectAccount] *)

Lemma filter_all {A : Type} (cond : A -> bool) (l : list A) :
  (forall x, x ∈ l -> cond x = true) -> List.filter cond l = l.
Proof.
  induction l as [|x l IH]; intros Hall; [done|].
  cbn [List.filter]. rewrite (Hall x) by left. f_equal. apply IH.
  intros y Hy. apply Hall. by right.
Qed.

Lemma ConnectAccount_Err (w : World) (db db' : Store.DB) (userID : Z)
    (dockerUsername accessToken e : string) :
  Service.ConnectAccount w db userID dockerUsername accessToken = (db', Err e) -> db' = db.
Proof.
  unfold Service.ConnectAccount.
  destruct (Store.first _ _); [by intros [= <-]|].
  destruct (Service.validateUsername _ _); [|by intros [= <-]].
  destruct (Service.login _ _ _); [|by intros [= <-]].
  destruct (utilsEncrypt _ _) as [[enc iv]|]; [done|by intros [= <-]].
Qed.

Lemma ConnectAccount_Ok (w : World) (db db' : Store.DB) (userID : Z)
    (dockerUsername accessToken : string) (account : DockerAccount.t) :
  Service.ConnectAccount w db userID dockerUsername accessToken = (db', Ok account) ->
  let accountIDs :=
    DockerAccount.ID
      <$> List.filter (fun a => bool_decide (DockerAccount.UserID a = userID)
                                || bool_decide (DockerAccount.DockerUsername a
                                                = dockerUsername))
                      (Store.accounts db) in
  hubUser w dockerUsername = Ok tt
  /\ accessToken <> ""
  /\ (exists jwt, hubLogin w dockerUsername accessToken = Ok jwt)
  /\ utilsEncrypt w accessToken
     = Ok (DockerAccount.EncryptedToken account, DockerAccount.TokenIV account)
  /\ account
     = {| DockerAccount.ID := Store.accountSeq db;
          DockerAccount.UserID := userID;
          DockerAccount.DockerUsername := dockerUsername;
          DockerAccount.EncryptedToken := DockerAccount.EncryptedToken account;
          DockerAccount.TokenIV := DockerAccount.TokenIV account;
          DockerAccount.IsActive := true;
          DockerAccount.AutoRefresh := true;
          DockerAccount.SyncInProgress := false;
          DockerAccount.LastSyncAt := None;
          DockerAccount.LastSyncError := "" |}
  /\ Store.accounts db'
     = List.filter (fun a => negb (bool_decide (DockerAccount.ID a ∈ accountIDs)))
                   (Store.accounts db) ++ [account]
  /\ Store.events db'
     = List.filter (fun e => negb (bool_decide (ActivityEvent.DockerAccountID e ∈ accountIDs)))
                   (Store.events db)
  /\ Store.accountSeq db' = Store.accountSeq db + 1.
Proof.
  intros Hok accountIDs. revert Hok. unfold Service.ConnectAccount.
  fold accountIDs.
  destruct (Store.first _ _); [done|].
  unfold Service.validateUsername, Service.login.
  destruct (hubUser w dockerUsername) as [[]|]; [|done].
  destruct (bool_decide (accessToken = "")) eqn:Hpat; [done|].
  apply bool_decide_eq_false in Hpat.
  destruct (hubLogin w dockerUsername accessToken) as [jwt|]; [|done].
  destruct (utilsEncrypt w accessToken) as [[enc iv]|]; [|done].
  intros [= <- <-]. cbn [DockerAccount.EncryptedToken DockerAccount.TokenIV
                         Store.accounts Store.events Store.accountSeq].
  split; [done|]. split; [done|]. split; [by exists jwt|]. split; [done|].
  destruct (Nat.ltb 0 (length accountIDs)) eqn:Hlen.
  - cbn [Store.deleteAccounts Store.deleteEvents Store.accounts Store.events
         Store.accountSeq Store.setAccounts Store.setEvents]. done.
  - apply Nat.ltb_ge in Hlen. destruct accountIDs as [|? ?]; [|cbn in Hlen; lia].
    rewrite !filter_all; [done| |].
    + intros e _. apply negb_true_iff, bool_decide_eq_false_2. apply not_elem_of_nil.
    + intros a _. apply negb_true_iff, bool_decide_eq_false_2. apply not_elem_of_nil.
Qed.

(** ** Keys of the account table *)

Lemma fmap_insert_same {A B : Type} (f : A -> B) (l : list A) (i : nat) (x y : A) :
  l !! i = Some x -> f y = f x -> f <$> <[i := y]> l = f <$> l.
Proof.
  intros Hi Hf. rewrite list_fmap_insert, list_insert_id; [done|].
  by rewrite list_lookup_fmap, Hi, Hf.
Qed.

Lemma rewritten_fmap {B : Type} (f : DockerAccount.t -> B) (now : Z) (db db' : Store.DB)
    (accountID : Z) :
  (forall r r', Integrity.identity r' = Integrity.identity r -> f r' = f r) ->
  Integrity.rewritten now db db' accountID ->
  f <$> Store.accounts db' = f <$> Store.accounts db.
Proof.
  intros Hf [_ Hrw].
  destruct (Store.first _ _) as [[i r]|] eqn:Hfirst; [|by subst].
  destruct Hrw as (r' & -> & Hident & _).
  apply first_Some in Hfirst as (_ & _ & _ & Hi).
  eapply fmap_insert_same; [exact Hi|by apply Hf].
Qed.

Lemma rewritten_accountKeys (now : Z) (db db' : Store.DB) (accountID : Z) :
  Integrity.rewritten now db db' accountID ->
  Integrity.accountKeys db -> Integrity.accountKeys db'.
Proof.
  intros Hrw (Hid & Huser & Hname & Hseq). unfold Integrity.accountKeys.
  assert (E1 : DockerAccount.ID <$> Store.accounts db'
               = DockerAccount.ID <$> Store.accounts db).
  { apply (rewritten_fmap _ now db db' accountID); [|done].
    by intros r r' [= ? ? ? ? ? ? ?]. }
  assert (E2 : DockerAccount.UserID <$> Store.accounts db'
               = DockerAccount.UserID <$> Store.accounts db).
  { apply (rewritten_fmap _ now db db' accountID); [|done].
    by intros r r' [= ? ? ? ? ? ? ?]. }
  assert (E3 : DockerAccount.DockerUsername <$> Store.accounts db'
               = DockerAccount.DockerUsername <$> Store.accounts db).
  { apply (rewritten_fmap _ now db db' accountID); [|done].
    by intros r r' [= ? ? ? ? ? ? ?]. }
  rewrite E2, E3. split; [by rewrite E1|]. split; [done|]. split; [done|].
  apply (Forall_fmap DockerAccount.ID (fun id => id < Store.accountSeq db')).
  rewrite E1. destruct Hrw as [-> _]. by apply Forall_fmap.
Qed.

(** The rows that [ConnectAccount] leaves in the table belong neither to
    the user nor to the registry name of the request. *)
Lemma ConnectAccount_kept (accounts : list DockerAccount.t) (userID : Z)
    (dockerUsername : string) (a : DockerAccount.t) :
  let accountIDs :=
    DockerAccount.ID
      <$> List.filter (fun a => bool_decide (DockerAccount.UserID a = userID)
                                || bool_decide (DockerAccount.DockerUsername a
                                                = dockerUsername))
                      accounts in
  a ∈ List.filter (fun a => negb (bool_decide (DockerAccount.ID a ∈ accountIDs))) accounts ->
  a ∈ accounts
  /\ (DockerAccount.ID a ∉ accountIDs)
  /\ DockerAccount.UserID a <> userID
  /\ DockerAccount.DockerUsername a <> dockerUsername.
Proof.
  intros accountIDs Ha. apply elem_of_filter in Ha as [Ha Hout].
  apply negb_true_iff, bool_decide_eq_false in Hout.
  split; [done|]. split; [done|].
  split; intros Heq; apply Hout; subst accountIDs;
    apply list_elem_of_fmap_2, elem_of_filter; (split; [done|]);
    apply orb_true_iff; [left|right]; by apply bool_decide_eq_true_2.
Qed.

Lemma exec_accountKeys (db : Store.DB) (s : System.Step) :
  Integrity.accountKeys db -> Integrity.accountKeys (System.exec db s).
Proof.
  intros Hinv. unfold System.exec. destruct (System.op s) as [u n t|u a|a|a|].
  - destruct (Service.ConnectAccount (System.world s) db u n t) as [db' [acc|e]] eqn:Hc;
      cbn [fst].
    2:{ apply ConnectAccount_Err in Hc. by subst. }
    apply ConnectAccount_Ok in Hc as (_ & _ & _ & _ & Hacc & Haccs & _ & Hseq).
    destruct Hinv as (Hid & Huser & Hname & Hlt).
    unfold Integrity.accountKeys. rewrite Haccs, Hseq, !fmap_app.
    set (kept := List.filter _ (Store.accounts db)) in *.
    assert (Hkept : forall a, a ∈ kept ->
              a ∈ Store.accounts db /\ DockerAccount.UserID a <> u
              /\ DockerAccount.DockerUsername a <> n).
    { intros a Ha. apply ConnectAccount_kept in Ha. tauto. }
    rewrite Forall_forall in Hlt.
    rewrite Hacc. cbn [fmap list_fmap DockerAccount.ID DockerAccount.UserID
                       DockerAccount.DockerUsername].
    split; [|split; [|split]].
    + apply NoDup_app. split; [by apply NoDup_fmap_filter|].
      split; [|apply NoDup_singleton].
      intros id Hin Hnew. apply list_elem_of_singleton in Hnew. subst id.
      apply list_elem_of_fmap in Hin as (a & Heq & Ha).
      apply Hkept in Ha as [Ha _]. specialize (Hlt a Ha). cbn in Hlt. lia.
    + apply NoDup_app. split; [by apply NoDup_fmap_filter|].
      split; [|apply NoDup_singleton].
      intros id Hin Hnew. apply list_elem_of_singleton in Hnew. subst id.
      apply list_elem_of_fmap in Hin as (a & Heq & Ha).
      apply Hkept in Ha as (_ & Hu & _). done.
    + apply NoDup_app. split; [by apply NoDup_fmap_filter|].
      split; [|apply NoDup_singleton].
      intros id Hin Hnew. apply list_elem_of_singleton in Hnew. subst id.
      apply list_elem_of_fmap in Hin as (a & Heq & Ha).
      apply Hkept in Ha as (_ & _ & Hu). done.
    + apply Forall_app. split.
      * apply Forall_forall. intros a Ha. apply Hkept in Ha as [Ha _].
        specialize (Hlt a Ha). cbn in Hlt. lia.
      * apply Forall_singleton. cbn. lia.
  - destruct Hinv as (Hid & Huser & Hname & Hlt).
    unfold Service.DisconnectAccount.
    destruct (Nat.eqb _ _); cbn [fst Store.deleteAccounts Store.deleteEvents Store.events
                                 Store.accounts Store.accountSeq
                                 Store.setAccounts Store.setEvents];
      (split; [|split; [|split]]); try (by apply NoDup_fmap_filter);
      by apply Forall_filter.
  - apply (rewritten_accountKeys (System.clock s) db _ a); [|done].
    apply SyncActivity_rewritten.
  - apply (rewritten_accountKeys (System.clock s) db _ a); [|done].
    apply SyncActivityH_rewritten.
  - exact Hinv.
Qed.

Lemma reachable_accountKeys (db : Store.DB) :
  System.Reachable db -> Integrity.accountKeys db.
Proof.
  intros [steps ->]. unfold System.run.
  assert (H : forall db0, Integrity.accountKeys db0 ->
                Integrity.accountKeys (fold_left System.exec steps db0)).
  { induction steps as [|s steps IH]; intros db0 H0; [done|].
    cbn [fold_left]. apply IH. by apply exec_accountKeys. }
  apply H. repeat split; constructor.
Qed.

(** ** Referential integrity and the dates of the events *)

Lemma exec_noOrphans (db : Store.DB) (s : System.Step) :
  Integrity.noOrphans db -> Integrity.noOrphans (System.exec db s).
Proof.
  unfold Integrity.noOrphans. intros Hinv.
  unfold System.exec. destruct (System.op s) as [u n t|u a|a|a|].
  - destruct (Service.ConnectAccount (System.world s) db u n t) as [db' [acc|e]] eqn:Hc;
      cbn [fst].
    2:{ apply ConnectAccount_Err in Hc. by subst. }
    apply ConnectAccount_Ok in Hc as (_ & _ & _ & _ & _ & Haccs & Hev & _).
    rewrite Haccs, Hev, fmap_app. rewrite Forall_forall in Hinv.
    apply Forall_forall. intros e He. apply elem_of_filter in He as [He Hout].
    apply elem_of_app. left.
    apply Hinv, list_elem_of_fmap in He as (a & Heq & Ha).
    rewrite Heq. apply list_elem_of_fmap_2, elem_of_filter. split; [done|].
    by rewrite <- Heq.
  - unfold Service.DisconnectAccount. rewrite Forall_forall in Hinv.
    assert (H : forall e,
              e ∈ List.filter
                    (fun e => negb (bool_decide (ActivityEvent.DockerAccountID e = a)))
                    (Store.events db) ->
              ActivityEvent.DockerAccountID e
              ∈ DockerAccount.ID
                  <$> List.filter
                        (fun r => negb (bool_decide (DockerAccount.ID r = a)
                                        && bool_decide (DockerAccount.UserID r = u)))
                        (Store.accounts db)).
    { intros e He. apply elem_of_filter in He as [He Hout].
      apply negb_true_iff, bool_decide_eq_false in Hout.
      apply Hinv, list_elem_of_fmap in He as (r & Heq & Hr).
      rewrite Heq. apply list_elem_of_fmap_2, elem_of_filter. split; [done|].
      apply negb_true_iff, andb_false_iff. left. apply bool_decide_eq_false_2. congruence. }
    destruct (Nat.eqb _ _); cbn [fst Store.deleteAccounts Store.deleteEvents Store.events
                                 Store.accounts Store.setAccounts Store.setEvents];
      by apply Forall_forall.
  - pose proof (SyncActivity_rewritten (System.world s) (System.clock s) db a) as Hrw.
    rewrite (rewritten_fmap DockerAccount.ID _ _ _ _
               ltac:(by intros r r' [= ? ? ? ? ? ? ?]) Hrw).
    destruct (Store.firstAccountByID db a) as [account|] eqn:Hload.
    2:{ unfold Service.SyncActivity, Service.syncBegin. by rewrite Hload. }
    apply (SyncActivity_events_preserves
             (Forall (fun e => ActivityEvent.DockerAccountID e
                               ∈ DockerAccount.ID <$> Store.accounts db))); [|done].
    intros d acc t repo tag Hacc Hd. apply createActivity_Forall; [done| |done].
    intros cnt. cbn. rewrite Hacc.
    unfold Store.firstAccountByID in Hload.
    destruct (Store.first _ _) as [[i r]|] eqn:Hfirst; [|done].
    apply first_Some in Hfirst as (_ & Hr & _ & Hi). apply bool_decide_eq_true in Hr.
    rewrite <- Hr. by eapply list_elem_of_fmap_2, list_elem_of_lookup_2.
  - pose proof (SyncActivityH_rewritten (System.world s) (System.clock s) db a) as Hrw.
    rewrite (rewritten_fmap DockerAccount.ID _ _ _ _
               ltac:(by intros r r' [= ? ? ? ? ? ? ?]) Hrw).
    destruct (Store.firstAccountByID db a) as [account|] eqn:Hload.
    2:{ unfold ServiceH.SyncActivity, ServiceH.syncBegin. by rewrite Hload. }
    apply (SyncActivity_events_preserves
             (Forall (fun e => ActivityEvent.DockerAccountID e
                               ∈ DockerAccount.ID <$> Store.accounts db))); [|done].
    intros d acc t repo tag Hacc Hd. apply createActivity_Forall; [done| |done].
    intros cnt. cbn. rewrite Hacc.
    unfold Store.firstAccountByID in Hload.
    destruct (Store.first _ _) as [[i r]|] eqn:Hfirst; [|done].
    apply first_Some in Hfirst as (_ & Hr & _ & Hi). apply bool_decide_eq_true in Hr.
    rewrite <- Hr. by eapply list_elem_of_fmap_2, list_elem_of_lookup_2.
  - unfold Worker.cleanupOldData. cbn [Store.deleteEvents Store.events Store.accounts
                                       Store.setEvents]. by apply Forall_filter.
Qed.

Lemma exec_datedAtMidnight (db : Store.DB) (s : System.Step) :
  Integrity.datedAtMidnight db -> Integrity.datedAtMidnight (System.exec db s).
Proof.
  unfold Integrity.datedAtMidnight. intros Hinv.
  unfold System.exec. destruct (System.op s) as [u n t|u a|a|a|].
  - destruct (Service.ConnectAccount (System.world s) db u n t) as [db' [acc|e]] eqn:Hc;
      cbn [fst].
    2:{ apply ConnectAccount_Err in Hc. by subst. }
    apply ConnectAccount_Ok in Hc as (_ & _ & _ & _ & _ & _ & -> & _).
    by apply Forall_filter.
  - unfold Service.DisconnectAccount.
    destruct (Nat.eqb _ _); cbn [fst Store.deleteAccounts Store.deleteEvents Store.events
                                 Store.setAccounts Store.setEvents];
      by apply Forall_filter.
  - apply (SyncActivity_events_preserves
             (Forall (fun e => ActivityEvent.EventDate e mod Time.secondsPerDay = 0)));
      [|done].
    intros d acc t repo tag _ Hd. apply createActivity_Forall; [done| |done].
    intros cnt. cbn. unfold Time.midnightUTC. apply Z.mod_mul. done.
  - apply (SyncActivity_events_preserves
             (Forall (fun e => ActivityEvent.EventDate e mod Time.secondsPerDay = 0)));
      [|done].
    intros d acc t repo tag _ Hd. apply createActivity_Forall; [done| |done].
    intros cnt. cbn. unfold Time.midnightUTC. apply Z.mod_mul. done.
  - unfold Worker.cleanupOldData. cbn [Store.deleteEvents Store.events Store.setEvents].
    by apply Forall_filter.
Qed.

Lemma reachable_noOrphans (db : Store.DB) :
  System.Reachable db -> Integrity.noOrphans db.
Proof.
  intros [steps ->]. unfold System.run.
  assert (H : forall db0, Integrity.noOrphans db0 ->
                Integrity.noOrphans (fold_left System.exec steps db0)).
  { induction steps as [|s steps IH]; intros db0 H0; [done|].
    cbn [fold_left]. apply IH. by apply exec_noOrphans. }
  apply H. constructor.
Qed.

Lemma reachable_datedAtMidnight (db : Store.DB) :
  System.Reachable db -> Integrity.datedAtMidnight db.
Proof.
  intros [steps ->]. unfold System.run.
  assert (H : forall db0, Integrity.datedAtMidnight db0 ->
                Integrity.datedAtMidnight (fold_left System.exec steps db0)).
  { induction steps as [|s steps IH]; intros db0 H0; [done|].
    cbn [fold_left]. apply IH. by apply exec_datedAtMidnight. }
  apply H. constructor.
Qed.

(** ** Connecting and disconnecting an account *)

Lemma filter_filter_none {A : Type} (c1 c2 : A -> bool) (l : list A) :
  (forall x, x ∈ l -> c2 x = true -> c1 x = false) ->
  List.filter c1 (List.filter c2 l) = [].
Proof.
  intros Hx. induction l as [|x l IH]; [done|].
  cbn [List.filter]. destruct (c2 x) eqn:H2.
  - cbn [List.filter]. rewrite (Hx x) by (done || left). apply IH.
    intros y Hy. apply Hx. by right.
  - apply IH. intros y Hy. apply Hx. by right.
Qed.

Lemma filter_filter_same {A : Type} (c1 c2 : A -> bool) (l : list A) :
  (forall x, x ∈ l -> c1 x = true -> c2 x = true) ->
  List.filter c1 (List.filter c2 l) = List.filter c1 l.
Proof.
  intros Hx. induction l as [|x l IH]; [done|].
  assert (IH' : List.filter c1 (List.filter c2 l) = List.filter c1 l).
  { apply IH. intros y Hy. apply Hx. by right. }
  cbn [List.filter]. destruct (c1 x) eqn:H1.
  - rewrite (Hx x) by (done || left). cbn [List.filter]. by rewrite H1, IH'.
  - destruct (c2 x); [|done]. cbn [List.filter]. by rewrite H1.
Qed.

(** After a successful [ConnectAccount] the new row is the only one of
    the user and the only one of the registry name. *)
Lemma ConnectAccount_only (w : World) (db db' : Store.DB) (userID : Z)
    (dockerUsername accessToken : string) (account : DockerAccount.t) :
  Service.ConnectAccount w db userID dockerUsername accessToken = (db', Ok account) ->
  Service.GetDockerAccount db' userID = Ok account
  /\ Service.GetDockerAccountByUsername db' dockerUsername = Ok account
  /\ List.filter (fun a => bool_decide (DockerAccount.UserID a = userID)) (Store.accounts db')
     = [account]
  /\ List.filter (fun a => bool_decide (DockerAccount.DockerUsername a = dockerUsername))
                 (Store.accounts db')
     = [account].
Proof.
  intros Hc. apply ConnectAccount_Ok in Hc as (_ & _ & _ & _ & Hacc & Haccs & _ & _).
  set (accountIDs := DockerAccount.ID <$> _) in *.
  set (kept := List.filter (fun a => negb (bool_decide (DockerAccount.ID a ∈ accountIDs)))
                           (Store.accounts db)) in *.
  assert (Hkept : forall a, a ∈ kept ->
            DockerAccount.UserID a <> userID
            /\ DockerAccount.DockerUsername a <> dockerUsername).
  { intros a Ha. unfold kept, accountIDs in Ha. apply ConnectAccount_kept in Ha. tauto. }
  assert (Hnone1 : List.filter (fun a => bool_decide (DockerAccount.UserID a = userID)) kept
                   = []).
  { apply first_None, list_find_None, Forall_forall. intros a Ha Hu.
    apply bool_decide_eq_true in Hu. by apply Hkept in Ha as [? _]. }
  assert (Hnone2 : List.filter
                     (fun a => bool_decide (DockerAccount.DockerUsername a = dockerUsername))
                     kept = []).
  { apply first_None, list_find_None, Forall_forall. intros a Ha Hu.
    apply bool_decide_eq_true in Hu. by apply Hkept in Ha as [_ ?]. }
  assert (Hk1 : bool_decide (DockerAccount.UserID account = userID) = true).
  { apply bool_decide_eq_true_2. by rewrite Hacc. }
  assert (Hk2 : bool_decide (DockerAccount.DockerUsername account = dockerUsername) = true).
  { apply bool_decide_eq_true_2. by rewrite Hacc. }
  split.
  { unfold Service.GetDockerAccount. rewrite Haccs.
    by rewrite (first_app_new _ kept account Hnone1 Hk1). }
  split.
  { unfold Service.GetDockerAccountByUsername. rewrite Haccs.
    by rewrite (first_app_new _ kept account Hnone2 Hk2). }
  split.
  { rewrite Haccs, List.filter_app, Hnone1. cbn [List.filter]. by rewrite Hk1. }
  rewrite Haccs, List.filter_app, Hnone2. cbn [List.filter]. by rewrite Hk2.
Qed.

(** X8. A successful [ConnectAccount] was validated by the registry, and
    it leaves exactly one account for the user and one for the registry
    name, the new one, which both lookups return; the events of the
    accounts it replaced are deleted and those of the other accounts are
    kept. *)
Theorem ConnectAccount_replaces (w : World) (db db' : Store.DB) (userID : Z)
    (dockerUsername accessToken : string) (account : DockerAccount.t) :
  Service.ConnectAccount w db userID dockerUsername accessToken = (db', Ok account) ->
  Service.validateUsername w dockerUsername = Ok tt
  /\ (exists jwt, Service.login w dockerUsername accessToken = Ok jwt)
  /\ Service.GetDockerAccount db' userID = Ok account
  /\ Service.GetDockerAccountByUsername db' dockerUsername = Ok account
  /\ List.filter (fun a => bool_decide (DockerAccount.UserID a = userID)) (Store.accounts db')
     = [account]
  /\ List.filter (fun a => bool_decide (DockerAccount.DockerUsername a = dockerUsername))
                 (Store.accounts db')
     = [account]
  /\ (DockerAccount.IsActive account = true /\ DockerAccount.AutoRefresh account = true
      /\ DockerAccount.SyncInProgress account = false
      /\ DockerAccount.LastSyncAt account = None)
  /\ (forall old, old ∈ Store.accounts db ->
         DockerAccount.UserID old = userID \/ DockerAccount.DockerUsername old = dockerUsername ->
         Integrity.eventsOf (DockerAccount.ID old) db' = [])
  /\ (forall id,
         (forall old, old ∈ Store.accounts db -> DockerAccount.ID old = id ->
            DockerAccount.UserID old <> userID
            /\ DockerAccount.DockerUsername old <> dockerUsername) ->
         Integrity.eventsOf id db' = Integrity.eventsOf id db).
Proof.
  intros Hc. pose proof (ConnectAccount_only _ _ _ _ _ _ _ Hc) as (H1 & H2 & H3 & H4).
  apply ConnectAccount_Ok in Hc
    as (Huser & Hpat & [jwt Hlogin] & _ & Hacc & Haccs & Hev & _).
  split; [done|]. split.
  { exists jwt. unfold Service.login. by rewrite bool_decide_eq_false_2. }
  do 4 (split; [done|]).
  split; [by rewrite Hacc|].
  unfold Integrity.eventsOf. rewrite Hev. split.
  - intros old Hold Hstale. apply filter_filter_none.
    intros e _ Hout. apply bool_decide_eq_false_2. intros Hid.
    apply negb_true_iff, bool_decide_eq_false in Hout. apply Hout. rewrite Hid.
    apply list_elem_of_fmap_2, elem_of_filter. split; [done|].
    apply orb_true_iff. destruct Hstale; [left|right]; by apply bool_decide_eq_true_2.
  - intros id Hid. apply filter_filter_same.
    intros e _ He. apply bool_decide_eq_true in He.
    apply negb_true_iff, bool_decide_eq_false_2. intros Hin.
    apply list_elem_of_fmap in Hin as (old & Heq & Hold).
    apply elem_of_filter in Hold as [Hold Hstale].
    destruct (Hid old Hold) as [Hn1 Hn2]; [congruence|].
    apply orb_true_iff in Hstale as [H|H]; apply bool_decide_eq_true in H; done.
Qed.

Lemma ConnectAccount_replaces_witness :
  Service.ConnectAccount Example.healthy Example.scenario 7 "alice" "dckr_pat_k3"
  = (Cases.reconnected, Ok Cases.aliceAgain)
  /\ Service.GetDockerAccount Cases.reconnected 7 = Ok Cases.aliceAgain
  /\ Integrity.eventsOf 1 Cases.reconnected = [].
Proof.
  split; [reflexivity|].
  pose proof (ConnectAccount_replaces Example.healthy Example.scenario Cases.reconnected
                7 "alice" "dckr_pat_k3" Cases.aliceAgain eq_refl)
    as (_ & _ & Hget & _ & _ & _ & _ & Hgone & _).
  split; [exact Hget|].
  apply (Hgone Example.alice); [left|by left].
Defined.


Lemma DisconnectAccount_db (db : Store.DB) (userID accountID : Z) :
  (Service.DisconnectAccount db userID accountID).1
  = Store.setAccounts
      (List.filter (fun a => negb (bool_decide (DockerAccount.ID a = accountID)
                                   && bool_decide (DockerAccount.UserID a = userID)))
                   (Store.accounts db))
      (Store.setEvents
         (List.filter
            (fun e => negb (bool_decide (ActivityEvent.DockerAccountID e = accountID)))
            (Store.events db)) db).
Proof. unfold Service.DisconnectAccount. by destruct (Nat.eqb _ _). Qed.

Lemma DisconnectAccount_eventsOf (db : Store.DB) (userID accountID : Z) :
  Integrity.eventsOf accountID (Service.DisconnectAccount db userID accountID).1 = []
  /\ (forall other, other <> accountID ->
        Integrity.eventsOf other (Service.DisconnectAccount db userID accountID).1
        = Integrity.eventsOf other db).
Proof.
  rewrite DisconnectAccount_db. unfold Integrity.eventsOf.
  cbn [Store.events Store.setEvents Store.setAccounts]. split.
  - apply filter_filter_none. intros e _ H. by apply negb_true_iff in H.
  - intros other Hne. apply filter_filter_same. intros e _ He.
    apply bool_decide_eq_true in He. apply negb_true_iff, bool_decide_eq_false_2. congruence.
Qed.

Lemma NoDup_fmap_eq {A B : Type} (f : A -> B) (l : list A) (x y : A) :
  NoDup (f <$> l) -> x ∈ l -> y ∈ l -> f x = f y -> x = y.
Proof.
  induction l as [|z l IH]; intros Hnd Hx Hy Hf; [by apply not_elem_of_nil in Hx|].
  cbn [fmap list_fmap] in Hnd. apply NoDup_cons in Hnd as [Hz Hnd].
  apply elem_of_cons in Hx as [->|Hx]; apply elem_of_cons in Hy as [->|Hy].
  - done.
  - exfalso. apply Hz. rewrite Hf. by apply list_elem_of_fmap_2.
  - exfalso. apply Hz. rewrite <- Hf. by apply list_elem_of_fmap_2.
  - by apply IH.
Qed.

(** X10. [DisconnectAccount] deletes every event of the account it is
    given and no other event, whoever asks; when the account is not the
    caller's it returns [ErrDockerAccountNotFound] and leaves the account
    table as it was, the events being deleted all the same. *)
Theorem DisconnectAccount_deletes_events_first (db : Store.DB) (userID accountID : Z) :
  Integrity.eventsOf accountID (Service.DisconnectAccount db userID accountID).1 = []
  /\ (forall other, other <> accountID ->
        Integrity.eventsOf other (Service.DisconnectAccount db userID accountID).1
        = Integrity.eventsOf other db)
  /\ match (Service.DisconnectAccount db userID accountID).2 with
     | Err e =>
         e = Service.ErrDockerAccountNotFound
         /\ Store.accounts (Service.DisconnectAccount db userID accountID).1
            = Store.accounts db
         /\ forall a, a ∈ Store.accounts db ->
                      DockerAccount.ID a = accountID -> DockerAccount.UserID a <> userID
     | Ok _ =>
         exists a, a ∈ Store.accounts db /\ DockerAccount.ID a = accountID
                   /\ DockerAccount.UserID a = userID
                   /\ a ∉ Store.accounts (Service.DisconnectAccount db userID accountID).1
     end.
Proof.
  pose proof (DisconnectAccount_eventsOf db userID accountID) as [Hgone Hkept].
  split; [done|]. split; [done|].
  rewrite DisconnectAccount_db. unfold Service.DisconnectAccount.
  set (hit := fun a => bool_decide (DockerAccount.ID a = accountID)
                       && bool_decide (DockerAccount.UserID a = userID)).
  cbn [Store.deleteEvents Store.deleteAccounts Store.accounts Store.events
       Store.setEvents Store.setAccounts].
  destruct (Nat.eqb _ 0) eqn:Hrows; cbn [fst snd Store.accounts Store.setAccounts].
  - apply Nat.eqb_eq, length_zero_iff_nil in Hrows. split; [done|].
    assert (Hno : forall a, a ∈ Store.accounts db -> hit a = false).
    { intros a Ha. destruct (hit a) eqn:Hhit; [|done].
      assert (Hin : a ∈ List.filter hit (Store.accounts db)) by (by apply elem_of_filter).
      rewrite Hrows in Hin. by apply not_elem_of_nil in Hin. }
    split.
    + apply filter_all. intros a Ha. specialize (Hno a Ha). unfold hit in Hno.
      by rewrite Hno.
    + intros a Ha Hid Hu. specialize (Hno a Ha). unfold hit in Hno.
      by rewrite !bool_decide_eq_true_2 in Hno.
  - apply Nat.eqb_neq in Hrows.
    destruct (List.filter hit (Store.accounts db)) as [|a rest] eqn:Hhits; [done|].
    assert (Ha : a ∈ List.filter hit (Store.accounts db)) by (rewrite Hhits; left).
    apply elem_of_filter in Ha as [Ha Hhit].
    exists a. split; [done|]. pose proof Hhit as Hhit'. unfold hit in Hhit'.
    apply andb_true_iff in Hhit' as [H1 H2]. apply bool_decide_eq_true in H1, H2.
    split; [done|]. split; [done|].
    intros Hin. apply elem_of_filter in Hin as [_ Hin]. unfold hit in Hhit.
    by rewrite Hhit in Hin.
Qed.

(** X11. In a database that the operations have built, a user who
    disconnects has no account afterwards: [DisconnectDocker] answers 404
    and changes nothing when the user has no account, and otherwise it
    deletes the user's account row and all its events, leaves the events
    of every other account alone, and a following [GetDockerAccount]
    answers 404. *)
Theorem DisconnectDocker_leaves_no_account (db : Store.DB) (userID : Z) :
  System.Reachable db ->
  match Service.GetDockerAccount db userID with
  | Err _ =>
      DockerHandler.DisconnectDocker db (Some userID)
      = (db, DockerHandler.Error Handlers.StatusNotFound "No Docker account connected")
  | Ok account =>
      exists db',
        DockerHandler.DisconnectDocker db (Some userID)
        = (db', DockerHandler.Message Handlers.StatusOK
                  "Docker account disconnected successfully")
        /\ DockerHandler.GetDockerAccount db' (Some userID)
           = DockerHandler.Error Handlers.StatusNotFound "No Docker account connected"
        /\ Store.accounts db'
           = List.filter
               (fun a => negb (bool_decide (DockerAccount.ID a = DockerAccount.ID account)))
               (Store.accounts db)
        /\ Integrity.eventsOf (DockerAccount.ID account) db' = []
        /\ forall other, other <> DockerAccount.ID account ->
                         Integrity.eventsOf other db' = Integrity.eventsOf other db
  end.
Proof.
  intros Hreach. apply reachable_accountKeys in Hreach as (Hids & Husers & _ & _).
  unfold DockerHandler.DisconnectDocker.
  destruct (Service.GetDockerAccount db userID) as [account|e] eqn:Hget; [|done].
  unfold Service.GetDockerAccount in Hget.
  destruct (Store.first _ _) as [[i r]|] eqn:Hfirst; [|done].
  injection Hget as ->.
  apply first_Some in Hfirst as (_ & Hu & _ & Hi). apply bool_decide_eq_true in Hu.
  assert (Hin : account ∈ Store.accounts db) by (by eapply list_elem_of_lookup_2).
  pose proof (DisconnectAccount_eventsOf db userID (DockerAccount.ID account)) as [Hgone Hkept].
  pose proof (DisconnectAccount_db db userID (DockerAccount.ID account)) as Hdb.
  set (hit := fun a => bool_decide (DockerAccount.ID a = DockerAccount.ID account)
                       && bool_decide (DockerAccount.UserID a = userID)) in *.
  assert (Hhit : hit account = true).
  { unfold hit. by rewrite !bool_decide_eq_true_2. }
  assert (Hres : (Service.DisconnectAccount db userID (DockerAccount.ID account)).2 = Ok tt).
  { unfold Service.DisconnectAccount. fold hit.
    cbn [Store.deleteEvents Store.accounts Store.setEvents].
    destruct (List.filter hit (Store.accounts db)) as [|a rest] eqn:Hhits; [|done].
    exfalso. assert (Ha : account ∈ List.filter hit (Store.accounts db))
      by (by apply elem_of_filter).
    rewrite Hhits in Ha. by apply not_elem_of_nil in Ha. }
  destruct (Service.DisconnectAccount db userID (DockerAccount.ID account)) as [db' res].
  cbn [fst snd] in *. subst res. exists db'. split; [done|].
  assert (Haccs : Store.accounts db'
                  = List.filter
                      (fun a => negb (bool_decide (DockerAccount.ID a
                                                   = DockerAccount.ID account)))
                      (Store.accounts db)).
  { rewrite Hdb. cbn [Store.accounts Store.setAccounts]. apply filter_ext_in.
    intros a Ha. apply list_elem_of_In in Ha. unfold hit.
    destruct (bool_decide (DockerAccount.ID a = DockerAccount.ID account)) eqn:Hid; [|done].
    apply bool_decide_eq_true in Hid.
    assert (a = account) by (by apply (NoDup_fmap_eq DockerAccount.ID (Store.accounts db))).
    subst a. by rewrite bool_decide_eq_true_2. }
  split; [|done].
  unfold DockerHandler.GetDockerAccount, Service.GetDockerAccount.
  destruct (Store.first _ (Store.accounts db')) as [[j a]|] eqn:Hagain; [|done].
  exfalso. apply first_Some in Hagain as (_ & Hua & _ & Hj).
  apply bool_decide_eq_true in Hua.
  assert (Ha : a ∈ Store.accounts db') by (by eapply list_elem_of_lookup_2).
  rewrite Haccs in Ha. apply elem_of_filter in Ha as [Ha Hout].
  assert (a = account).
  { apply (NoDup_fmap_eq DockerAccount.UserID (Store.accounts db)); [done..|congruence]. }
  subst a. by rewrite bool_decide_eq_true_2 in Hout.
Qed.

Lemma DisconnectDocker_leaves_no_account_witness :
  System.Reachable (System.run Example.history Store.empty)
  /\ match Service.GetDockerAccount (System.run Example.history Store.empty) 7 with
     | Err _ => False
     | Ok account =>
         exists db',
           DockerHandler.DisconnectDocker (System.run Example.history Store.empty) (Some 7)
           = (db', DockerHandler.Message Handlers.StatusOK
                     "Docker account disconnected successfully")
           /\ DockerHandler.GetDockerAccount db' (Some 7)
              = DockerHandler.Error Handlers.StatusNotFound "No Docker account connected"
     end.
Proof.
  assert (Hreach : System.Reachable (System.run Example.history Store.empty))
    by (exists Example.history; reflexivity).
  split; [exact Hreach|].
  pose proof (DisconnectDocker_leaves_no_account _ 7 Hreach) as H.
  destruct (Service.GetDockerAccount (System.run Example.history Store.empty) 7)
    as [account|e] eqn:Hget.
  - destruct H as (db' & H1 & H2 & _). by exists db'.
  - vm_compute in Hget. discriminate Hget.
Defined.

(** ** Invariants of the reachable databases *)

(** X12. In every database that the operations have built, the primary
    keys of the accounts are distinct and below the next key of the
    sequence, no user has two accounts and no registry name is connected
    twice. *)
Theorem reachable_account_keys (db : Store.DB) :
  System.Reachable db ->
  NoDup (DockerAccount.ID <$> Store.accounts db)
  /\ NoDup (DockerAccount.UserID <$> Store.accounts db)
  /\ NoDup (DockerAccount.DockerUsername <$> Store.accounts db)
  /\ Forall (fun a => DockerAccount.ID a < Store.accountSeq db) (Store.accounts db).
Proof. apply reachable_accountKeys. Qed.

Lemma reachable_account_keys_witness :
  System.Reachable (System.run Example.history Store.empty)
  /\ NoDup (DockerAccount.UserID <$> Store.accounts (System.run Example.history Store.empty)).
Proof.
  assert (Hreach : System.Reachable (System.run Example.history Store.empty))
    by (exists Example.history; reflexivity).
  split; [exact Hreach|].
  exact (proj1 (proj2 (reachable_account_keys _ Hreach))).
Defined.

(** X13. In every database that the operations have built, each event
    belongs to an account of the account table: deleting an account
    deletes its events, and events are only created for an account that
    was just loaded. *)
Theorem reachable_events_have_accounts (db : Store.DB) (e : ActivityEvent.t) :
  System.Reachable db ->
  e ∈ Store.events db ->
  exists account, Store.firstAccountByID db (ActivityEvent.DockerAccountID e) = Some account
                  /\ account ∈ Store.accounts db.
Proof.
  intros Hreach He. apply reachable_noOrphans in Hreach.
  unfold Integrity.noOrphans in Hreach. rewrite Forall_forall in Hreach.
  apply Hreach, list_elem_of_fmap in He as (a & Heq & Ha).
  unfold Store.firstAccountByID.
  destruct (Store.first _ _) as [[i r]|] eqn:Hfirst.
  - exists r. split; [done|]. apply first_Some in Hfirst as (_ & _ & _ & Hi).
    by eapply list_elem_of_lookup_2.
  - exfalso. unfold Store.first in Hfirst. rewrite list_find_None, Forall_forall in Hfirst.
    apply (Hfirst a Ha). by apply bool_decide_eq_true_2.
Qed.

Lemma reachable_events_have_accounts_witness :
  (System.Reachable (System.run Example.history Store.empty)
   /\ Example.pushes (Example.jan1 + 2) 1
      ∈ Store.events (System.run Example.history Store.empty))
  /\ exists account,
       Store.firstAccountByID (System.run Example.history Store.empty) 1 = Some account
       /\ account ∈ Store.accounts (System.run Example.history Store.empty).
Proof.
  assert (Hreach : System.Reachable (System.run Example.history Store.empty))
    by (exists Example.history; reflexivity).
  assert (Hin : Example.pushes (Example.jan1 + 2) 1
                ∈ Store.events (System.run Example.history Store.empty))
    by (vm_compute; left).
  split; [by split|].
  exact (reachable_events_have_accounts _ _ Hreach Hin).
Defined.

(** X14. In every database that the operations have built, every event
    is dated at midnight UTC of its day: truncating a stored date to its
    day gives the date back. *)
Theorem reachable_events_dated_at_midnight (db : Store.DB) (e : ActivityEvent.t) :
  System.Reachable db ->
  e ∈ Store.events db ->
  Time.truncateToDay (ActivityEvent.EventDate e) = ActivityEvent.EventDate e.
Proof.
  intros Hreach He. apply reachable_datedAtMidnight in Hreach.
  unfold Integrity.datedAtMidnight in Hreach. rewrite Forall_forall in Hreach.
  specialize (Hreach e He). revert Hreach.
  unfold Time.truncateToDay, Time.midnightUTC, Time.dayOf, Time.secondsPerDay. div_lia.
Qed.

Lemma reachable_events_dated_at_midnight_witness :
  (System.Reachable (System.run Example.history Store.empty)
   /\ Example.pushes (Example.jan1 + 2) 1
      ∈ Store.events (System.run Example.history Store.empty))
  /\ Time.truncateToDay (ActivityEvent.EventDate (Example.pushes (Example.jan1 + 2) 1))
     = ActivityEvent.EventDate (Example.pushes (Example.jan1 + 2) 1).
Proof.
  assert (Hreach : System.Reachable (System.run Example.history Store.empty))
    by (exists Example.history; reflexivity).
  assert (Hin : Example.pushes (Example.jan1 + 2) 1
                ∈ Store.events (System.run Example.history Store.empty))
    by (vm_compute; left).
  split; [by split|].
  exact (reachable_events_dated_at_midnight _ _ Hreach Hin).
Defined.

(** ** What a run leaves alone *)

Lemma rewritten_other (now : Z) (db db' : Store.DB) (accountID other : Z) :
  Integrity.rewritten now db db' accountID -> other <> accountID ->
  Store.firstAccountByID db' other = Store.firstAccountByID db other.
Proof.
  intros [_ Hrw] Hne. unfold Store.firstAccountByID.
  destruct (Store.first _ (Store.accounts db)) as [[i r]|] eqn:Hfirst; [|by subst].
  destruct Hrw as (r' & -> & Hident & _).
  apply first_Some in Hfirst as (_ & Hr & _ & Hi). apply bool_decide_eq_true in Hr.
  f_equal. eapply first_insert_out; [exact Hi| |].
  - apply bool_decide_eq_false_2. congruence.
  - apply bool_decide_eq_false_2. injection Hident as -> _ _ _ _ _ _. congruence.
Qed.

Lemma rewritten_same (now : Z) (db db' : Store.DB) (accountID : Z) (r : DockerAccount.t) :
  Integrity.rewritten now db db' accountID ->
  Store.firstAccountByID db accountID = Some r ->
  exists r', Store.firstAccountByID db' accountID = Some r'
             /\ Integrity.identity r' = Integrity.identity r
             /\ DockerAccount.SyncInProgress r' = false
             /\ DockerAccount.LastSyncAt r' = Some now.
Proof.
  intros [_ Hrw]. unfold Store.firstAccountByID.
  destruct (Store.first _ (Store.accounts db)) as [[i r0]|] eqn:Hfirst; [|done].
  intros [= <-]. destruct Hrw as (r' & -> & Hident & Hflag & Hat).
  exists r'. split; [|done].
  erewrite first_insert; [done|exact Hfirst|].
  apply first_Some in Hfirst as (_ & Hr & _). apply bool_decide_eq_true in Hr.
  apply bool_decide_eq_true_2. injection Hident as -> _ _ _ _ _ _. done.
Qed.

Lemma SyncActivity_eventsOf (w : World) (now : Z) (db : Store.DB) (accountID other : Z) :
  other <> accountID ->
  Integrity.eventsOf other (Service.SyncActivity w now db accountID).1
  = Integrity.eventsOf other db
  /\ Integrity.eventsOf other (ServiceH.SyncActivity w now db accountID).1
     = Integrity.eventsOf other db.
Proof.
  intros Hne.
  apply (SyncActivity_events_preserves
           (fun events =>
              List.filter (fun e => bool_decide (ActivityEvent.DockerAccountID e = other))
                          events
              = Integrity.eventsOf other db)); [|done].
  intros d account t repo tag Hid Hd.
  pose proof (createActivity_eventsOf d account EventTypePush t repo tag other) as Hc.
  unfold Integrity.eventsOf in Hc at 1 2. rewrite Hc; [done|congruence].
Qed.

(** X15. A run of [SyncActivity], in either copy, touches one account
    only: the row of every other account and the events of every other
    account are as before, and of the account itself only the sync
    columns change. *)
Theorem SyncActivity_touches_one_account (w : World) (now : Z) (db : Store.DB)
    (accountID : Z) :
  let after := (Service.SyncActivity w now db accountID).1 in
  let afterH := (ServiceH.SyncActivity w now db accountID).1 in
  (forall other, other <> accountID ->
     Store.firstAccountByID after other = Store.firstAccountByID db other
     /\ Store.firstAccountByID afterH other = Store.firstAccountByID db other
     /\ Integrity.eventsOf other after = Integrity.eventsOf other db
     /\ Integrity.eventsOf other afterH = Integrity.eventsOf other db)
  /\ (forall account, Store.firstAccountByID db accountID = Some account ->
        exists stored storedH,
          Store.firstAccountByID after accountID = Some stored
          /\ Store.firstAccountByID afterH accountID = Some storedH
          /\ Integrity.identity stored = Integrity.identity account
          /\ Integrity.identity storedH = Integrity.identity account)
  /\ length (Store.accounts after) = length (Store.accounts db)
  /\ length (Store.accounts afterH) = length (Store.accounts db).
Proof.
  intros after afterH.
  pose proof (SyncActivity_rewritten w now db accountID) as Hrw.
  pose proof (SyncActivityH_rewritten w now db accountID) as HrwH.
  fold after in Hrw. fold afterH in HrwH.
  split; [|split].
  - intros other Hne.
    destruct (SyncActivity_eventsOf w now db accountID other Hne) as [He HeH].
    split; [by eapply rewritten_other|]. split; [by eapply rewritten_other|]. done.
  - intros account Hload.
    destruct (rewritten_same _ _ _ _ _ Hrw Hload) as (r & H1 & H2 & _).
    destruct (rewritten_same _ _ _ _ _ HrwH Hload) as (rH & H1H & H2H & _).
    by exists r, rH.
  - pose proof (rewritten_fmap DockerAccount.ID now db after accountID
                  ltac:(by intros r r' [= ? ? ? ? ? ? ?]) Hrw) as E.
    pose proof (rewritten_fmap DockerAccount.ID now db afterH accountID
                  ltac:(by intros r r' [= ? ? ? ? ? ? ?]) HrwH) as EH.
    apply (f_equal length) in E, EH. rewrite !length_fmap in E, EH. done.
Qed.

(** ** The scheduled sweep *)

Lemma visitAccount_cases (visit : SyncWorker.Visit) (db : Store.DB)
    (account : DockerAccount.t) :
  SyncWorker.visitAccount visit db account = db
  \/ SyncWorker.visitAccount visit db account
     = (Service.SyncActivity (SyncWorker.met visit) (SyncWorker.endedAt visit) db
          (DockerAccount.ID account)).1.
Proof.
  unfold SyncWorker.visitAccount.
  destruct (DockerAccount.SyncInProgress account); [by left|].
  destruct (DockerAccount.LastSyncAt account) as [t|]; [|by right].
  destruct (_ <? _); [by left|by right].
Qed.

Lemma visitAccount_other (visit : SyncWorker.Visit) (db : Store.DB)
    (account : DockerAccount.t) (other : Z) :
  other <> DockerAccount.ID account ->
  Store.firstAccountByID (SyncWorker.visitAccount visit db account) other
  = Store.firstAccountByID db other
  /\ Integrity.eventsOf other (SyncWorker.visitAccount visit db account)
     = Integrity.eventsOf other db.
Proof.
  intros Hne. destruct (visitAccount_cases visit db account) as [->| ->]; [done|].
  split.
  - eapply rewritten_other; [apply SyncActivity_rewritten|done].
  - by apply SyncActivity_eventsOf.
Qed.

Lemma sweep_fold_frame (visits : Z -> SyncWorker.Visit) (l : list DockerAccount.t)
    (id : Z) (db : Store.DB) :
  (forall x, x ∈ l -> DockerAccount.ID x = id ->
     forall d, SyncWorker.visitAccount (visits (DockerAccount.ID x)) d x = d) ->
  let after :=
    fold_left (fun db account =>
                 SyncWorker.visitAccount (visits (DockerAccount.ID account)) db account)
              l db in
  Store.firstAccountByID after id = Store.firstAccountByID db id
  /\ Integrity.eventsOf id after = Integrity.eventsOf id db.
Proof.
  revert db. induction l as [|x l IH]; intros db Hskip; [done|].
  cbn [fold_left]. cbn zeta.
  destruct (IH (SyncWorker.visitAccount (visits (DockerAccount.ID x)) db x)) as [H1 H2].
  { intros y Hy. apply Hskip. by right. }
  cbn zeta in H1, H2. rewrite H1, H2.
  destruct (decide (DockerAccount.ID x = id)) as [Heq|Hne].
  - by rewrite (Hskip x ltac:(left) Heq db).
  - apply visitAccount_other. congruence.
Qed.

Lemma firstAccountByID_NoDup (db : Store.DB) (account : DockerAccount.t) :
  NoDup (DockerAccount.ID <$> Store.accounts db) ->
  account ∈ Store.accounts db ->
  Store.firstAccountByID db (DockerAccount.ID account) = Some account.
Proof.
  intros Hnd Hin. unfold Store.firstAccountByID.
  destruct (Store.first _ _) as [[i r]|] eqn:Hfirst.
  - apply first_Some in Hfirst as (_ & Hr & _ & Hi). apply bool_decide_eq_true in Hr.
    cbn. f_equal. apply (NoDup_fmap_eq DockerAccount.ID (Store.accounts db)); try done.
    by eapply list_elem_of_lookup_2.
  - exfalso. unfold Store.first in Hfirst. rewrite list_find_None, Forall_forall in Hfirst.
    apply (Hfirst account Hin). by apply bool_decide_eq_true_2.
Qed.

(** X16. The sweep leaves alone every account that is inactive, or not
    refreshed automatically, or flagged as being synchronised, or that was
    synchronised less than four hours before the sweep came to it: its
    row and its events are after the sweep what they were before. *)
Theorem sweep_leaves_skipped_accounts (visits : Z -> SyncWorker.Visit) (db : Store.DB)
    (account : DockerAccount.t) :
  NoDup (DockerAccount.ID <$> Store.accounts db) ->
  account ∈ Store.accounts db ->
  DockerAccount.IsActive account = false
  \/ DockerAccount.AutoRefresh account = false
  \/ DockerAccount.SyncInProgress account = true
  \/ (exists lastSyncAt,
        DockerAccount.LastSyncAt account = Some lastSyncAt
        /\ SyncWorker.checkedAt (visits (DockerAccount.ID account)) - lastSyncAt
           < SyncWorker.fourHours) ->
  Store.firstAccountByID (SyncWorker.syncAllAccounts visits db) (DockerAccount.ID account)
  = Some account
  /\ Integrity.eventsOf (DockerAccount.ID account) (SyncWorker.syncAllAccounts visits db)
     = Integrity.eventsOf (DockerAccount.ID account) db.
Proof.
  intros Hnd Hin Hskip. unfold SyncWorker.syncAllAccounts.
  rewrite <- (firstAccountByID_NoDup db account Hnd Hin).
  apply sweep_fold_frame. intros x Hx Hid d.
  apply elem_of_filter in Hx as [Hx Hon].
  assert (x = account) by (by apply (NoDup_fmap_eq DockerAccount.ID (Store.accounts db))).
  subst x. apply andb_true_iff in Hon as [Hact Hauto].
  unfold SyncWorker.visitAccount.
  destruct Hskip as [H|[H|[H|(t & Ht & Hlt)]]]; try congruence.
  - by rewrite H.
  - destruct (DockerAccount.SyncInProgress account); [done|].
    rewrite Ht. by rewrite (proj2 (Z.ltb_lt _ _) Hlt).
Qed.



(** X18. A sweep is a sequence of runs of [SyncActivity]: the database
    after it is again one that the operations build from the empty one,
    so that the invariants of these databases hold after every sweep. *)
Theorem sweep_is_a_history (visits : Z -> SyncWorker.Visit) (db : Store.DB) :
  System.Reachable db -> System.Reachable (SyncWorker.syncAllAccounts visits db).
Proof.
  intros [steps ->]. unfold SyncWorker.syncAllAccounts.
  generalize (List.filter (fun a => DockerAccount.IsActive a && DockerAccount.AutoRefresh a)
                (Store.accounts (System.run steps Store.empty))).
  intros l. revert steps. induction l as [|x l IH]; intros steps.
  - by exists steps.
  - cbn [fold_left].
    destruct (visitAccount_cases (visits (DockerAccount.ID x))
                (System.run steps Store.empty) x) as [->| ->]; [apply IH|].
    specialize (IH (steps ++ [{| System.world := SyncWorker.met (visits (DockerAccount.ID x));
                                 System.clock := SyncWorker.endedAt (visits (DockerAccount.ID x));
                                 System.op := System.Sync (DockerAccount.ID x) |}])).
    unfold System.run in IH at 1. rewrite fold_left_app in IH. exact IH.
Qed.

Lemma sweep_leaves_skipped_accounts_witness :
  (NoDup (DockerAccount.ID <$> Store.accounts Cases.twoUsers)
   /\ Cases.bob ∈ Store.accounts Cases.twoUsers
   /\ DockerAccount.AutoRefresh Cases.bob = false)
  /\ Store.firstAccountByID (SyncWorker.syncAllAccounts Cases.sweepAtNoon Cases.twoUsers) 2
     = Some Cases.bob
  /\ Integrity.eventsOf 2 (SyncWorker.syncAllAccounts Cases.sweepAtNoon Cases.twoUsers)
     = Integrity.eventsOf 2 Cases.twoUsers.
Proof.
  assert (Hnd : NoDup (DockerAccount.ID <$> Store.accounts Cases.twoUsers)).
  { cbn. apply NoDup_cons. split; [|apply NoDup_singleton].
    intros H. apply list_elem_of_singleton in H. discriminate H. }
  assert (Hin : Cases.bob ∈ Store.accounts Cases.twoUsers) by (right; left).
  split; [done|].
  apply (sweep_leaves_skipped_accounts Cases.sweepAtNoon Cases.twoUsers Cases.bob Hnd Hin).
  right. left. reflexivity.
Defined.


Lemma sweep_is_a_history_witness :
  System.Reachable (System.run Example.history Store.empty)
  /\ System.Reachable
       (SyncWorker.syncAllAccounts Cases.sweepAtNoon (System.run Example.history Store.empty)).
Proof.
  assert (Hreach : System.Reachable (System.run Example.history Store.empty))
    by (exists Example.history; reflexivity).
  split; [exact Hreach|].
  exact (sweep_is_a_history Cases.sweepAtNoon _ Hreach).
Defined.

(** ** The retention of one year *)

(** One calendar year back is 365 or 366 days back. *)
Lemma yearBefore_bounds (n : Z) :
  let '(y, m, d) := Time.civilFromDays n in
  n - 366 <= Time.daysFromCivil (y + -1) m d <= n - 365.
Proof.
  unfold Time.civilFromDays.
  set (z := n + 719468).
  set (era := z / 146097). set (doe := z mod 146097).
  set (yoe := (doe - doe / 1460 + doe / 36524 - doe / 146096) / 365).
  set (doy := doe - (365 * yoe + yoe / 4 - yoe / 100)).
  set (mp := (5 * doy + 2) / 153).
  cbv zeta.
  assert (Hdoe : 0 <= doe < 146097) by (apply Z.mod_pos_bound; lia).
  assert (Hz : z = 146097 * era + doe) by (apply Z.div_mod; lia).
  assert (Hyoe : 0 <= yoe <= 399 /\ 0 <= doy <= 365).
  { subst yoe doy. clearbody doe. clear -Hdoe. div_lia. }
  assert (Hmp : 0 <= mp <= 11) by (subst mp; clearbody doy; div_lia).
  assert (Hdoy : doe = 365 * yoe + yoe / 4 - yoe / 100 + doy) by (subst doy; lia).
  assert (Hn : n = z - 719468) by (subst z; lia).
  clearbody mp doy yoe doe era z. unfold Time.daysFromCivil. cbv zeta.
  set (m := if mp <? 10 then mp + 3 else mp - 9).
  assert (Hm : (if 2 <? m then m - 3 else m + 9) = mp).
  { subst m. destruct (mp <? 10) eqn:H10.
    - apply Z.ltb_lt in H10. rewrite (proj2 (Z.ltb_lt 2 (mp + 3))) by lia. lia.
    - apply Z.ltb_ge in H10. rewrite (proj2 (Z.ltb_ge 2 (mp - 9))) by lia. lia. }
  rewrite Hm.
  assert (Hy : (if m <=? 2
                then (if m <=? 2 then yoe + era * 400 + 1 else yoe + era * 400) + -1 - 1
                else (if m <=? 2 then yoe + era * 400 + 1 else yoe + era * 400) + -1)
               = yoe + era * 400 - 1).
  { destruct (m <=? 2); lia. }
  rewrite Hy. clearbody m. clear Hm Hy.
  destruct (decide (yoe = 0)) as [->|Hpos].
  - replace (0 + era * 400 - 1) with (399 + (era - 1) * 400) by lia.
    rewrite Z.div_add, Z_mod_plus_full by lia.
    change (399 / 400) with 0. change (399 mod 400) with 399. div_lia.
  - replace (yoe + era * 400 - 1) with (yoe - 1 + era * 400) by lia.
    rewrite Z.div_add, Z_mod_plus_full by lia.
    rewrite (Z.div_small (yoe - 1) 400), (Z.mod_small (yoe - 1) 400) by lia.
    div_lia.
Qed.

Lemma AddYears_back_bounds (t : Z) :
  t - 366 * Time.secondsPerDay <= Time.AddYears t (-1) <= t - 365 * Time.secondsPerDay.
Proof.
  pose proof (yearBefore_bounds (Time.dayOf t)) as Hb.
  unfold Time.AddYears.
  destruct (Time.civilFromDays (Time.dayOf t)) as [[y m] d].
  revert Hb. generalize (Time.daysFromCivil (y + -1) m d). intros day Hb.
  unfold Time.midnightUTC, Time.dayOf, Time.secondsPerDay in *. div_lia.
Qed.


Lemma cleanup_queryEvents (cleanedAt now endDate days : Z) (db : Store.DB)
    (accountID : Z) :
  days <= 364 -> cleanedAt <= now ->
  Service.queryEvents (Worker.cleanupOldData cleanedAt db) accountID
    (Service.startOfWindow now days)
  = Service.queryEvents db accountID (Service.startOfWindow now days)
  /\ ServiceH.queryEvents (Worker.cleanupOldData cleanedAt db) accountID
       (ServiceH.startOfWindow now days) endDate
     = ServiceH.queryEvents db accountID (ServiceH.startOfWindow now days) endDate.
Proof.
  intros Hdays Hle. pose proof (AddYears_back_bounds cleanedAt) as Hcut.
  change (ServiceH.startOfWindow now days) with (Service.startOfWindow now days).
  assert (Hstart : now - 365 * Time.secondsPerDay < Service.startOfWindow now days).
  { rewrite startOfWindow_day.
    unfold Time.midnightUTC, Time.dayOf, Time.secondsPerDay. div_lia. }
  unfold Service.queryEvents, ServiceH.queryEvents, Worker.cleanupOldData.
  cbn [Store.deleteEvents Store.events Store.setEvents].
  split; apply filter_filter_same; intros e _ He; apply negb_true_iff, Z.ltb_ge.
  - apply andb_true_iff in He as [_ He]. apply Z.leb_le in He. lia.
  - apply andb_true_iff in He as [He _]. apply andb_true_iff in He as [_ He].
    apply Z.leb_le in He. lia.
Qed.

(** X20. The clean-up does not change the series of a window of at most
    364 days whose first reading of the clock is not before it:
    [GetActivitySummary] returns for such a window what it would have
    returned without the clean-up, in both copies of the service. *)
Theorem cleanup_keeps_the_series (cleanedAt : Z) (clock : Clock.t) (db : Store.DB)
    (dockerUsername : string) (days : Z) :
  days <= 364 -> cleanedAt <= (Clock.Now clock).1 ->
  Service.GetActivitySummary (Worker.cleanupOldData cleanedAt db) clock dockerUsername days
  = Service.GetActivitySummary db clock dockerUsername days
  /\ ServiceH.GetActivitySummary (Worker.cleanupOldData cleanedAt db) clock dockerUsername
       days
     = ServiceH.GetActivitySummary db clock dockerUsername days.
Proof.
  intros Hdays Hle.
  unfold Service.GetActivitySummary, ServiceH.GetActivitySummary,
    ServiceH.GetDockerAccountByUsername, Service.GetDockerAccountByUsername.
  change (Store.accounts (Worker.cleanupOldData cleanedAt db)) with (Store.accounts db).
  destruct (Store.first _ (Store.accounts db)) as [[i account]|]; [|done].
  destruct (Clock.Now clock) as [now clock1]. cbn [fst] in Hle.
  destruct (Clock.Now clock1) as [endDate clock2].
  destruct (cleanup_queryEvents cleanedAt now endDate days db (DockerAccount.ID account)
              Hdays Hle) as [-> ->]. done.
Qed.

Lemma cleanup_keeps_the_series_witness :
  (30 <= 364 /\ Example.noon <= (Clock.Now Example.aroundNoon).1)
  /\ Service.GetActivitySummary (Worker.cleanupOldData Example.noon Example.scenario)
       Example.aroundNoon "alice" 30
     = Service.GetActivitySummary Example.scenario Example.aroundNoon "alice" 30.
Proof.
  split; [split; [lia|vm_compute; discriminate]|].
  apply (cleanup_keeps_the_series Example.noon Example.aroundNoon Example.scenario
           "alice" 30); [lia|vm_compute; discriminate].
Defined.

(** ** The series of the other accounts *)

Lemma first_insert_cond {A : Type} (cond : A -> bool) (l : list A) (i j : nat) (x y z : A) :
  l !! i = Some x -> cond y = cond x ->
  Store.first cond l = Some (j, z) ->
  exists z', Store.first cond (<[i := y]> l) = Some (j, z')
             /\ (z' = z \/ (z = x /\ z' = y)).
Proof.
  unfold Store.first.
  revert i j. induction l as [|h l IH]; intros i j Hi Hc Hfirst; [done|].
  destruct i as [|i]; cbn in Hi.
  - injection Hi as ->. change (<[0%nat := y]> (x :: l)) with (y :: l).
    cbn [list_find] in *. destruct (decide (cond x = true)) as [Hx|Hx].
    + injection Hfirst as <- <-. rewrite decide_True by congruence.
      exists y. split; [done|]. by right.
    + rewrite decide_False by congruence. exists z. split; [done|]. by left.
  - change (<[S i := y]> (h :: l)) with (h :: <[i := y]> l).
    cbn [list_find] in *. destruct (decide (cond h = true)) as [Hh|Hh].
    + injection Hfirst as <- <-. exists h. split; [done|]. by left.
    + destruct (list_find _ l) as [[j0 z0]|] eqn:Hl; [|done].
      cbn in Hfirst. injection Hfirst as <- <-.
      destruct (IH i j0 Hi Hc eq_refl) as (z' & -> & Hz').
      exists z'. split; [done|]. done.
Qed.

Lemma rewritten_byUsername (now : Z) (db db' : Store.DB) (accountID : Z)
    (dockerUsername : string) (account : DockerAccount.t) :
  Integrity.rewritten now db db' accountID ->
  Service.GetDockerAccountByUsername db dockerUsername = Ok account ->
  exists account', Service.GetDockerAccountByUsername db' dockerUsername = Ok account'
                   /\ Integrity.identity account' = Integrity.identity account.
Proof.
  intros [_ Hrw] Hget. unfold Service.GetDockerAccountByUsername in *.
  destruct (Store.first
              (fun a => bool_decide (DockerAccount.DockerUsername a = dockerUsername))
              (Store.accounts db)) as [[j acc]|] eqn:Hname; [|done].
  injection Hget as ->.
  destruct (Store.first (fun r => bool_decide (DockerAccount.ID r = accountID))
              (Store.accounts db)) as [[i r]|] eqn:Hfirst.
  2:{ subst db'. rewrite Hname. by exists account. }
  destruct Hrw as (r' & -> & Hident & _).
  apply first_Some in Hfirst as (_ & _ & _ & Hi).
  destruct (first_insert_cond
              (fun a => bool_decide (DockerAccount.DockerUsername a = dockerUsername))
              (Store.accounts db) i j r r' account Hi) as (z' & -> & Hz'); [|done|].
  { injection Hident as _ _ -> _ _ _ _. done. }
  exists z'. split; [done|]. destruct Hz' as [->|[-> ->]]; done.
Qed.

Lemma filter_andb {A : Type} (c1 c2 : A -> bool) (l : list A) :
  List.filter (fun x => c1 x && c2 x) l = List.filter c2 (List.filter c1 l).
Proof.
  induction l as [|x l IH]; [done|]. cbn [List.filter].
  destruct (c1 x); cbn [andb List.filter]; [|done]. by rewrite IH.
Qed.

Lemma summaries_frame (now : Z) (db db' : Store.DB) (accountID : Z) (clock : Clock.t)
    (dockerUsername : string) (days : Z) (account : DockerAccount.t) :
  Integrity.rewritten now db db' accountID ->
  (forall other, other <> accountID ->
     Integrity.eventsOf other db' = Integrity.eventsOf other db) ->
  Service.GetDockerAccountByUsername db dockerUsername = Ok account ->
  DockerAccount.ID account <> accountID ->
  Service.GetActivitySummary db' clock dockerUsername days
  = Service.GetActivitySummary db clock dockerUsername days
  /\ ServiceH.GetActivitySummary db' clock dockerUsername days
     = ServiceH.GetActivitySummary db clock dockerUsername days.
Proof.
  intros Hrw Hev Hget Hne.
  destruct (rewritten_byUsername _ _ _ _ _ _ Hrw Hget) as (account' & Hget' & Hident).
  assert (Hid : DockerAccount.ID account' = DockerAccount.ID account).
  { injection Hident as -> _ _ _ _ _ _. done. }
  specialize (Hev (DockerAccount.ID account) Hne). unfold Integrity.eventsOf in Hev.
  unfold Service.GetActivitySummary, ServiceH.GetActivitySummary,
    ServiceH.GetDockerAccountByUsername.
  rewrite Hget, Hget', Hid.
  destruct (Clock.Now clock) as [start clock1].
  destruct (Clock.Now clock1) as [endDate clock2]. split.
  - unfold Service.queryEvents. by rewrite !filter_andb, Hev.
  - unfold ServiceH.queryEvents.
    rewrite !(filter_andb
                (fun e => bool_decide (ActivityEvent.DockerAccountID e
                                       = DockerAccount.ID account)
                          && (ServiceH.startOfWindow start days <=? ActivityEvent.EventDate e))),
      !filter_andb. by rewrite Hev.
Qed.

(** X21. A run of [SyncActivity] for one account does not change the
    activity series of any other account: [GetActivitySummary] returns
    for the other account, with any clock and for any window, what it
    would have returned without the run; in both copies of the service. *)
Theorem SyncActivity_keeps_other_series (w : World) (now : Z) (db : Store.DB)
    (accountID : Z) (clock : Clock.t) (dockerUsername : string) (days : Z)
    (account : DockerAccount.t) :
  Service.GetDockerAccountByUsername db dockerUsername = Ok account ->
  DockerAccount.ID account <> accountID ->
  Service.GetActivitySummary (Service.SyncActivity w now db accountID).1
    clock dockerUsername days
  = Service.GetActivitySummary db clock dockerUsername days
  /\ ServiceH.GetActivitySummary (ServiceH.SyncActivity w now db accountID).1
       clock dockerUsername days
     = ServiceH.GetActivitySummary db clock dockerUsername days.
Proof.
  intros Hget Hne. split.
  - eapply (summaries_frame now db _ accountID); [apply SyncActivity_rewritten| |done..].
    intros other Hother. by apply SyncActivity_eventsOf.
  - eapply (summaries_frame now db _ accountID); [apply SyncActivityH_rewritten| |done..].
    intros other Hother. by apply SyncActivity_eventsOf.
Qed.

Lemma SyncActivity_keeps_other_series_witness :
  (Service.GetDockerAccountByUsername Cases.twoUsers "bob" = Ok Cases.bob
   /\ DockerAccount.ID Cases.bob <> 1)
  /\ Service.GetActivitySummary
       (Service.SyncActivity Example.healthy Example.noon Cases.twoUsers 1).1
       Example.aroundNoon "bob" 2
     = Service.GetActivitySummary Cases.twoUsers Example.aroundNoon "bob" 2.
Proof.
  split; [split; [reflexivity|discriminate]|].
  apply (SyncActivity_keeps_other_series Example.healthy Example.noon Cases.twoUsers 1
           Example.aroundNoon "bob" 2 Cases.bob); [reflexivity|discriminate].
Defined.

(** ** The totals of the series *)

Lemma wrap64_add_l (a b : Z) : GoInt.wrap64 (GoInt.wrap64 a + b) = GoInt.wrap64 (a + b).
Proof.
  unfold GoInt.wrap64.
  replace ((a + 2 ^ 63) mod 2 ^ 64 - 2 ^ 63 + b + 2 ^ 63)
    with ((a + 2 ^ 63) mod 2 ^ 64 + b) by lia.
  rewrite Zplus_mod_idemp_l. f_equal. f_equal. lia.
Qed.

Lemma wrap64_0 : GoInt.wrap64 0 = 0.
Proof. reflexivity. Qed.

Lemma aggregate_totalOn (st : gmap string ActivitySummary.t * Z) (e : ActivityEvent.t)
    (k : string) :
  Integrity.totalOn (Service.aggregate st e).1 k
  = if Integrity.datedOn k e
    then GoInt.add (Integrity.totalOn st.1 k) (ActivityEvent.Count e)
    else Integrity.totalOn st.1 k.
Proof.
  unfold Integrity.datedOn, Integrity.totalOn.
  destruct (bool_decide_reflect (Time.Format (ActivityEvent.EventDate e) = k)) as [<-|Hne].
  - destruct st as [m mx]. unfold Service.aggregate. cbn [fst].
    rewrite lookup_alter_eq.
    destruct (m !! Time.Format (ActivityEvent.EventDate e)) as [s|] eqn:Hs.
    + by rewrite Hs.
    + by rewrite lookup_insert_eq.
  - by rewrite aggregate_lookup_ne.
Qed.

Lemma aggregateH_totalOn (m : gmap string ActivitySummary.t) (e : ActivityEvent.t)
    (k : string) :
  Integrity.totalOn (ServiceH.aggregate m e) k
  = if Integrity.datedOn k e
    then GoInt.add (Integrity.totalOn m k) (ActivityEvent.Count e)
    else Integrity.totalOn m k.
Proof.
  unfold Integrity.datedOn, Integrity.totalOn.
  destruct (bool_decide_reflect (Time.Format (ActivityEvent.EventDate e) = k)) as [<-|Hne].
  - unfold ServiceH.aggregate. rewrite lookup_alter_eq.
    destruct (m !! Time.Format (ActivityEvent.EventDate e)) as [s|] eqn:Hs.
    + rewrite Hs. cbn. by destruct (ActivityEvent.Kind e).
    + rewrite lookup_insert_eq. cbn. by destruct (ActivityEvent.Kind e).
  - by rewrite aggregateH_lookup_ne.
Qed.

(** The total of a date after a loop of additions in 64 bits. *)
Lemma fold_totalOn {S : Type} (step : S -> ActivityEvent.t -> S)
    (dateMapOf : S -> gmap string ActivitySummary.t) (k : string) :
  (forall st e,
     Integrity.totalOn (dateMapOf (step st e)) k
     = if Integrity.datedOn k e
       then GoInt.add (Integrity.totalOn (dateMapOf st) k) (ActivityEvent.Count e)
       else Integrity.totalOn (dateMapOf st) k) ->
  forall events st,
    Integrity.totalOn (dateMapOf (fold_left step events st)) k
    = match List.filter (Integrity.datedOn k) events with
      | [] => Integrity.totalOn (dateMapOf st) k
      | dated => GoInt.wrap64 (Integrity.totalOn (dateMapOf st) k
                               + Integrity.sumCounts dated)
      end.
Proof.
  intros Hstep events. induction events as [|e events IH]; intros st; [done|].
  cbn [fold_left List.filter]. rewrite IH, Hstep.
  destruct (Integrity.datedOn k e).
  - destruct (List.filter (Integrity.datedOn k) events) as [|e' dated].
    + unfold GoInt.add. cbn. f_equal. lia.
    + unfold GoInt.add. rewrite wrap64_add_l. f_equal.
      cbn [Integrity.sumCounts foldr]. lia.
  - done.
Qed.

Lemma fold_totalOn_empty {S : Type} (step : S -> ActivityEvent.t -> S)
    (dateMapOf : S -> gmap string ActivitySummary.t) (k : string)
    (events : list ActivityEvent.t) (st : S) :
  (forall st e,
     Integrity.totalOn (dateMapOf (step st e)) k
     = if Integrity.datedOn k e
       then GoInt.add (Integrity.totalOn (dateMapOf st) k) (ActivityEvent.Count e)
       else Integrity.totalOn (dateMapOf st) k) ->
  dateMapOf st = ∅ ->
  Integrity.totalOn (dateMapOf (fold_left step events st)) k
  = GoInt.wrap64 (Integrity.sumCounts (List.filter (Integrity.datedOn k) events)).
Proof.
  intros Hstep Hempty. rewrite (fold_totalOn step dateMapOf k Hstep).
  unfold Integrity.totalOn at 1 2. rewrite Hempty, lookup_empty. cbn [fmap option_fmap option_map default].
  by destruct (List.filter _ _).
Qed.

Lemma summaryFor_TotalCount (dateMap : gmap string ActivitySummary.t) (maxCount d : Z) :
  ActivitySummary.TotalCount (Service.summaryFor dateMap maxCount d)
  = Integrity.totalOn dateMap (Time.Format d).
Proof.
  unfold Service.summaryFor, Integrity.totalOn. by destruct (dateMap !! Time.Format d).
Qed.

Lemma summaryForH_TotalCount (dateMap : gmap string ActivitySummary.t) (maxCount d : Z) :
  ActivitySummary.TotalCount (ServiceH.summaryFor dateMap maxCount d)
  = Integrity.totalOn dateMap (Time.Format d).
Proof.
  unfold ServiceH.summaryFor, Integrity.totalOn. by destruct (dateMap !! Time.Format d).
Qed.

(** X22. The total count of an entry of the series is the sum, taken in
    64 bits, of the counts of the events that the query of
    [GetActivitySummary] returned for the account and that are filed
    under the date of the entry; in both copies of the service.  The
    window is the one of the first reading of the clock; no later
    reading is earlier than that, and [days + 1] is a capacity that
    [make] accepts. *)
Theorem series_totals_are_sums (db : Store.DB) (clock : Clock.t) (dockerUsername : string)
    (days : Z) (account : DockerAccount.t) (i : nat) :
  Service.GetDockerAccountByUsername db dockerUsername = Ok account ->
  (i < Z.to_nat (days + 1))%nat ->
  Runtime.makeslice Runtime.sizeofActivitySummary (GoInt.add days 1) = true ->
  Forall (fun reading => (Clock.Now clock).1 <= reading) (Clock.later clock) ->
  exists summaries summariesH entry entryH,
    Service.GetActivitySummary db clock dockerUsername days = Returns (Ok summaries)
    /\ ServiceH.GetActivitySummary db clock dockerUsername days = Returns (Ok summariesH)
    /\ summaries !! i = Some entry
    /\ summariesH !! i = Some entryH
    /\ ActivitySummary.Date entry
       = Time.formatDay (Time.dayOf (Clock.Now clock).1 - days + Z.of_nat i)
    /\ ActivitySummary.Date entryH
       = Time.formatDay (Time.dayOf (Clock.Now clock).1 - days + Z.of_nat i)
    /\ ActivitySummary.TotalCount entry
       = GoInt.wrap64
           (Integrity.sumCounts
              (List.filter (Integrity.datedOn (ActivitySummary.Date entry))
                 (Service.queryEvents db (DockerAccount.ID account)
                    (Service.startOfWindow (Clock.Now clock).1 days))))
    /\ ActivitySummary.TotalCount entryH
       = GoInt.wrap64
           (Integrity.sumCounts
              (List.filter (Integrity.datedOn (ActivitySummary.Date entryH))
                 (ServiceH.queryEvents db (DockerAccount.ID account)
                    (ServiceH.startOfWindow (Clock.Now clock).1 days)
                    (Clock.Now (Clock.Now clock).2).1))).
Proof.
  intros Hacc Hi Hcap Hclock.
  rewrite later_Now in Hclock.
  unfold Service.GetActivitySummary, ServiceH.GetActivitySummary,
    ServiceH.GetDockerAccountByUsername.
  rewrite Hacc, Hcap.
  destruct (Clock.Now clock) as [now clock1]. cbn [fst snd] in *.
  assert (HendDate : Forall (fun reading => now <= reading) ([] ++ [(Clock.Now clock1).1])).
  { apply Forall_singleton. rewrite Forall_forall in Hclock. apply Hclock.
    unfold Clock.Now. destruct (Clock.reads clock1) as [|r later]; cbn [fst]; [|left].
    apply elem_of_app. right. left. }
  destruct (Clock.Now clock1) as [endDate clock2]. cbn [fst snd] in *.
  change (ServiceH.startOfWindow now days) with (Service.startOfWindow now days).
  set (events := Service.queryEvents _ _ _).
  set (eventsH := ServiceH.queryEvents _ _ _ _).
  pose proof (fun k => fold_totalOn_empty Service.aggregate fst k events (∅, 0)
                         (fun st e => aggregate_totalOn st e k) eq_refl) as Htot.
  pose proof (fun k => fold_totalOn_empty ServiceH.aggregate id k eventsH ∅
                         (fun m e => aggregateH_totalOn m e k) eq_refl) as HtotH.
  destruct (fold_left Service.aggregate events (∅, 0)) as [dateMap maxCount].
  cbn [fst id] in Htot, HtotH.
  eexists _, _, _, _.
  split; [reflexivity|]. split; [reflexivity|].
  split; [by apply series_lookup_of|].
  split; [by apply (series_lookup_of _ [] endDate now days i Hi)|].
  rewrite summaryFor_Date, summaryFor_TotalCount, summaryForH_TotalCount.
  rewrite (summaryForH_Date eventsH).
  rewrite !Format_midnight, Htot, HtotH. done.
Qed.

Lemma series_totals_are_sums_witness :
  (Service.GetDockerAccountByUsername Example.scenario "alice" = Ok Example.alice
   /\ (2 < Z.to_nat (2 + 1))%nat
   /\ Runtime.makeslice Runtime.sizeofActivitySummary (GoInt.add 2 1) = true
   /\ Forall (fun reading => (Clock.Now Example.aroundNoon).1 <= reading)
             (Clock.later Example.aroundNoon))
  /\ exists summaries entry,
       Service.GetActivitySummary Example.scenario Example.aroundNoon "alice" 2
       = Returns (Ok summaries)
       /\ summaries !! 2%nat = Some entry
       /\ ActivitySummary.TotalCount entry
          = GoInt.wrap64
              (Integrity.sumCounts
                 (List.filter (Integrity.datedOn (ActivitySummary.Date entry))
                    (Service.queryEvents Example.scenario (DockerAccount.ID Example.alice)
                       (Service.startOfWindow (Clock.Now Example.aroundNoon).1 2)))).
Proof.
  assert (Hi : (2 < Z.to_nat (2 + 1))%nat) by (vm_compute; lia).
  assert (Hclock : Forall (fun reading => (Clock.Now Example.aroundNoon).1 <= reading)
                          (Clock.later Example.aroundNoon)).
  { vm_compute. repeat constructor; discriminate. }
  split; [split; [reflexivity|split; [exact Hi|split; [reflexivity|exact Hclock]]]|].
  destruct (series_totals_are_sums Example.scenario Example.aroundNoon "alice" 2
              Example.alice 2 eq_refl Hi eq_refl Hclock)
    as (summaries & summariesH & entry & entryH & H1 & _ & H3 & _ & _ & _ & H7 & _).
  by exists summaries, entry.
Defined.

(** ** The levels of the series *)

Lemma sumCounts_filter_le (cond : ActivityEvent.t -> bool) (events : list ActivityEvent.t) :
  (forall e, e ∈ events -> 0 < ActivityEvent.Count e) ->
  0 <= Integrity.sumCounts (List.filter cond events) <= Integrity.sumCounts events.
Proof.
  induction events as [|e events IH]; intros Hpos; [cbn; lia|].
  pose proof (Hpos e ltac:(left)) as He.
  destruct IH as [IH1 IH2]; [intros e' He'; apply Hpos; by right|].
  cbn [List.filter]. unfold Integrity.sumCounts in *.
  destruct (cond e); cbn [foldr]; lia.
Qed.

Lemma sumCounts_elem (events : list ActivityEvent.t) (e : ActivityEvent.t) :
  (forall e, e ∈ events -> 0 < ActivityEvent.Count e) ->
  e ∈ events -> ActivityEvent.Count e <= Integrity.sumCounts events.
Proof.
  induction events as [|e' events IH]; intros Hpos He; [by apply not_elem_of_nil in He|].
  pose proof (sumCounts_filter_le (fun _ => true) events
                ltac:(intros x Hx; apply Hpos; by right)) as [H0 _].
  rewrite filter_all in H0 by done.
  pose proof (Hpos e' ltac:(left)).
  apply elem_of_cons in He as [->|He].
  - unfold Integrity.sumCounts in *. cbn [foldr]. lia.
  - specialize (IH ltac:(intros x Hx; apply Hpos; by right) He).
    unfold Integrity.sumCounts in *. cbn [foldr]. lia.
Qed.

(** The total of a date with an event, when the counts are positive and
    their sum is small. *)
Lemma dated_total (events : list ActivityEvent.t) (k : string) (e : ActivityEvent.t) :
  (forall e, e ∈ events -> 0 < ActivityEvent.Count e) ->
  Integrity.sumCounts events < 2 ^ 52 ->
  e ∈ events -> Integrity.datedOn k e = true ->
  0 < GoInt.wrap64 (Integrity.sumCounts (List.filter (Integrity.datedOn k) events))
    <= Integrity.sumCounts events.
Proof.
  intros Hpos Hsmall He Hk.
  pose proof (sumCounts_filter_le (Integrity.datedOn k) events Hpos) as [_ Hle].
  assert (Hin : e ∈ List.filter (Integrity.datedOn k) events) by (by apply elem_of_filter).
  pose proof (sumCounts_elem _ e
                ltac:(intros x Hx; apply elem_of_filter in Hx as [Hx _]; by apply Hpos) Hin).
  pose proof (Hpos e He).
  rewrite wrap64_inRange; [lia|]. unfold GoInt.inRange, GoInt.minInt, GoInt.maxInt. lia.
Qed.

(** A date is in the map exactly when an aggregated event is filed under it. *)
Lemma aggregate_is_Some (events : list ActivityEvent.t) (k : string) :
  is_Some ((fold_left Service.aggregate events (∅, 0)).1 !! k)
  <-> exists e, e ∈ events /\ Integrity.datedOn k e = true.
Proof.
  assert (H : forall st,
            is_Some ((fold_left Service.aggregate events st).1 !! k)
            <-> is_Some (st.1 !! k) \/ exists e, e ∈ events /\ Integrity.datedOn k e = true).
  { induction events as [|e events IH]; intros st.
    - cbn. split; [by left|]. intros [H0|(e & He & _)]; [done|by apply not_elem_of_nil in He].
    - cbn [fold_left]. rewrite IH. clear IH.
      assert (Hstep : is_Some ((Service.aggregate st e).1 !! k)
                      <-> is_Some (st.1 !! k) \/ Integrity.datedOn k e = true).
      { unfold Integrity.datedOn.
        destruct (bool_decide_reflect (Time.Format (ActivityEvent.EventDate e) = k))
          as [<-|Hne].
        - split; [by right|]. intros _. destruct st as [m mx].
          unfold Service.aggregate. cbn [fst]. rewrite lookup_alter_eq.
          destruct (m !! Time.Format (ActivityEvent.EventDate e)) as [s|] eqn:Hs.
          + rewrite Hs. by eexists.
          + rewrite lookup_insert_eq. by eexists.
        - rewrite aggregate_lookup_ne by done. split; [by left|]. by intros [H0|H0]. }
      rewrite Hstep. split.
      + intros [[H0|H0]|(e' & He' & Hk)].
        * by left.
        * right. exists e. split; [left|done].
        * right. exists e'. split; [by right|done].
      + intros [H0|(e' & He' & Hk)]; [by left; left|].
        apply elem_of_cons in He' as [->|He']; [left; by right|].
        right. by exists e'. }
  rewrite H. cbn [fst]. rewrite lookup_empty. split.
  - intros [[x Hx]|H0]; [done|done].
  - by right.
Qed.

Lemma aggregateH_is_Some (events : list ActivityEvent.t) (k : string) :
  is_Some (fold_left ServiceH.aggregate events ∅ !! k)
  <-> exists e, e ∈ events /\ Integrity.datedOn k e = true.
Proof.
  assert (H : forall m,
            is_Some (fold_left ServiceH.aggregate events m !! k)
            <-> is_Some (m !! k) \/ exists e, e ∈ events /\ Integrity.datedOn k e = true).
  { induction events as [|e events IH]; intros m.
    - cbn. split; [by left|]. intros [H0|(e & He & _)]; [done|by apply not_elem_of_nil in He].
    - cbn [fold_left]. rewrite IH. clear IH.
      assert (Hstep : is_Some (ServiceH.aggregate m e !! k)
                      <-> is_Some (m !! k) \/ Integrity.datedOn k e = true).
      { unfold Integrity.datedOn.
        destruct (bool_decide_reflect (Time.Format (ActivityEvent.EventDate e) = k))
          as [<-|Hne].
        - split; [by right|]. intros _.
          unfold ServiceH.aggregate. rewrite lookup_alter_eq.
          destruct (m !! Time.Format (ActivityEvent.EventDate e)) as [s|] eqn:Hs.
          + rewrite Hs. by eexists.
          + rewrite lookup_insert_eq. by eexists.
        - rewrite aggregateH_lookup_ne by done. split; [by left|]. by intros [H0|H0]. }
      rewrite Hstep. split.
      + intros [[H0|H0]|(e' & He' & Hk)].
        * by left.
        * right. exists e. split; [left|done].
        * right. exists e'. split; [by right|done].
      + intros [H0|(e' & He' & Hk)]; [by left; left|].
        apply elem_of_cons in He' as [->|He']; [left; by right|].
        right. by exists e'. }
  rewrite H. rewrite lookup_empty. split.
  - intros [[x Hx]|H0]; [done|done].
  - by right.
Qed.

Lemma aggregate_step_is_Some (st : gmap string ActivitySummary.t * Z) (e : ActivityEvent.t)
    (k : string) :
  is_Some ((Service.aggregate st e).1 !! k)
  <-> is_Some (st.1 !! k) \/ Integrity.datedOn k e = true.
Proof.
  unfold Integrity.datedOn.
  destruct (bool_decide_reflect (Time.Format (ActivityEvent.EventDate e) = k)) as [<-|Hne].
  - split; [by right|]. intros _. destruct st as [m mx].
    unfold Service.aggregate. cbn [fst]. rewrite lookup_alter_eq.
    destruct (m !! Time.Format (ActivityEvent.EventDate e)) as [s|] eqn:Hs.
    + rewrite Hs. by eexists.
    + rewrite lookup_insert_eq. by eexists.
  - rewrite aggregate_lookup_ne by done. split; [by left|]. by intros [H0|H0].
Qed.

Lemma aggregate_max (st : gmap string ActivitySummary.t * Z) (e : ActivityEvent.t) :
  (Service.aggregate st e).2
  = let total := Integrity.totalOn (Service.aggregate st e).1
                   (Time.Format (ActivityEvent.EventDate e)) in
    if st.2 <? total then total else st.2.
Proof. destruct st as [m mx]. reflexivity. Qed.

Lemma sumCounts_app (l1 l2 : list ActivityEvent.t) :
  Integrity.sumCounts (l1 ++ l2) = Integrity.sumCounts l1 + Integrity.sumCounts l2.
Proof.
  unfold Integrity.sumCounts. induction l1 as [|e l1 IH]; [cbn; lia|].
  cbn [app foldr]. rewrite IH. lia.
Qed.

(** With positive counts and a small sum, the running maximum of
    [docker_service.go] is the largest total of the map. *)
Lemma running_max (events : list ActivityEvent.t) :
  (forall e, e ∈ events -> 0 < ActivityEvent.Count e) ->
  Integrity.sumCounts events < 2 ^ 52 ->
  let st := fold_left Service.aggregate events (∅, 0) in
  0 <= st.2
  /\ (forall k, is_Some (st.1 !! k) -> Integrity.totalOn st.1 k <= st.2)
  /\ (st.2 = 0 \/ exists k, is_Some (st.1 !! k) /\ Integrity.totalOn st.1 k = st.2).
Proof.
  induction events as [|e events IH] using rev_ind; intros Hpos Hsmall.
  { cbn. split; [done|]. split; [|by left]. intros k [x Hx]. by rewrite lookup_empty in Hx. }
  rewrite sumCounts_app in Hsmall.
  pose proof (Hpos e ltac:(apply elem_of_app; right; left)) as Hc.
  assert (Hpos' : forall e, e ∈ events -> 0 < ActivityEvent.Count e).
  { intros x Hx. apply Hpos, elem_of_app. by left. }
  pose proof (sumCounts_filter_le (fun _ => true) events Hpos') as [Hsum0 _].
  rewrite filter_all in Hsum0 by done.
  assert (He1 : Integrity.sumCounts [e] = ActivityEvent.Count e) by (cbn; lia).
  rewrite He1 in Hsmall.
  specialize (IH Hpos' ltac:(lia)). cbn zeta in IH |- *.
  rewrite fold_left_app. cbn [fold_left].
  set (d := Time.Format (ActivityEvent.EventDate e)).
  pose proof (fold_totalOn_empty Service.aggregate fst d events (∅, 0)
                (fun st e => aggregate_totalOn st e d) eq_refl) as Hold.
  pose proof (sumCounts_filter_le (Integrity.datedOn d) events Hpos') as [Hd0 Hd1].
  rewrite wrap64_inRange in Hold
    by (unfold GoInt.inRange, GoInt.minInt, GoInt.maxInt; lia).
  set (st := fold_left Service.aggregate events (∅, 0)) in *.
  destruct IH as (Hmx0 & Hle & Hatt).
  assert (Hdated : Integrity.datedOn d e = true) by (by apply bool_decide_eq_true_2).
  assert (Hnew : Integrity.totalOn (Service.aggregate st e).1 d
                 = Integrity.totalOn st.1 d + ActivityEvent.Count e).
  { rewrite aggregate_totalOn, Hdated. unfold GoInt.add. apply wrap64_inRange.
    unfold GoInt.inRange, GoInt.minInt, GoInt.maxInt. lia. }
  assert (Hother : forall k, k <> d ->
            Integrity.totalOn (Service.aggregate st e).1 k = Integrity.totalOn st.1 k).
  { intros k Hk. rewrite aggregate_totalOn. unfold Integrity.datedOn.
    by rewrite bool_decide_eq_false_2 by (fold d; congruence). }
  rewrite aggregate_max. fold d. cbn zeta. rewrite Hnew.
  destruct (Z.ltb_spec st.2 (Integrity.totalOn st.1 d + ActivityEvent.Count e)) as [Hlt|Hge].
  - split; [lia|]. split.
    + intros k Hk. destruct (decide (k = d)) as [->|Hne]; [lia|].
      rewrite Hother by done. apply aggregate_step_is_Some in Hk as [Hk|Hk].
      * specialize (Hle k Hk). lia.
      * apply bool_decide_eq_true in Hk. fold d in Hk. congruence.
    + right. exists d. split; [|done]. apply aggregate_step_is_Some. by right.
  - split; [done|]. split.
    + intros k Hk. destruct (decide (k = d)) as [->|Hne]; [lia|].
      rewrite Hother by done. apply aggregate_step_is_Some in Hk as [Hk|Hk].
      * by apply Hle.
      * apply bool_decide_eq_true in Hk. fold d in Hk. congruence.
    + destruct Hatt as [H0|(k & Hk & Hkt)]; [lia|].
      right. exists k. assert (k <> d) by (intros ->; lia).
      split; [apply aggregate_step_is_Some; by left|]. by rewrite Hother.
Qed.

Lemma maxOf_spec (m : gmap string ActivitySummary.t) :
  0 <= ServiceH.maxOf m
  /\ (forall k, is_Some (m !! k) -> Integrity.totalOn m k <= ServiceH.maxOf m)
  /\ (ServiceH.maxOf m = 0
      \/ exists k, is_Some (m !! k) /\ Integrity.totalOn m k = ServiceH.maxOf m).
Proof.
  unfold ServiceH.maxOf.
  apply (map_fold_weak_ind
           (fun r (m : gmap string ActivitySummary.t) =>
              0 <= r
              /\ (forall k, is_Some (m !! k) -> Integrity.totalOn m k <= r)
              /\ (r = 0 \/ exists k, is_Some (m !! k) /\ Integrity.totalOn m k = r))).
  { split; [done|]. split; [|by left]. intros k [x Hx]. by rewrite lookup_empty in Hx. }
  intros i x m0 r Hnone (Hr0 & Hle & Hatt).
  assert (Hi : Integrity.totalOn (<[i := x]> m0) i = ActivitySummary.TotalCount x).
  { unfold Integrity.totalOn. by rewrite lookup_insert_eq. }
  assert (Hother : forall k, k <> i ->
            Integrity.totalOn (<[i := x]> m0) k = Integrity.totalOn m0 k
            /\ (is_Some (<[i := x]> m0 !! k) <-> is_Some (m0 !! k))).
  { intros k Hk. unfold Integrity.totalOn. by rewrite lookup_insert_ne. }
  destruct (Z.ltb_spec r (ActivitySummary.TotalCount x)) as [Hlt|Hge].
  - split; [lia|]. split.
    + intros k Hk. destruct (decide (k = i)) as [->|Hne]; [lia|].
      destruct (Hother k Hne) as [-> Hiff]. apply Hiff in Hk. specialize (Hle k Hk). lia.
    + right. exists i. split; [|done]. rewrite lookup_insert_eq. by eexists.
  - split; [done|]. split.
    + intros k Hk. destruct (decide (k = i)) as [->|Hne]; [lia|].
      destruct (Hother k Hne) as [-> Hiff]. apply Hiff in Hk. by apply Hle.
    + destruct Hatt as [H0|(k & Hk & Hkt)]; [by left|].
      right. exists k. assert (k <> i).
      { intros ->. destruct Hk as [y Hy]. congruence. }
      destruct (Hother k H) as [-> Hiff]. split; [by apply Hiff|done].
Qed.

Lemma level_cases (c m : Z) :
  0 < c -> c <= m -> m < 2 ^ 52 ->
  (1 <= Service.calculateLevel c m <= 4 /\ (c = m -> Service.calculateLevel c m = 4))
  /\ (1 <= ServiceH.calculateLevel c m <= 4 /\ (c = m -> ServiceH.calculateLevel c m = 4)).
Proof.
  intros Hc Hle Hm.
  rewrite calculateLevel_cross, calculateLevelH_cross by lia.
  repeat match goal with
         | |- context [?a <? ?b] => destruct (Z.ltb_spec a b)
         end; lia.
Qed.

Lemma summaryFor_levelled (dateMap : gmap string ActivitySummary.t) (maxCount d : Z) :
  (forall k, is_Some (dateMap !! k) -> 0 < Integrity.totalOn dateMap k <= maxCount) ->
  maxCount < 2 ^ 52 ->
  Integrity.levelled (Service.summaryFor dateMap maxCount d)
  /\ (is_Some (dateMap !! Time.Format d) ->
      Integrity.totalOn dateMap (Time.Format d) = maxCount ->
      ActivitySummary.Level (Service.summaryFor dateMap maxCount d) = 4).
Proof.
  intros Hpos Hsmall. specialize (Hpos (Time.Format d)).
  unfold Service.summaryFor, Integrity.levelled, Integrity.totalOn in *.
  destruct (dateMap !! Time.Format d) as [s|]; cbn in *.
  - specialize (Hpos ltac:(by eexists)).
    destruct (level_cases (ActivitySummary.TotalCount s) maxCount) as [[H1 H2] _]; [lia..|].
    split; [|by intros _]. lia.
  - split; [lia|]. by intros [x Hx].
Qed.

Lemma summaryForH_levelled (dateMap : gmap string ActivitySummary.t) (maxCount d : Z) :
  (forall k, is_Some (dateMap !! k) -> 0 < Integrity.totalOn dateMap k <= maxCount) ->
  maxCount < 2 ^ 52 ->
  Integrity.levelled (ServiceH.summaryFor dateMap maxCount d)
  /\ (is_Some (dateMap !! Time.Format d) ->
      Integrity.totalOn dateMap (Time.Format d) = maxCount ->
      ActivitySummary.Level (ServiceH.summaryFor dateMap maxCount d) = 4).
Proof.
  intros Hpos Hsmall. specialize (Hpos (Time.Format d)).
  unfold ServiceH.summaryFor, Integrity.levelled, Integrity.totalOn in *.
  destruct (dateMap !! Time.Format d) as [s|]; cbn in *.
  - specialize (Hpos ltac:(by eexists)).
    destruct (level_cases (ActivitySummary.TotalCount s) maxCount) as [_ [H1 H2]]; [lia..|].
    split; [|by intros _]. lia.
  - split; [lia|]. by intros [x Hx].
Qed.

(** The entry of the series for the day of an event of the window. *)
Lemma series_entry_of_event {A : Type} (body : Z -> A) (reads : list Z)
    (rest now days : Z) (date : Z) :
  Forall (fun reading => now <= reading) (reads ++ [rest]) ->
  Service.startOfWindow now days <= date -> date <= now ->
  exists i d,
    Clock.forEachDayOf body reads rest (Service.startOfWindow now days) !! i = Some (body d)
    /\ Time.Format d = Time.Format date.
Proof.
  intros Hclock Hstart Hend. rewrite startOfWindow_day in Hstart.
  assert (Hday : Time.dayOf now - days <= Time.dayOf date <= Time.dayOf now).
  { unfold Time.midnightUTC, Time.dayOf, Time.secondsPerDay in *. div_lia. }
  exists (Z.to_nat (Time.dayOf date - (Time.dayOf now - days))).
  exists (Time.midnightUTC (Time.dayOf date)). split.
  - rewrite (series_lookup_of body reads rest now days) by (done || lia).
    do 3 f_equal. lia.
  - by rewrite Format_midnight.
Qed.

Lemma queryEventsH_until_now (db : Store.DB) (accountID startDate endDate : Z) :
  (forall e, e ∈ Service.queryEvents db accountID startDate ->
             ActivityEvent.EventDate e <= endDate) ->
  ServiceH.queryEvents db accountID startDate endDate
  = Service.queryEvents db accountID startDate.
Proof.
  intros Hend. unfold ServiceH.queryEvents. rewrite filter_andb.
  fold (Service.queryEvents db accountID startDate).
  apply filter_all. intros e He. apply Z.leb_le. by apply Hend.
Qed.

(** X23. When the events of the window have positive counts with a sum
    below 2^52 and none is dated after the first reading of the clock,
    every entry of the series has a level between 0 and 4 that is 0
    exactly on the days without activity, and, if there is any event,
    some day of the series has level 4; in both copies of the service.
    No later reading of the clock is earlier than the first, and
    [days + 1] is a capacity that [make] accepts. *)
Theorem busiest_day_has_level_4 (db : Store.DB) (clock : Clock.t)
    (dockerUsername : string) (days : Z) (account : DockerAccount.t) :
  Service.GetDockerAccountByUsername db dockerUsername = Ok account ->
  Runtime.makeslice Runtime.sizeofActivitySummary (GoInt.add days 1) = true ->
  Forall (fun reading => (Clock.Now clock).1 <= reading) (Clock.later clock) ->
  (forall e,
     e ∈ Service.queryEvents db (DockerAccount.ID account)
           (Service.startOfWindow (Clock.Now clock).1 days) ->
     0 < ActivityEvent.Count e /\ ActivityEvent.EventDate e <= (Clock.Now clock).1) ->
  Integrity.sumCounts
    (Service.queryEvents db (DockerAccount.ID account)
       (Service.startOfWindow (Clock.Now clock).1 days))
  < 2 ^ 52 ->
  exists summaries summariesH,
    Service.GetActivitySummary db clock dockerUsername days = Returns (Ok summaries)
    /\ ServiceH.GetActivitySummary db clock dockerUsername days = Returns (Ok summariesH)
    /\ Forall Integrity.levelled summaries
    /\ Forall Integrity.levelled summariesH
    /\ (Service.queryEvents db (DockerAccount.ID account)
          (Service.startOfWindow (Clock.Now clock).1 days)
        <> [] ->
        Exists (fun entry => ActivitySummary.Level entry = 4) summaries
        /\ Exists (fun entry => ActivitySummary.Level entry = 4) summariesH).
Proof.
  intros Hacc Hcap Hclock Hev Hsmall.
  rewrite later_Now in Hclock.
  unfold Service.GetActivitySummary, ServiceH.GetActivitySummary,
    ServiceH.GetDockerAccountByUsername.
  rewrite Hacc, Hcap.
  destruct (Clock.Now clock) as [now clock1]. cbn [fst snd] in *.
  assert (HendDate : Forall (fun reading => now <= reading) ([] ++ [(Clock.Now clock1).1])).
  { apply Forall_singleton. rewrite Forall_forall in Hclock. apply Hclock.
    unfold Clock.Now. destruct (Clock.reads clock1) as [|r later]; cbn [fst]; [|left].
    apply elem_of_app. right. left. }
  destruct (Clock.Now clock1) as [endDate clock2]. cbn [fst snd] in *.
  pose proof HendDate as HendLe. cbn [app] in HendLe. rewrite Forall_singleton in HendLe.
  change (ServiceH.startOfWindow now days) with (Service.startOfWindow now days).
  rewrite queryEventsH_until_now
    by (intros e He; destruct (Hev e He) as [_ Hdate]; lia).
  unfold Clock.forEachDay.
  set (events := Service.queryEvents _ _ _) in *.
  assert (Hpos : forall e, e ∈ events -> 0 < ActivityEvent.Count e).
  { intros e He. by apply Hev. }
  pose proof (running_max events Hpos Hsmall) as Hrun. cbn zeta in Hrun.
  pose proof (fun k => fold_totalOn_empty Service.aggregate fst k events (∅, 0)
                         (fun st e => aggregate_totalOn st e k) eq_refl) as Htot.
  pose proof (aggregate_is_Some events) as Hkeys.
  destruct (fold_left Service.aggregate events (∅, 0)) as [dateMap maxCount].
  cbn [fst snd] in *. destruct Hrun as (Hmx0 & Hle & Hatt).
  pose proof (fun k => fold_totalOn_empty ServiceH.aggregate id k events ∅
                         (fun m e => aggregateH_totalOn m e k) eq_refl) as HtotH.
  pose proof (aggregateH_is_Some events) as HkeysH.
  set (dateMapH := fold_left ServiceH.aggregate events ∅) in *.
  cbn [id] in HtotH.
  destruct (maxOf_spec dateMapH) as (HmxH0 & HleH & HattH).
  assert (Hbound : forall k, is_Some (dateMap !! k) ->
            0 < Integrity.totalOn dateMap k <= Integrity.sumCounts events).
  { intros k Hk. apply Hkeys in Hk as (e & He & Hd). rewrite Htot. by eapply dated_total. }
  assert (HboundH : forall k, is_Some (dateMapH !! k) ->
            0 < Integrity.totalOn dateMapH k <= Integrity.sumCounts events).
  { intros k Hk. apply HkeysH in Hk as (e & He & Hd). rewrite HtotH. by eapply dated_total. }
  assert (Hmx : maxCount <= Integrity.sumCounts events).
  { destruct Hatt as [->|(k & Hk & <-)]; [|by apply Hbound].
    pose proof (sumCounts_filter_le (fun _ => true) events Hpos) as [H0 _].
    by rewrite filter_all in H0. }
  assert (HmxH : ServiceH.maxOf dateMapH <= Integrity.sumCounts events).
  { destruct HattH as [->|(k & Hk & <-)]; [|by apply HboundH].
    pose proof (sumCounts_filter_le (fun _ => true) events Hpos) as [H0 _].
    by rewrite filter_all in H0. }
  assert (Hlev : forall d, Integrity.levelled (Service.summaryFor dateMap maxCount d)
                 /\ (is_Some (dateMap !! Time.Format d) ->
                     Integrity.totalOn dateMap (Time.Format d) = maxCount ->
                     ActivitySummary.Level (Service.summaryFor dateMap maxCount d) = 4)).
  { intros d. apply summaryFor_levelled; [|lia].
    intros k Hk. specialize (Hbound k Hk). specialize (Hle k Hk). lia. }
  assert (HlevH : forall d,
            Integrity.levelled (ServiceH.summaryFor dateMapH (ServiceH.maxOf dateMapH) d)
            /\ (is_Some (dateMapH !! Time.Format d) ->
                Integrity.totalOn dateMapH (Time.Format d) = ServiceH.maxOf dateMapH ->
                ActivitySummary.Level
                  (ServiceH.summaryFor dateMapH (ServiceH.maxOf dateMapH) d) = 4)).
  { intros d. apply summaryForH_levelled; [|lia].
    intros k Hk. specialize (HboundH k Hk). specialize (HleH k Hk). lia. }
  eexists _, _. split; [reflexivity|]. split; [reflexivity|].
  split; [apply forEachDayOf_Forall; intros d; apply Hlev|].
  split; [apply forEachDay_Forall; intros d; apply HlevH|].
  intros Hsome. destruct events as [|e0 rest] eqn:Hevents; [done|]. rewrite <- Hevents in *.
  assert (He0 : e0 ∈ events) by (rewrite Hevents; left).
  assert (Hk0 : is_Some (dateMap !! Time.Format (ActivityEvent.EventDate e0))).
  { apply Hkeys. exists e0. split; [done|]. by apply bool_decide_eq_true_2. }
  assert (Hk0H : is_Some (dateMapH !! Time.Format (ActivityEvent.EventDate e0))).
  { apply HkeysH. exists e0. split; [done|]. by apply bool_decide_eq_true_2. }
  assert (Hin : forall e, e ∈ events ->
            Service.startOfWindow now days <= ActivityEvent.EventDate e <= now).
  { intros e He. split; [|by apply Hev]. subst events.
    apply elem_of_filter in He as [_ He]. apply andb_true_iff in He as [_ He].
    by apply Z.leb_le in He. }
  split.
  - destruct Hatt as [H0|(k & Hk & Hkt)].
    { specialize (Hbound _ Hk0). specialize (Hle _ Hk0). lia. }
    pose proof Hk as Hk'. apply Hkeys in Hk' as (e & He & Hd).
    apply bool_decide_eq_true in Hd. destruct (Hin e He) as [Hs Hn].
    destruct (series_entry_of_event (Service.summaryFor dateMap maxCount)
                (Clock.reads clock1) (Clock.rest clock1) now days
                (ActivityEvent.EventDate e) Hclock Hs Hn) as (i & d & Hi & Hfmt).
    apply Exists_exists. eexists. split; [by eapply list_elem_of_lookup_2|].
    apply Hlev; rewrite Hfmt, Hd; done.
  - destruct HattH as [H0|(k & Hk & Hkt)].
    { specialize (HboundH _ Hk0H). specialize (HleH _ Hk0H). lia. }
    pose proof Hk as Hk'. apply HkeysH in Hk' as (e & He & Hd).
    apply bool_decide_eq_true in Hd. destruct (Hin e He) as [Hs Hn].
    destruct (series_entry_of_event
                (ServiceH.summaryFor dateMapH (ServiceH.maxOf dateMapH)) [] endDate now days
                (ActivityEvent.EventDate e) HendDate Hs Hn) as (i & d & Hi & Hfmt).
    apply Exists_exists. eexists. split; [by eapply list_elem_of_lookup_2|].
    apply HlevH; rewrite Hfmt, Hd; done.
Qed.

Lemma busiest_day_has_level_4_witness :
  (Service.GetDockerAccountByUsername Example.scenario "alice" = Ok Example.alice
   /\ Runtime.makeslice Runtime.sizeofActivitySummary (GoInt.add 2 1) = true
   /\ Forall (fun reading => (Clock.Now Example.aroundNoon).1 <= reading)
             (Clock.later Example.aroundNoon)
   /\ (forall e,
         e ∈ Service.queryEvents Example.scenario (DockerAccount.ID Example.alice)
               (Service.startOfWindow (Clock.Now Example.aroundNoon).1 2) ->
         0 < ActivityEvent.Count e
         /\ ActivityEvent.EventDate e <= (Clock.Now Example.aroundNoon).1)
   /\ Integrity.sumCounts
        (Service.queryEvents Example.scenario (DockerAccount.ID Example.alice)
           (Service.startOfWindow (Clock.Now Example.aroundNoon).1 2)) < 2 ^ 52)
  /\ exists summaries,
       Service.GetActivitySummary Example.scenario Example.aroundNoon "alice" 2
       = Returns (Ok summaries)
       /\ Forall Integrity.levelled summaries
       /\ Exists (fun entry => ActivitySummary.Level entry = 4) summaries.
Proof.
  assert (Hclock : Forall (fun reading => (Clock.Now Example.aroundNoon).1 <= reading)
                          (Clock.later Example.aroundNoon)).
  { vm_compute. repeat constructor; discriminate. }
  assert (Hev : forall e,
            e ∈ Service.queryEvents Example.scenario (DockerAccount.ID Example.alice)
                  (Service.startOfWindow (Clock.Now Example.aroundNoon).1 2) ->
            0 < ActivityEvent.Count e
            /\ ActivityEvent.EventDate e <= (Clock.Now Example.aroundNoon).1).
  { intros e He. apply list_elem_of_In in He. vm_compute in He.
    destruct He as [<-|[<-|[]]]; vm_compute; (split; [reflexivity|discriminate]). }
  assert (Hsum : Integrity.sumCounts
                   (Service.queryEvents Example.scenario (DockerAccount.ID Example.alice)
                      (Service.startOfWindow (Clock.Now Example.aroundNoon).1 2)) < 2 ^ 52)
    by (vm_compute; reflexivity).
  split; [split; [reflexivity|split; [reflexivity|split; [exact Hclock|split;
    [exact Hev|exact Hsum]]]]|].
  destruct (busiest_day_has_level_4 Example.scenario Example.aroundNoon "alice" 2
              Example.alice eq_refl eq_refl Hclock Hev Hsum)
    as (summaries & summariesH & H1 & _ & H3 & _ & H5).
  exists summaries. split; [exact H1|]. split; [exact H3|].
  apply H5. vm_compute. discriminate.
Defined.

(** ** The options of the image *)

Lemma numeric_bounds (value : string) (lo hi default : Z) :
  lo <= default <= hi -> lo <= HeatmapHandler.numeric value lo hi default <= hi.
Proof.
  intros Hd. unfold HeatmapHandler.numeric.
  destruct (bool_decide _); [done|].
  destruct (Strconv.Atoi value) as [parsed|]; [|done].
  destruct (Z.leb_spec lo parsed); [|done].
  destruct (Z.leb_spec parsed hi); [|done]. cbn. lia.
Qed.

Lemma parseHexColor_prefix (TrimSpace : string -> string) (color : string) :
  HeatmapHandler.parseHexColor TrimSpace color = ""
  \/ HeatmapHandler.HasPrefix (HeatmapHandler.parseHexColor TrimSpace color) "#" = true.
Proof.
  unfold HeatmapHandler.parseHexColor.
  destruct (bool_decide _); [by left|].
  destruct (HeatmapHandler.HasPrefix (TrimSpace color) "#") eqn:Hp; cbn [negb]; [by right|].
  right. unfold HeatmapHandler.HasPrefix, String.app. cbn.
  by destruct (TrimSpace color).
Qed.

(** The loop over the colour parameters appends one colour for every
    parameter that is given. *)
Lemma customColors_fold (TrimSpace : string -> string) (query : string -> string)
    (indices : list nat) (customColors : list string) :
  fold_left
    (fun customColors i =>
       let clr := query (HeatmapHandler.colorParam i) in
       if bool_decide (clr = "") then customColors
       else customColors ++ [HeatmapHandler.parseHexColor TrimSpace clr])
    indices customColors
  = customColors
    ++ ((fun i => HeatmapHandler.parseHexColor TrimSpace (query (HeatmapHandler.colorParam i)))
          <$> List.filter
                (fun i => negb (bool_decide (query (HeatmapHandler.colorParam i) = "")))
                indices).
Proof.
  revert customColors. induction indices as [|i indices IH]; intros customColors.
  { cbn. by rewrite app_nil_r. }
  cbn [fold_left List.filter]. rewrite IH.
  destruct (bool_decide (query (HeatmapHandler.colorParam i) = "")); cbn [negb]; [done|].
  cbn [fmap list_fmap]. by rewrite <- app_assoc.
Qed.

Lemma filter_length_all {A : Type} (cond : A -> bool) (l : list A) :
  (length (List.filter cond l) <= length l)%nat
  /\ (length (List.filter cond l) = length l <-> forall x, x ∈ l -> cond x = true).
Proof.
  induction l as [|x l [IHle IHiff]].
  { split; [done|]. split; [|done]. intros _ x Hx. by apply not_elem_of_nil in Hx. }
  cbn [List.filter]. destruct (cond x) eqn:Hx; cbn [length].
  - split; [lia|]. split.
    + intros Hlen y Hy. apply elem_of_cons in Hy as [->|Hy]; [done|].
      apply IHiff; [lia|done].
    + intros Hall. f_equal. apply IHiff. intros y Hy. apply Hall. by right.
  - split; [lia|]. split; [lia|].
    intros Hall. specialize (Hall x ltac:(left)). congruence.
Qed.

(** X24. Whatever the query of a request for the image is, the options
    that [GetHeatmapSVG] hands to the renderer have 1 to 365 days, a cell
    size of 5 to 20 and a radius of 0 to 10, a theme that is not empty,
    and either no custom colours or exactly five of them with the theme
    "custom", which is the case exactly when all of [color0] ... [color4]
    are given; a colour of the options is empty or starts with "#". *)
Theorem svgOptions_within_bounds (TrimSpace : string -> string) (query : string -> string) :
  let opts := HeatmapHandler.svgOptions TrimSpace query in
  1 <= HeatmapHandler.Days opts <= 365
  /\ 5 <= HeatmapHandler.CellSize opts <= 20
  /\ 0 <= HeatmapHandler.CellRadius opts <= 10
  /\ HeatmapHandler.Theme opts <> ""
  /\ ((HeatmapHandler.CustomColors opts = []
       /\ exists i, (i < 5)%nat /\ query (HeatmapHandler.colorParam i) = "")
      \/ (length (HeatmapHandler.CustomColors opts) = 5%nat
          /\ HeatmapHandler.Theme opts = "custom"
          /\ forall i, (i < 5)%nat -> query (HeatmapHandler.colorParam i) <> ""))
  /\ Forall (fun color => color = "" \/ HeatmapHandler.HasPrefix color "#" = true)
            (HeatmapHandler.BgColor opts :: HeatmapHandler.TextColor opts
             :: HeatmapHandler.CustomColors opts).
Proof.
  intros opts. subst opts. unfold HeatmapHandler.svgOptions.
  cbn [HeatmapHandler.Days HeatmapHandler.CellSize HeatmapHandler.CellRadius
       HeatmapHandler.Theme HeatmapHandler.CustomColors HeatmapHandler.BgColor
       HeatmapHandler.TextColor].
  split; [by apply numeric_bounds|]. split; [by apply numeric_bounds|].
  split; [by apply numeric_bounds|].
  unfold HeatmapHandler.customColorsOf. rewrite customColors_fold. cbn [app].
  set (given := fun i => negb (bool_decide (query (HeatmapHandler.colorParam i) = ""))).
  set (colour := fun i => HeatmapHandler.parseHexColor TrimSpace
                            (query (HeatmapHandler.colorParam i))).
  assert (Hcolors : Forall (fun color => color = ""
                                         \/ HeatmapHandler.HasPrefix color "#" = true)
                           (colour <$> List.filter given (seq 0 5))).
  { apply Forall_fmap, Forall_forall. intros i _. unfold compose, colour.
    apply parseHexColor_prefix. }
  assert (Hfield : forall value,
            (if bool_decide (value = "") then ""
             else HeatmapHandler.parseHexColor TrimSpace value) = ""
            \/ HeatmapHandler.HasPrefix
                 (if bool_decide (value = "") then ""
                  else HeatmapHandler.parseHexColor TrimSpace value) "#" = true).
  { intros value. destruct (bool_decide _); [by left|apply parseHexColor_prefix]. }
  destruct (filter_length_all given (seq 0 5)) as [Hle Hiff].
  rewrite length_fmap. rewrite length_seq in Hle, Hiff.
  destruct (Nat.eqb_spec (length (List.filter given (seq 0 5))) 5) as [Hfive|Hnot].
  - split; [done|]. split.
    + right. split; [by rewrite length_fmap|]. split; [done|].
      intros i Hi Hempty.
      assert (Hin : i ∈ seq 0 5) by (apply elem_of_seq; lia).
      pose proof (proj1 Hiff Hfive i Hin) as Hgiven. unfold given in Hgiven.
      by rewrite Hempty in Hgiven.
    + repeat (apply Forall_cons; split; [apply Hfield|]). exact Hcolors.
  - split; [by destruct (bool_decide_reflect (query "theme" = ""))|].
    split.
    + left. split; [done|].
      destruct (decide (Forall (fun i => given i = true) (seq 0 5))) as [Hall|Hmiss].
      { exfalso. apply Hnot, Hiff. by apply Forall_forall. }
      apply not_Forall_Exists in Hmiss; [|intros i; apply _].
      apply Exists_exists in Hmiss as (i & Hin & Hi). apply elem_of_seq in Hin.
      exists i. split; [lia|]. unfold compose, given in Hi.
      destruct (bool_decide_reflect (query (HeatmapHandler.colorParam i) = "")); [done|].
      exfalso. by apply Hi.
    + repeat (apply Forall_cons; split; [apply Hfield|]). constructor.
Qed.


(** X26. The options of the query
    [?days=30&cell_size=50&radius=abc&hide_total=1&bg_color=1a1a2e&color0=...&color4=...]:
    30 days, the default cell size for the size that is out of range, the
    default radius for the radius that is no number, the total hidden,
    the five colours with their "#" and, because all five are given, the
    theme "custom". *)
Theorem svgOptions_of_a_custom_query :
  HeatmapHandler.svgOptions Cases.trimmed Cases.imageQuery
  = {| HeatmapHandler.Theme := "custom";
       HeatmapHandler.Days := 30;
       HeatmapHandler.CellSize := 11;
       HeatmapHandler.CellRadius := 2;
       HeatmapHandler.HideLegend := false;
       HeatmapHandler.HideTotal := true;
       HeatmapHandler.HideLabels := false;
       HeatmapHandler.CustomTitle := "";
       HeatmapHandler.BgColor := "#1a1a2e";
       HeatmapHandler.TextColor := "";
       HeatmapHandler.CustomColors :=
         ["#16213e"; "#0f3460"; "#533483"; "#e94560"; "#ff6b6b"] |}
  /\ Strconv.Atoi "30" = Some 30
  /\ Strconv.Atoi "-7" = Some (-7)
  /\ Strconv.Atoi "+5" = Some 5
  /\ Strconv.Atoi "abc" = None
  /\ Strconv.Atoi "" = None
  /\ Strconv.Atoi "-" = None
  /\ Strconv.Atoi "9223372036854775807" = Some GoInt.maxInt
  /\ Strconv.Atoi "9223372036854775808" = None.
Proof. repeat split; vm_compute; reflexivity. Qed.

(** ** The grid of the front end *)

Lemma grid_position (i row col : nat) :
  (row < 7)%nat -> (col * 7 + row = i)%nat -> row = (i mod 7)%nat /\ col = (i / 7)%nat.
Proof.
  intros Hrow <-. split.
  - rewrite Nat.add_comm, Nat.Div0.mod_add. by rewrite Nat.mod_small.
  - rewrite Nat.add_comm, Nat.div_add by lia. rewrite Nat.div_small by lia. lia.
Qed.

(** X27. The grid shows every entry of the series once, column by
    column: entry [i] is in row [i mod 7] of column [i / 7], a cell of
    the grid, and in no other cell; the cells past the end of the series
    are empty. *)
Theorem grid_shows_every_day_once {A : Type} (data : list A) (i : nat) (day : A) :
  data !! i = Some day ->
  (i mod 7 < 7)%nat
  /\ (i / 7 < HeatmapGrid.numCols (length data))%nat
  /\ HeatmapGrid.getCellData data (i mod 7) (i / 7) = Some day
  /\ HeatmapGrid.cells data !! (i mod 7)%nat
     ≫= (fun cellsOfRow => cellsOfRow !! (i / 7)%nat) = Some (Some day)
  /\ (forall row col, (row < 7)%nat -> (col * 7 + row = i)%nat ->
                      row = (i mod 7)%nat /\ col = (i / 7)%nat)
  /\ (forall row col, (length data <= col * 7 + row)%nat ->
                      HeatmapGrid.getCellData data row col = None).
Proof.
  intros Hday. pose proof (lookup_lt_Some _ _ _ Hday) as Hlt.
  pose proof (Nat.div_mod_eq i 7) as Hi.
  pose proof (Nat.mod_upper_bound i 7 ltac:(lia)) as Hrow.
  assert (Hcol : (i / 7 < HeatmapGrid.numCols (length data))%nat).
  { unfold HeatmapGrid.numCols. apply Nat.Div0.div_lt_upper_bound.
    pose proof (Nat.div_mod_eq (length data + 6) 7).
    pose proof (Nat.mod_upper_bound (length data + 6) 7 ltac:(lia)). lia. }
  assert (Hcell : HeatmapGrid.getCellData data (i mod 7) (i / 7) = Some day).
  { unfold HeatmapGrid.getCellData. rewrite <- Hday. f_equal. lia. }
  split; [done|]. split; [done|]. split; [done|]. split; [|split].
  - unfold HeatmapGrid.cells. rewrite list_lookup_fmap, lookup_seq_lt by done.
    cbn [fmap option_fmap option_map mbind option_bind].
    rewrite list_lookup_fmap, lookup_seq_lt by done.
    cbn [fmap option_fmap option_map]. rewrite !Nat.add_0_l. by rewrite Hcell.
  - apply grid_position.
  - intros row col Hpast. unfold HeatmapGrid.getCellData. by apply lookup_ge_None_2.
Qed.

Lemma grid_shows_every_day_once_witness :
  [10; 11; 12; 13; 14; 15; 16; 17; 18] !! 8%nat = Some 18
  /\ HeatmapGrid.getCellData [10; 11; 12; 13; 14; 15; 16; 17; 18] 1 1 = Some 18
  /\ (8 / 7 < HeatmapGrid.numCols 9)%nat.
Proof.
  split; [reflexivity|].
  pose proof (grid_shows_every_day_once [10; 11; 12; 13; 14; 15; 16; 17; 18] 8 18 eq_refl)
    as (_ & Hcol & Hcell & _).
  split; [exact Hcell|exact Hcol].
Defined.
